(** * Shared utilities of the GitHub Projects automation scripts

    A shallow embedding of [.github/scripts/shared-utils.js]:
    [withRetry], [findProjectFields], [findIssueProjectItem],
    [findPRProjectItem] and [extractIssueFromBranch], together with the
    part of the JavaScript runtime and of the GraphQL service that these
    functions rely on.

    Conventions of the embedding.
    - A JavaScript string is a [string]; the literals the scripts use are
      ASCII, and the log lines are kept byte for byte.  A [string] is a
      sequence of bytes: on text outside ASCII the matcher and the
      parser of numbers see bytes where JavaScript sees UTF-16 code units.
    - A JavaScript number is a [Z] where the scripts count with it
      ([maxRetries], [delay], attempt numbers, parsed issue numbers);
      [NaN] is a value of its own in [JsNumber].  Integers are exact here,
      as JavaScript's are up to [Number.MAX_SAFE_INTEGER].
    - What an operation rejects with is an error object with a [message],
      as the rejections of the Octokit client are.
    - [null] and [undefined] are kept apart in [Nullable]; [nullish] is
      what the callers test with [!item].
    - An [async] function is a computation in the monad [M]: it threads the
      state of the remote service and the trace of observable effects, and
      ends in a returned value or a thrown error.  Calls are sequential, so
      [await] is plain sequencing.

    The second part embeds the rest of the file and the scripts that call
    it: [validateEnvironmentVariables], [createOctokit], [setOutputs],
    [executeScript], and the entry points [addToProject], [moveIssue],
    [addDomain], [findFields], [removePRFromProject], [setDate] with
    [findDateField], [stagingToProduction] with [removeLabel] and
    [addLabels], [findIssue] and [readConfig].  A script runs in a [Job]:
    the remote service together with the outputs, the error lines and the
    failure mark of the workflow step. *)

From Stdlib Require Import ZArith List String Ascii Bool Lia.
From Stdlib Require Import DecimalNat DecimalPos DecimalZ DecimalString.
Import ListNotations.

Local Open Scope string_scope.
Local Open Scope Z_scope.

Set Implicit Arguments.

(** ** JavaScript values *)

(** What the scripts throw and catch.  [new Error(msg)] is [JsError];
    reading a property of [undefined] or [null] raises a [TypeError], an
    ill-formed pattern given to [new RegExp] a [SyntaxError].  All carry a
    [message]. *)
Inductive Thrown : Type :=
| JsError (msg : string)
| TypeError (msg : string)
| SyntaxError (msg : string).

Definition message (e : Thrown) : string :=
  match e with
  | JsError m => m
  | TypeError m => m
  | SyntaxError m => m
  end.

(** A value that may be [undefined] or [null]. *)
Inductive Nullable (A : Type) : Type :=
| Undefined
| Null
| Val (a : A).
Arguments Undefined {A}.
Arguments Null {A}.

Definition nullish {A} (v : Nullable A) : bool :=
  match v with
  | Val _ => false
  | _ => true
  end.

(** [Array.prototype.find]: the first element satisfying the predicate,
    [undefined] when there is none. *)
Definition array_find {A} (p : A -> bool) (xs : list A) : Nullable A :=
  match find p xs with
  | Some x => Val x
  | None => Undefined
  end.

(** Template-literal rendering of an integral number. *)
Definition string_of_Z (z : Z) : string :=
  NilZero.string_of_int (Z.to_int z).

(** ** Observable effects *)

(** The trace records, in program order, every call of the wrapped
    operation, every line written through [core.info] and [core.warning],
    and every timer the retry loop waits on. *)
Inductive Event : Type :=
| Invoke
| Info (line : string)
| Warning (line : string)
| Sleep (ms : Z).

Definition is_invoke (e : Event) : bool :=
  match e with Invoke => true | _ => false end.

Definition is_sleep (e : Event) : bool :=
  match e with Sleep _ => true | _ => false end.

Definition invocations (t : list Event) : nat :=
  List.length (filter is_invoke t).
Definition delays (t : list Event) : nat :=
  List.length (filter is_sleep t).

(** How a computation ends. *)
Inductive Outcome (A : Type) : Type :=
| Return (a : A)
| Throw (e : Thrown).
Arguments Throw {A}.

Section Core.

(** The state of whatever the wrapped operations talk to. *)
Variable W : Type.

Record State : Type := mkState { world : W; trace : list Event }.

Definition M (A : Type) : Type := State -> Outcome A * State.

Definition ret {A} (a : A) : M A := fun s => (Return a, s).

Definition throw {A} (e : Thrown) : M A := fun s => (Throw e, s).

Definition bind {A B} (m : M A) (k : A -> M B) : M B :=
  fun s =>
    match m s with
    | (Return a, s') => k a s'
    | (Throw e, s') => (Throw e, s')
    end.

(** [try { m } catch (error) { handler error }]. *)
Definition try_catch {A} (m : M A) (handler : Thrown -> M A) : M A :=
  fun s =>
    match m s with
    | (Return a, s') => (Return a, s')
    | (Throw e, s') => handler e s'
    end.

Definition emit (e : Event) : M unit :=
  fun s => (Return tt, mkState (world s) (trace s ++ [e])).

Definition core_info (line : string) : M unit := emit (Info line).
Definition core_warning (line : string) : M unit := emit (Warning line).

(** [await new Promise(resolve => setTimeout(resolve, delay))]. *)
Definition sleep (ms : Z) : M unit := emit (Sleep ms).

(** A zero-argument asynchronous operation: it acts on the remote state
    and resolves or rejects. *)
Definition Operation (A : Type) : Type := W -> Outcome A * W.

(** [await fn()], with the call recorded in the trace. *)
Definition invoke {A} (fn : Operation A) : M A :=
  fun s =>
    let (r, w') := fn (world s) in
    (r, mkState w' (trace s ++ [Invoke])).

End Core.

Arguments ret {W A} a.
Arguments throw {W A} e.
Arguments try_catch {W A} m handler.
Arguments core_info {W} line.
Arguments core_warning {W} line.
Arguments sleep {W} ms.

Declare Scope js_scope.
Delimit Scope js_scope with js.
Notation "x <- m ;; k" := (bind m (fun x => k))
  (at level 61, m at next level, right associativity) : js_scope.
Notation "m ;; k" := (bind m (fun _ => k))
  (at level 61, right associativity) : js_scope.
Local Open Scope js_scope.

(** ** withRetry *)

(** The [options] argument; a member left out is [None] and takes its
    default in the destructuring pattern. *)
Record RetryOptions : Type := mkOptions {
  opt_maxRetries : option Z;
  opt_delay : option Z;
  opt_operation : option string
}.

Definition no_options : RetryOptions := mkOptions None None None.

Definition with_operation (label : string) : RetryOptions :=
  mkOptions None None (Some label).

Definition default {A} (d : A) (o : option A) : A :=
  match o with Some a => a | None => d end.

(** The permanent failure: the operation label, the number of attempts
    and the message of the last failure. *)
Definition RetryExhausted (operation : string) (maxRetries : Z)
           (lastError : Thrown) : Thrown :=
  JsError (operation ++ " failed after " ++ string_of_Z maxRetries
             ++ " attempts. Last error: " ++ message lastError).

Definition UndefinedMessage : Thrown :=
  TypeError "Cannot read properties of undefined (reading 'message')".

Section WithRetry.

Variable W : Type.
Variable A : Type.

Variable fn : Operation W A.
Variable maxRetries : Z.
Variable delay : Z.
Variable operation : string.

(** The final [throw].  [lastError] is [None] while the variable is still
    [undefined]; reading [.message] from it is a [TypeError]. *)
Definition exhausted (lastError : option Thrown) : M W A :=
  match lastError with
  | Some err => throw (RetryExhausted operation maxRetries err)
  | None => throw UndefinedMessage
  end.

(** One pass through the body of the [for] loop at counter [attempt].
    The [try] block returns from the function; after the [catch] block the
    loop goes on with [again]. *)
Definition attempt_body (attempt : Z) (again : option Thrown -> M W A) : M W A :=
  try_catch
    (result <- invoke fn ;;
     (if 1 <? attempt
      then core_info ("✅ " ++ operation ++ " succeeded on attempt "
                        ++ string_of_Z attempt)
      else ret tt) ;;
     ret result)
    (fun error =>
       core_warning ("⚠️ " ++ operation ++ " failed on attempt "
                       ++ string_of_Z attempt ++ "/" ++ string_of_Z maxRetries
                       ++ ": " ++ message error) ;;
       (if attempt <? maxRetries
        then core_info ("⏱️ Retrying in " ++ string_of_Z delay ++ "ms...") ;;
             sleep delay
        else ret tt) ;;
       again (Some error)).

(** [for (let attempt = 1; attempt <= maxRetries; attempt++) { ... }]
    followed by the final [throw].  The loop test is the one of the
    source; [fuel] only makes the recursion structural, and
    [maxRetries - attempt + 1] turns of it are enough (see
    [retry_loop_enough_fuel]). *)
Fixpoint retry_loop (fuel : nat) (attempt : Z)
         (lastError : option Thrown) : M W A :=
  if attempt <=? maxRetries then
    match fuel with
    | S fuel' => attempt_body attempt (retry_loop fuel' (attempt + 1))
    | O => exhausted lastError
    end
  else exhausted lastError.

End WithRetry.

Definition withRetry {W A} (fn : Operation W A) (options : RetryOptions) : M W A :=
  let maxRetries := default 3 (opt_maxRetries options) in
  let delay := default 1000 (opt_delay options) in
  let operation := default "operation" (opt_operation options) in
  retry_loop fn maxRetries delay operation (Z.to_nat maxRetries) 1 None.

(** ** What the GraphQL queries return *)

(** The shapes below follow the selection sets of [GRAPHQL_QUERIES].  A
    member the service may leave out, or answer with [null], is an
    [option]. *)

Module FieldOption.
Record t : Type := make { id : string; name : string }.
End FieldOption.

(** A node of [fields(first: 50)].  A single-select field carries
    [options]; a plain field carries [dataType] instead.  Nodes of other
    kinds come back without a [name], never satisfy [f.name === fieldName]
    and are left out of the list. *)
Module Field.
Record t : Type := make {
  id : string;
  name : string;
  dataType : option string;
  options : option (list FieldOption.t)
}.
End Field.

Module Project.
Record t : Type := make { id : string }.
End Project.

(** A board-membership: a node of [projectItems]. *)
Module Item.
Record t : Type := make { id : string; project : Project.t }.
End Item.

Module PageInfo.
Record t : Type := make { hasNextPage : bool; endCursor : option string }.
End PageInfo.

(** Result of [PROJECT_FIELDS]: [result.node.fields.nodes]. *)
Module FieldsResult.
Record fields_t : Type := make_fields { nodes : list Field.t }.
Record node_t : Type := make_node { fields : option fields_t }.
Record t : Type := make { node : option node_t }.
End FieldsResult.

(** Result of [ISSUE_PROJECT_ITEMS]: [result.issue.projectItems.nodes]. *)
Module IssueResult.
Record items_t : Type := make_items { nodes : option (list Item.t) }.
Record issue_t : Type := make_issue { projectItems : option items_t }.
Record t : Type := make { issue : option issue_t }.
End IssueResult.

(** Result of [PR_PROJECT_ITEMS_PAGINATED]:
    [result.pullRequest.projectItems.{pageInfo, nodes}]. *)
Module PRResult.
Record items_t : Type := make_items { pageInfo : PageInfo.t; nodes : list Item.t }.
Record pr_t : Type := make_pr { projectItems : option items_t }.
Record t : Type := make { pullRequest : option pr_t }.
End PRResult.

(** [octokit.graphql(query, variables)], one operation per query the
    locators and the resolver send. *)
Record Octokit (W : Type) : Type := mkOctokit {
  graphql_PROJECT_FIELDS :
    string -> Operation W FieldsResult.t;
  graphql_ISSUE_PROJECT_ITEMS :
    string -> Operation W IssueResult.t;
  graphql_PR_PROJECT_ITEMS_PAGINATED :
    string -> option string -> Operation W PRResult.t
}.

(** Truthiness of a string that may be [null]. *)
Definition truthy (v : option string) : bool :=
  match v with
  | Some s => negb (s =? "")%string
  | None => false
  end.

(** ** findProjectFields *)

Record FieldLookup : Type := mkLookup {
  fieldId : string;
  optionId : option string;
  field : Field.t
}.

Definition FieldNotFound (fieldName projectId : string) : Thrown :=
  JsError ("Field '" ++ fieldName ++ "' not found in project " ++ projectId).

Definition OptionNotFound (optionName fieldName : string) : Thrown :=
  JsError ("Option '" ++ optionName ++ "' not found in field '" ++ fieldName ++ "'").

Definition has_name (fieldName : string) (f : Field.t) : bool :=
  (Field.name f =? fieldName)%string.

Definition option_has_name (optionName : string) (opt : FieldOption.t) : bool :=
  (FieldOption.name opt =? optionName)%string.

Section Queries.

Variable W : Type.
Variable octokit : Octokit W.

(** [result.node.fields.nodes] *)
Definition fields_nodes (result : FieldsResult.t) : M W (list Field.t) :=
  match FieldsResult.node result with
  | None => throw (TypeError "Cannot read properties of null (reading 'fields')")
  | Some node =>
      match FieldsResult.fields node with
      | None => throw (TypeError "Cannot read properties of undefined (reading 'nodes')")
      | Some fields => ret (FieldsResult.nodes fields)
      end
  end.

(** The [if (optionName && field.options)] block. *)
Definition select_option (fieldName : string) (optionName : option string)
           (field : Field.t) : M W (option string) :=
  match optionName, Field.options field with
  | Some name, Some options =>
      if truthy optionName then
        match find (option_has_name name) options with
        | None => throw (OptionNotFound name fieldName)
        | Some option => ret (Some (FieldOption.id option))
        end
      else ret None
  | _, _ => ret None
  end.

Definition findProjectFields (projectId fieldName : string)
           (optionName : option string) : M W FieldLookup :=
  result <- withRetry (graphql_PROJECT_FIELDS octokit projectId)
                      (with_operation "finding project fields") ;;
  fields <- fields_nodes result ;;
  match find (has_name fieldName) fields with
  | None => throw (FieldNotFound fieldName projectId)
  | Some field =>
      optionId <- select_option fieldName optionName field ;;
      core_info ("✅ Found field '" ++ fieldName ++ "' (ID: " ++ Field.id field ++ ")"
                   ++ (if truthy optionId
                       then " with option '" ++ default "null" optionName
                              ++ "' (ID: " ++ default "null" optionId ++ ")"
                       else "")) ;;
      ret (mkLookup (Field.id field) optionId field)
  end.

(** ** findIssueProjectItem *)

Definition on_project (projectId : string) (projectItem : Item.t) : bool :=
  (Project.id (Item.project projectItem) =? projectId)%string.

(** [result.issue?.projectItems?.nodes?.find(...)]: [undefined] as soon as
    one link of the chain is missing. *)
Definition issue_item (projectId : string) (result : IssueResult.t)
  : Nullable Item.t :=
  match IssueResult.issue result with
  | None => Undefined
  | Some issue =>
      match IssueResult.projectItems issue with
      | None => Undefined
      | Some projectItems =>
          match IssueResult.nodes projectItems with
          | None => Undefined
          | Some nodes => array_find (on_project projectId) nodes
          end
      end
  end.

Definition findIssueProjectItem (issueNodeId projectId : string)
  : M W (Nullable Item.t) :=
  result <- withRetry (graphql_ISSUE_PROJECT_ITEMS octokit issueNodeId)
                      (with_operation "finding issue project items") ;;
  let item := issue_item projectId result in
  match item with
  | Val it =>
      core_info ("✅ Found project item " ++ Item.id it
                   ++ " for issue in project " ++ projectId)
  | _ =>
      core_warning ("⚠️ No project item found for issue " ++ issueNodeId
                      ++ " in project " ++ projectId)
  end ;;
  ret item.

(** ** findPRProjectItem *)

(** The statements after the [while] loop. *)
Definition pr_epilogue (prNodeId projectId : string)
           (projectItem : Nullable Item.t) : M W (Nullable Item.t) :=
  match projectItem with
  | Val it =>
      core_info ("✅ Found project item " ++ Item.id it
                   ++ " for PR in project " ++ projectId)
  | _ =>
      core_warning ("⚠️ No project item found for PR " ++ prNodeId
                      ++ " in project " ++ projectId)
  end ;;
  ret projectItem.

(** [while (hasNextPage && !projectItem) { ... }] followed by the
    epilogue.  The service decides how long the loop runs, so the model
    takes [fuel], the number of pages it is willing to fetch, and answers
    [None] when the loop is still running after that many. *)
Fixpoint pr_loop (fuel : nat) (prNodeId projectId : string)
         (projectItem : Nullable Item.t) (hasNextPage : bool)
         (cursor : option string) : M W (option (Nullable Item.t)) :=
  if hasNextPage && nullish projectItem then
    match fuel with
    | O => ret None
    | S fuel' =>
        result <- withRetry
                    (graphql_PR_PROJECT_ITEMS_PAGINATED octokit prNodeId cursor)
                    (with_operation "finding PR project items") ;;
        match PRResult.pullRequest result with
        | None =>
            core_warning ("⚠️ PR with node ID " ++ prNodeId ++ " not found") ;;
            ret (Some Null)
        | Some pr =>
            match PRResult.projectItems pr with
            | None =>
                throw (TypeError
                         "Cannot read properties of undefined (reading 'nodes')")
            | Some items =>
                pr_loop fuel' prNodeId projectId
                        (array_find (on_project projectId) (PRResult.nodes items))
                        (PageInfo.hasNextPage (PRResult.pageInfo items))
                        (PageInfo.endCursor (PRResult.pageInfo items))
            end
        end
    end
  else
    item <- pr_epilogue prNodeId projectId projectItem ;;
    ret (Some item).

Definition findPRProjectItem (fuel : nat) (prNodeId projectId : string)
  : M W (option (Nullable Item.t)) :=
  pr_loop fuel prNodeId projectId Null true None.

End Queries.

Arguments findProjectFields {W} octokit projectId fieldName optionName.
Arguments findIssueProjectItem {W} octokit issueNodeId projectId.
Arguments pr_loop {W} octokit fuel prNodeId projectId projectItem hasNextPage cursor.
Arguments findPRProjectItem {W} octokit fuel prNodeId projectId.

(** ** The service behind the queries *)

(** What the three queries evaluate to on a service that holds, for every
    board, its fields and, for every issue and pull request, its
    board-memberships, and that answers every request.  The limits are the
    [first:] arguments of the query texts; a cursor is the decimal number
    of memberships already handed out. *)
Module GitHub.

Record Remote : Type := mkRemote {
  board_fields : string -> option (list Field.t);
  issue_items : string -> option (list Item.t);
  pr_items : string -> option (list Item.t)
}.

Definition fields_first : nat := 50.
Definition issue_items_first : nat := 20.
Definition pr_items_first : nat := 100.

Definition encode_cursor (offset : nat) : string :=
  NilZero.string_of_uint (Nat.to_uint offset).

Definition decode_cursor (cursor : option string) : option nat :=
  match cursor with
  | None => Some O
  | Some c => option_map Nat.of_uint (NilZero.uint_of_string c)
  end.

(** [projectItems(first: 100, after: $cursor)] over [items]. *)
Definition page (items : list Item.t) (offset : nat) : PRResult.items_t :=
  let rest := skipn offset items in
  let nodes := firstn pr_items_first rest in
  PRResult.make_items
    (PageInfo.make (pr_items_first <? List.length rest)%nat
                   (match nodes with
                    | [] => None
                    | _ => Some (encode_cursor (offset + List.length nodes))
                    end))
    nodes.

Definition project_fields (projectId : string) : Operation Remote FieldsResult.t :=
  fun remote =>
    (Return (FieldsResult.make
               (option_map
                  (fun fields =>
                     FieldsResult.make_node
                       (Some (FieldsResult.make_fields (firstn fields_first fields))))
                  (board_fields remote projectId))),
     remote).

Definition issue_project_items (issueNodeId : string)
  : Operation Remote IssueResult.t :=
  fun remote =>
    (Return (IssueResult.make
               (option_map
                  (fun items =>
                     IssueResult.make_issue
                       (Some (IssueResult.make_items
                                (Some (firstn issue_items_first items)))))
                  (issue_items remote issueNodeId))),
     remote).

Definition pr_project_items (prNodeId : string) (cursor : option string)
  : Operation Remote PRResult.t :=
  fun remote =>
    match decode_cursor cursor with
    | None => (Throw (JsError "invalid cursor"), remote)
    | Some offset =>
        (Return (PRResult.make
                   (option_map
                      (fun items => PRResult.make_pr (Some (page items offset)))
                      (pr_items remote prNodeId))),
         remote)
    end.

Definition octokit : Octokit Remote :=
  mkOctokit project_fields issue_project_items pr_project_items.

End GitHub.

(** ** The runtime's strings *)

Fixpoint string_drop (n : nat) (s : string) : string :=
  match n, s with
  | S n', String _ s' => string_drop n' s'
  | _, _ => s
  end.

Fixpoint string_take (n : nat) (s : string) : string :=
  match n, s with
  | S n', String c s' => String c (string_take n' s')
  | _, _ => ""
  end.

(** [s.replace(search, replacement)] with a string [search] and a
    [replacement] without [$]: the first occurrence of [search] in [s],
    wherever it starts, is replaced; a string without an occurrence is
    returned as it is. *)
Fixpoint string_replace (s search replacement : string) : string :=
  if prefix search s
  then replacement ++ string_drop (String.length search) s
  else match s with
       | "" => ""
       | String c s' => String c (string_replace s' search replacement)
       end.

(** A JavaScript number as the extractor produces it. *)
Inductive JsNumber : Type :=
| NaN
| Num (z : Z).

Definition string_of_number (n : JsNumber) : string :=
  match n with
  | NaN => "NaN"
  | Num z => string_of_Z z
  end.

Definition N_between (lo hi : N) (c : ascii) : bool :=
  ((lo <=? N_of_ascii c) && (N_of_ascii c <=? hi))%N.

Definition is_digit (c : ascii) : bool := N_between 48 57 c.

Definition is_word (c : ascii) : bool :=
  is_digit c || N_between 65 90 c || N_between 97 122 c || Ascii.eqb c "_".

(** ASCII white space and line terminators. *)
Definition is_space (c : ascii) : bool :=
  N_between 9 13 c || Ascii.eqb c " ".

Definition is_line_terminator (c : ascii) : bool :=
  Ascii.eqb c "010" || Ascii.eqb c "013".

Definition digit_value (c : ascii) : Z := Z.of_N (N_of_ascii c) - 48.

Fixpoint skip_space (s : string) : string :=
  match s with
  | String c s' => if is_space c then skip_space s' else s
  | "" => ""
  end.

(** The longest prefix of decimal digits, read left to right. *)
Fixpoint read_digits (s : string) (acc : option Z) : option Z :=
  match s with
  | String c s' =>
      if is_digit c
      then read_digits s' (Some (10 * default 0 acc + digit_value c))
      else acc
  | "" => acc
  end.

(** [parseInt(s, 10)]: leading white space is skipped, one sign is
    accepted, then the longest run of decimal digits is read; no digit
    gives [NaN].  The value is exact, as it is in JavaScript below 2^53. *)
Definition parseInt10 (s : string) : JsNumber :=
  let trimmed := skip_space s in
  let (negative, digits) :=
    match trimmed with
    | String "-" rest => (true, rest)
    | String "+" rest => (false, rest)
    | _ => (false, trimmed)
    end in
  match read_digits digits None with
  | None => NaN
  | Some z => Num (if negative then - z else z)
  end.

(** ** The runtime's regular expressions *)

(** [new RegExp(pattern)] without flags and [subject.match(re)], for the
    pattern syntax the branch conventions use: literal characters, [.],
    the escapes [\d \D \w \W \s \S \t \n \v \f \r] and escaped
    punctuation, character classes with ranges, capturing and
    non-capturing groups, alternation, the anchors [^] and [$] and the
    greedy quantifiers [* + ?].  [compile] answers [Unsupported] on
    anything else (counted and lazy quantifiers, back-references,
    look-around, named groups, [\b], code-point escapes); the model says
    nothing about such patterns.  Matching is the backtracking matcher of
    the language definition: a matcher takes the current position and a
    continuation, and the first way through that the continuation accepts
    wins. *)
Module RegExp.

Inductive ClassItem : Type :=
| One (c : ascii)
| Range (lo hi : ascii)
| Digit | NotDigit
| Word | NotWord
| Space | NotSpace.

Inductive Re : Type :=
| Empty
| Char (c : ascii)
| AnyChar
| Class (negated : bool) (items : list ClassItem)
| Bol
| Eol
| Seq (r1 r2 : Re)
| Alt (r1 r2 : Re)
| Star (r : Re)
| Plus (r : Re)
| Opt (r : Re)
| Group (index : nat) (r : Re).

Definition in_item (c : ascii) (item : ClassItem) : bool :=
  match item with
  | One c' => Ascii.eqb c c'
  | Range lo hi => N_between (N_of_ascii lo) (N_of_ascii hi) c
  | Digit => is_digit c
  | NotDigit => negb (is_digit c)
  | Word => is_word c
  | NotWord => negb (is_word c)
  | Space => is_space c
  | NotSpace => negb (is_space c)
  end.

(** *** Matching *)

(** Slot 0 is the whole match, slot [i] the text of group [i];
    [None] is [undefined]. *)
Definition Captures : Type := list (option string).

Fixpoint set_capture (i : nat) (v : option string) (caps : Captures) : Captures :=
  match i, caps with
  | O, _ :: rest => v :: rest
  | S i', c :: rest => c :: set_capture i' v rest
  | _, [] => []
  end.

Fixpoint groups_of (r : Re) : list nat :=
  match r with
  | Seq r1 r2 | Alt r1 r2 => groups_of r1 ++ groups_of r2
  | Star r1 | Plus r1 | Opt r1 => groups_of r1
  | Group i r1 => i :: groups_of r1
  | _ => []
  end.

(** Entering a quantified atom forgets what its groups captured before. *)
Definition clear_captures (r : Re) (caps : Captures) : Captures :=
  fold_right (fun i acc => set_capture i None acc) caps (groups_of r).

Definition Continuation : Type := nat -> string -> Captures -> option Captures.

Definition Matcher : Type :=
  nat -> string -> Captures -> Continuation -> option Captures.

Definition one_char (accept : ascii -> bool) : Matcher :=
  fun pos rest caps k =>
    match rest with
    | String c rest' => if accept c then k (S pos) rest' caps else None
    | "" => None
    end.

Definition or_else (first : option Captures) (second : unit -> option Captures)
  : option Captures :=
  match first with
  | Some caps => Some caps
  | None => second tt
  end.

(** Greedy repetition, zero or more times.  An iteration that consumes
    nothing is rejected, so [fuel] above the length of the rest never runs
    out. *)
Fixpoint repeat_greedy (m : Matcher) (k : Continuation) (fuel : nat)
         (pos : nat) (rest : string) (caps : Captures) : option Captures :=
  match fuel with
  | O => k pos rest caps
  | S fuel' =>
      or_else
        (m pos rest caps
           (fun pos1 rest1 caps1 =>
              if (pos1 =? pos)%nat then None
              else repeat_greedy m k fuel' pos1 rest1 caps1))
        (fun _ => k pos rest caps)
  end.

Fixpoint run (r : Re) : Matcher :=
  fun pos rest caps k =>
    match r with
    | Empty => k pos rest caps
    | Char c => one_char (Ascii.eqb c) pos rest caps k
    | AnyChar => one_char (fun c => negb (is_line_terminator c)) pos rest caps k
    | Class negated items =>
        one_char (fun c => xorb negated (existsb (in_item c) items)) pos rest caps k
    | Bol => if (pos =? 0)%nat then k pos rest caps else None
    | Eol => match rest with "" => k pos rest caps | _ => None end
    | Seq r1 r2 =>
        run r1 pos rest caps (fun pos1 rest1 caps1 => run r2 pos1 rest1 caps1 k)
    | Alt r1 r2 =>
        or_else (run r1 pos rest caps k) (fun _ => run r2 pos rest caps k)
    | Star r1 =>
        repeat_greedy (fun p s c k' => run r1 p s (clear_captures r1 c) k')
                      k (S (String.length rest)) pos rest caps
    | Plus r1 =>
        run r1 pos rest (clear_captures r1 caps)
            (fun pos1 rest1 caps1 =>
               repeat_greedy (fun p s c k' => run r1 p s (clear_captures r1 c) k')
                             k (S (String.length rest1)) pos1 rest1 caps1)
    | Opt r1 =>
        or_else
          (run r1 pos rest (clear_captures r1 caps)
               (fun pos1 rest1 caps1 =>
                  if (pos1 =? pos)%nat then None else k pos1 rest1 caps1))
          (fun _ => k pos rest caps)
    | Group i r1 =>
        run r1 pos rest caps
            (fun pos1 rest1 caps1 =>
               k pos1 rest1
                 (set_capture i (Some (string_take (pos1 - pos) rest)) caps1))
    end.

(** A compiled pattern: the expression and the number of its groups. *)
Record t : Type := make { expr : Re; ngroups : nat }.

(** The match array of the leftmost position at which the pattern
    matches; [None] is [null]. *)
Fixpoint search (re : t) (pos : nat) (rest : string) : option Captures :=
  or_else
    (run (expr re) pos rest (repeat None (S (ngroups re)))
         (fun pos1 _ caps1 =>
            Some (set_capture 0 (Some (string_take (pos1 - pos) rest)) caps1)))
    (fun _ =>
       match rest with
       | "" => None
       | String _ rest' => search re (S pos) rest'
       end).

Definition exec (re : t) (subject : string) : option Captures :=
  search re 0 subject.

(** *** Compiling a pattern *)

Inductive Parsed (A : Type) : Type :=
| Ok (a : A)
| Invalid (reason : string)
| Unsupported.
Arguments Invalid {A}.
Arguments Unsupported {A}.

Definition and_then {A B} (p : Parsed A) (k : A -> Parsed B) : Parsed B :=
  match p with
  | Ok a => k a
  | Invalid reason => Invalid reason
  | Unsupported => Unsupported
  end.

Definition is_alnum (c : ascii) : bool :=
  is_digit c || N_between 65 90 c || N_between 97 122 c.

(** The character a control escape or an escaped punctuation sign denotes. *)
Definition escaped_char (c : ascii) : option ascii :=
  if Ascii.eqb c "t" then Some "009"%char
  else if Ascii.eqb c "n" then Some "010"%char
  else if Ascii.eqb c "v" then Some "011"%char
  else if Ascii.eqb c "f" then Some "012"%char
  else if Ascii.eqb c "r" then Some "013"%char
  else if is_alnum c then None
  else Some c.

Definition escaped_class (c : ascii) : option ClassItem :=
  if Ascii.eqb c "d" then Some Digit
  else if Ascii.eqb c "D" then Some NotDigit
  else if Ascii.eqb c "w" then Some Word
  else if Ascii.eqb c "W" then Some NotWord
  else if Ascii.eqb c "s" then Some Space
  else if Ascii.eqb c "S" then Some NotSpace
  else None.

(** One member of a character class: an escape or a plain character. *)
Definition class_atom (s : string) : Parsed (ClassItem * string) :=
  match s with
  | String "\" (String c s') =>
      match escaped_class c with
      | Some item => Ok (item, s')
      | None =>
          if Ascii.eqb c "b" then Ok (One "008"%char, s')
          else match escaped_char c with
               | Some c' => Ok (One c', s')
               | None => Unsupported
               end
      end
  | String "\" "" => Invalid "\ at end of pattern"
  | String c s' => Ok (One c, s')
  | "" => Invalid "Unterminated character class"
  end.

(** The members of a class up to the closing bracket. *)
Fixpoint class_items (fuel : nat) (s : string) (acc : list ClassItem)
  : Parsed (list ClassItem * string) :=
  match fuel with
  | O => Unsupported
  | S fuel' =>
      match s with
      | "" => Invalid "Unterminated character class"
      | String "]" s' => Ok (rev acc, s')
      | _ =>
          and_then (class_atom s) (fun '(lo, s1) =>
            match s1 with
            | String "-" (String "]" _) | String "-" "" =>
                class_items fuel' s1 (lo :: acc)
            | String "-" s2 =>
                and_then (class_atom s2) (fun '(hi, s3) =>
                  match lo, hi with
                  | One a, One b =>
                      if (N_of_ascii a <=? N_of_ascii b)%N
                      then class_items fuel' s3 (Range a b :: acc)
                      else Invalid "Range out of order in character class"
                  | _, _ => Unsupported
                  end)
            | _ => class_items fuel' s1 (lo :: acc)
            end)
      end
  end.

(** The quantifier that may follow an atom. *)
Definition quantified (atom : Re) (s : string) : Parsed (Re * string) :=
  let after (r : Re) (s' : string) : Parsed (Re * string) :=
    match s' with
    | String "?" _ | String "{" _ => Unsupported
    | String "*" _ | String "+" _ => Invalid "Nothing to repeat"
    | _ => Ok (r, s')
    end in
  match s with
  | String "*" s' => after (Star atom) s'
  | String "+" s' => after (Plus atom) s'
  | String "?" s' => after (Opt atom) s'
  | String "{" _ => Unsupported
  | _ => Ok (atom, s)
  end.

(** An assertion takes no quantifier. *)
Definition unquantified (assertion : Re) (s : string) : Parsed (Re * string) :=
  match s with
  | String "*" _ | String "+" _ | String "?" _ => Invalid "Nothing to repeat"
  | String "{" _ => Unsupported
  | _ => Ok (assertion, s)
  end.

(** Recursive descent over [Disjunction], [Alternative] and [Term]; [n] is
    the number of groups opened so far, which numbers them by their
    opening parenthesis. *)
Fixpoint disjunction (fuel : nat) (s : string) (n : nat)
  : Parsed (Re * string * nat) :=
  match fuel with
  | O => Unsupported
  | S fuel' =>
      and_then (alternative fuel' s n) (fun '(r1, s1, n1) =>
        match s1 with
        | String "|" s2 =>
            and_then (disjunction fuel' s2 n1) (fun '(r2, s3, n2) =>
              Ok (Alt r1 r2, s3, n2))
        | _ => Ok (r1, s1, n1)
        end)
  end

with alternative (fuel : nat) (s : string) (n : nat)
  : Parsed (Re * string * nat) :=
  match fuel with
  | O => Unsupported
  | S fuel' =>
      match s with
      | "" | String "|" _ | String ")" _ => Ok (Empty, s, n)
      | _ =>
          and_then (term fuel' s n) (fun '(r1, s1, n1) =>
            and_then (alternative fuel' s1 n1) (fun '(r2, s2, n2) =>
              Ok (Seq r1 r2, s2, n2)))
      end
  end

with term (fuel : nat) (s : string) (n : nat)
  : Parsed (Re * string * nat) :=
  match fuel with
  | O => Unsupported
  | S fuel' =>
      let finish (n' : nat) (p : Parsed (Re * string)) :=
        and_then p (fun '(r, s') => Ok (r, s', n')) in
      match s with
      | "" => Ok (Empty, s, n)
      | String "^" s' => finish n (unquantified Bol s')
      | String "$" s' => finish n (unquantified Eol s')
      | String "." s' => finish n (quantified AnyChar s')
      | String "*" _ | String "+" _ | String "?" _ => Invalid "Nothing to repeat"
      | String "{" _ | String "}" _ | String "]" _ => Unsupported
      | String "\" "" => Invalid "\ at end of pattern"
      | String "\" (String c s') =>
          match escaped_class c with
          | Some item => finish n (quantified (Class false [item]) s')
          | None =>
              match escaped_char c with
              | Some c' => finish n (quantified (Char c') s')
              | None => Unsupported
              end
          end
      | String "[" (String "^" s') =>
          and_then (class_items (S (String.length s')) s' []) (fun '(items, s1) =>
            finish n (quantified (Class true items) s1))
      | String "[" s' =>
          and_then (class_items (S (String.length s')) s' []) (fun '(items, s1) =>
            finish n (quantified (Class false items) s1))
      | String "(" (String "?" (String ":" s')) =>
          and_then (disjunction fuel' s' n) (fun '(r, s1, n1) =>
            match s1 with
            | String ")" s2 => finish n1 (quantified r s2)
            | _ => Invalid "Unterminated group"
            end)
      | String "(" (String "?" _) => Unsupported
      | String "(" s' =>
          and_then (disjunction fuel' s' (S n)) (fun '(r, s1, n1) =>
            match s1 with
            | String ")" s2 => finish n1 (quantified (Group (S n) r) s2)
            | _ => Invalid "Unterminated group"
            end)
      | String c s' => finish n (quantified (Char c) s')
      end
  end.

Definition compile (pattern : string) : Parsed t :=
  and_then (disjunction (4 * String.length pattern + 4) pattern 0)
    (fun '(r, rest, n) =>
       match rest with
       | "" => Ok (make r n)
       | _ => Invalid "Unmatched ')'"
       end).

End RegExp.

(** ** extractIssueFromBranch *)

Section Extract.

Variable W : Type.

(** The function from [new RegExp(regex)] on, on the branch name it is
    given as [cleanBranch]. *)
Definition extract_from (cleanBranch regex : string)
  : option (M W (Nullable JsNumber)) :=
  match RegExp.compile regex with
  | RegExp.Unsupported => None
  | RegExp.Invalid reason =>
      Some (throw (SyntaxError ("Invalid regular expression: /" ++ regex
                                  ++ "/: " ++ reason)))
  | RegExp.Ok regexPattern =>
      Some
        (let match_ := RegExp.exec regexPattern cleanBranch in
         let group1 :=
           match match_ with
           | Some captures => nth 1 captures None
           | None => None
           end in
         if truthy group1 then
           let issueNumber := parseInt10 (default "" group1) in
           core_info ("✅ Extracted issue #" ++ string_of_number issueNumber
                        ++ " from branch '" ++ cleanBranch ++ "'") ;;
           ret (Val issueNumber)
         else
           core_info ("ℹ️ No issue number found in branch '" ++ cleanBranch
                        ++ "' using regex '" ++ regex ++ "'") ;;
           ret Null)
  end.

(** The outer [option] is [None] for a pattern outside the modelled
    syntax; the function itself returns a number or [null]. *)
Definition extractIssueFromBranch (branch regex : string)
  : option (M W (Nullable JsNumber)) :=
  let cleanBranch := string_replace branch "refs/heads/" "" in
  extract_from cleanBranch regex.

End Extract.

Arguments extract_from {W} cleanBranch regex.
Arguments extractIssueFromBranch {W} branch regex.

(** How a call of the extractor from state [s] ends. *)
Definition outcome_of {W A} (run : option (M W A)) (s : State W)
  : option (Outcome A) :=
  option_map (fun m => fst (m s)) run.

(** [search] occurs somewhere in [s]. *)
Fixpoint occurs (search s : string) : bool :=
  prefix search s
  || match s with
     | "" => false
     | String _ s' => occurs search s'
     end.

(** ** Vocabulary of the statements *)

(** [x] is the first element of [l] that satisfies [p]. *)
Definition first_such {A} (p : A -> Prop) (l : list A) (x : A) : Prop :=
  exists before after,
    l = (before ++ x :: after)%list /\ p x /\ Forall (fun y => ~ p y) before.

(** [undefined] for a missing value. *)
Definition to_nullable {A} (o : option A) : Nullable A :=
  match o with
  | Some a => Val a
  | None => Undefined
  end.

(** The line [findIssueProjectItem] writes before it returns. *)
Definition issue_log_line (issueNodeId projectId : string)
           (item : Nullable Item.t) : Event :=
  match item with
  | Val it =>
      Info ("✅ Found project item " ++ Item.id it
              ++ " for issue in project " ++ projectId)
  | _ =>
      Warning ("⚠️ No project item found for issue " ++ issueNodeId
                 ++ " in project " ++ projectId)
  end.

(** The line [findPRProjectItem] writes after the loop. *)
Definition pr_log_line (prNodeId projectId : string)
           (projectItem : Nullable Item.t) : Event :=
  match projectItem with
  | Val it =>
      Info ("✅ Found project item " ++ Item.id it
              ++ " for PR in project " ++ projectId)
  | _ =>
      Warning ("⚠️ No project item found for PR " ++ prNodeId
                 ++ " in project " ++ projectId)
  end.

(** ** Fixtures *)

Module Fixtures.

(** An operation over a call counter that rejects its first [n] calls. *)
Definition fails_first (n : nat) : Operation nat string :=
  fun calls =>
    if (calls <? n)%nat
    then (Throw (JsError "socket hang up"), S calls)
    else (Return "done", S calls).

Definition item (id projectId : string) : Item.t :=
  Item.make id (Project.make projectId).

Definition elsewhere (n : nat) : list Item.t :=
  repeat (item "PVTI_other" "PVT_other") n.

(** A service that knows one pull request and one issue, both with the
    memberships [items], and one board with the fields [fields]. *)
Definition remote (fields : list Field.t) (items : list Item.t) : GitHub.Remote :=
  GitHub.mkRemote
    (fun projectId => if (projectId =? "PVT_board")%string then Some fields else None)
    (fun issueNodeId => if (issueNodeId =? "I_1")%string then Some items else None)
    (fun prNodeId => if (prNodeId =? "PR_1")%string then Some items else None).

Definition status_field : Field.t :=
  Field.make "F_status" "Status" None
             (Some [FieldOption.make "O_todo" "Todo"; FieldOption.make "O_done" "Done"]).

Definition date_field : Field.t :=
  Field.make "F_end" "End date" (Some "DATE") None.

End Fixtures.

(** * The rest of the scripts *)

Unset Implicit Arguments.

(** ** Runs of rejections *)

(** [n] calls of [fn] in a row from world [w] that all reject: the world
    they lead to and the last rejection ([last] when [n] is 0). *)
Fixpoint rejections {W A} (fn : Operation W A) (n : nat) (w : W)
         (last : option Thrown) : option (W * option Thrown) :=
  match n with
  | O => Some (w, last)
  | S n' =>
      match fn w with
      | (Throw e, w') => rejections fn n' w' (Some e)
      | (Return _, _) => None
      end
  end.

(** ** Calls and waits *)

(** The events of a run that are calls of the operation or waits. *)
Definition call_or_wait (e : Event) : bool := is_invoke e || is_sleep e.

(** [n] calls in a row with one wait of [delay] between each two of them:
    no wait before the first call and none after the last. *)
Fixpoint spaced_calls (delay : Z) (n : nat) : list Event :=
  match n with
  | O => []
  | S n' =>
      match n' with
      | O => [Invoke]
      | S _ => Invoke :: Sleep delay :: spaced_calls delay n'
      end
  end.

(** ** The environment of a script *)

(** [process.env]: a variable holds a string or is not set.  This is
    [process.env[name]] for every name but the few of [inherited_name]. *)
Definition Env : Type := string -> option string.

(** The property names every object inherits from [Object.prototype].
    With no variable of such a name set, [process.env[name]] is not
    [undefined] there but the inherited function or object. *)
Definition Object_prototype_names : list string :=
  ["constructor"; "__defineGetter__"; "__defineSetter__"; "hasOwnProperty";
   "__lookupGetter__"; "__lookupSetter__"; "isPrototypeOf";
   "propertyIsEnumerable"; "toString"; "valueOf"; "__proto__"; "toLocaleString"].

Definition inherited_name (name : string) : bool :=
  existsb (String.eqb name) Object_prototype_names.

(** [Number.MAX_SAFE_INTEGER]: up to here every integer is a number of
    its own, so that [parseInt] gives back the integer it reads. *)
Definition MAX_SAFE_INTEGER : Z := 9007199254740991.

(** [array.join(separator)] on an array of strings. *)
Definition join (separator : string) (parts : list string) : string :=
  String.concat separator parts.

(** [!process.env[varName]] *)
Definition unset_in (env : Env) (varName : string) : bool :=
  negb (truthy (env varName)).

Definition validateEnvironmentVariables {W} (env : Env)
           (requiredVars : list string) : M W unit :=
  let missing := filter (unset_in env) requiredVars in
  if (0 <? List.length missing)%nat
  then throw (JsError ("Missing required environment variables: "
                         ++ join ", " missing))
  else core_info ("✅ All required environment variables validated: "
                    ++ join ", " requiredVars).

(** [createOctokit(token)]; [getOctokit] is [github.getOctokit], which
    builds the client. *)
Definition createOctokit {W C} (getOctokit : string -> C)
           (token : option string) : M W C :=
  match token with
  | Some t =>
      if truthy token then ret (getOctokit t)
      else throw (JsError "GitHub token is required")
  | None => throw (JsError "GitHub token is required")
  end.

(** The value in base ten of a sequence of decimal digits that continues
    the number [acc]. *)
Fixpoint horner (d : Decimal.uint) (acc : Z) : Z :=
  match d with
  | Decimal.Nil => acc
  | Decimal.D0 d' => horner d' (10 * acc)
  | Decimal.D1 d' => horner d' (10 * acc + 1)
  | Decimal.D2 d' => horner d' (10 * acc + 2)
  | Decimal.D3 d' => horner d' (10 * acc + 3)
  | Decimal.D4 d' => horner d' (10 * acc + 4)
  | Decimal.D5 d' => horner d' (10 * acc + 5)
  | Decimal.D6 d' => horner d' (10 * acc + 6)
  | Decimal.D7 d' => horner d' (10 * acc + 7)
  | Decimal.D8 d' => horner d' (10 * acc + 8)
  | Decimal.D9 d' => horner d' (10 * acc + 9)
  end.

(** Every character of [s] is a decimal digit. *)
Fixpoint all_digits (s : string) : bool :=
  match s with
  | "" => true
  | String c s' => is_digit c && all_digits s'
  end.

Definition starts_with_digit (s : string) : bool :=
  match s with
  | "" => false
  | String c _ => is_digit c
  end.

(** ** Vocabulary of the properties of the matcher *)

(** A continuation keeps the match array at [n] slots. *)
Definition keeps_length (n : nat) (k : RegExp.Continuation) : Prop :=
  forall pos rest caps out,
    List.length caps = n -> k pos rest caps = Some out -> List.length out = n.

(** So does a matcher, when what follows it does. *)
Definition matcher_keeps_length (n : nat) (m : RegExp.Matcher) : Prop :=
  forall pos rest caps k out,
    keeps_length n k -> List.length caps = n ->
    m pos rest caps k = Some out -> List.length out = n.

(** ** The job a script runs in *)

(** The double-quote character, as a string. *)
Definition dquote : string := String "034"%char "".

(** Besides the remote service, a script acts on the job that runs it:
    [core.setOutput] adds an output, [core.error] an error line,
    [core.setFailed] records the failure message. *)
Record Job (R : Type) : Type := mkJob {
  remote : R;
  outputs : list (string * option string);
  errors : list string;
  failure : option string
}.
Arguments mkJob {R} remote outputs errors failure.
Arguments remote {R} j.
Arguments outputs {R} j.
Arguments errors {R} j.
Arguments failure {R} j.

Definition with_remote {R} (j : Job R) (r : R) : Job R :=
  mkJob r (outputs j) (errors j) (failure j).

Definition on_world {W} (f : W -> W) : M W unit :=
  fun s => (Return tt, mkState (f (world s)) (trace s)).

Definition core_setOutput {R} (key : string) (value : option string)
  : M (Job R) unit :=
  on_world (fun j => mkJob (remote j) (outputs j ++ [(key, value)])
                           (errors j) (failure j)).

Definition core_error {R} (line : string) : M (Job R) unit :=
  on_world (fun j => mkJob (remote j) (outputs j) (errors j ++ [line]) (failure j)).

Definition core_setFailed {R} (msg : string) : M (Job R) unit :=
  on_world (fun j => mkJob (remote j) (outputs j) (errors j) (Some msg)).

(** [setOutputs(outputs)]: the entries of the object, in the order they
    were written.  A value is a string or [null]. *)
Fixpoint setOutputs {R} (entries : list (string * option string))
  : M (Job R) unit :=
  match entries with
  | [] => ret tt
  | (key, value) :: rest =>
      core_setOutput key value ;;
      core_info ("📤 Set output: " ++ key ++ " = " ++ default "null" value) ;;
      setOutputs rest
  end.

(** [executeScript(mainFunction, scriptName)] *)
Definition executeScript {R A} (mainFunction : M (Job R) A) (scriptName : string)
  : M (Job R) unit :=
  try_catch
    (core_info ("🚀 Starting " ++ scriptName) ;;
     mainFunction ;;
     core_info ("✅ " ++ scriptName ++ " completed successfully"))
    (fun error =>
       core_error ("❌ " ++ scriptName ++ " failed: " ++ message error) ;;
       core_setFailed (message error) ;;
       throw error).

(** ** The rest of the client *)

(** Result of [ADD_TO_PROJECT]: [result.addProjectV2ItemById.item.id]. *)
Module AddResult.
Record item_t : Type := make_item { id : string }.
Record payload_t : Type := make_payload { item : option item_t }.
Record t : Type := make { addProjectV2ItemById : option payload_t }.
End AddResult.

(** The mutations of [GRAPHQL_QUERIES], by their variables. *)
Record Mutations (R : Type) : Type := mkMutations {
  graphql_ADD_TO_PROJECT :
    string -> string -> Operation R AddResult.t;
  graphql_UPDATE_PROJECT_FIELD :
    string -> string -> string -> option string -> Operation R unit;
  graphql_UPDATE_PROJECT_DATE_FIELD :
    string -> string -> string -> string -> Operation R unit;
  graphql_REMOVE_FROM_PROJECT :
    string -> string -> Operation R unit
}.
Arguments mkMutations {R} graphql_ADD_TO_PROJECT graphql_UPDATE_PROJECT_FIELD
  graphql_UPDATE_PROJECT_DATE_FIELD graphql_REMOVE_FROM_PROJECT.
Arguments graphql_ADD_TO_PROJECT {R} m projectId contentId.
Arguments graphql_UPDATE_PROJECT_FIELD {R} m projectId itemId fieldId optionId.
Arguments graphql_UPDATE_PROJECT_DATE_FIELD {R} m projectId itemId fieldId dateValue.
Arguments graphql_REMOVE_FROM_PROJECT {R} m projectId itemId.

(** What [octokit.rest.issues.get] answers: [data] with its [node_id];
    the rest of the issue is left to [JSON.stringify]. *)
Module IssueResponse.
Record t (Data : Type) : Type := make { data : Data }.
Arguments make {Data} data.
Arguments data {Data} t.
End IssueResponse.

Module RepoIssue.
Record t : Type := make { number : Z }.
End RepoIssue.

(** The REST calls of the scripts, by their parameters: owner, repository
    and the rest. *)
Record Rest (R Data : Type) : Type := mkRest {
  rest_issues_get :
    string -> string -> JsNumber -> Operation R (IssueResponse.t Data);
  rest_issues_removeLabel :
    string -> string -> Z -> string -> Operation R unit;
  rest_issues_addLabels :
    string -> string -> Z -> list string -> Operation R unit;
  paginate_issues_listForRepo :
    string -> string -> string -> string -> Z -> Operation R (list RepoIssue.t)
}.
Arguments mkRest {R Data} rest_issues_get rest_issues_removeLabel
  rest_issues_addLabels paginate_issues_listForRepo.
Arguments rest_issues_get {R Data} r owner repo issue_number.
Arguments rest_issues_removeLabel {R Data} r owner repo issue_number name.
Arguments rest_issues_addLabels {R Data} r owner repo issue_number labels.
Arguments paginate_issues_listForRepo {R Data} r owner repo state labels per_page.

Record Client (R Data : Type) : Type := mkClient {
  queries : Octokit R;
  mutations : Mutations R;
  rest : Rest R Data
}.
Arguments mkClient {R Data} queries mutations rest.
Arguments queries {R Data} c.
Arguments mutations {R Data} c.
Arguments rest {R Data} c.

(** [github.context]: the repository and, when the event carries an
    issue, its number. *)
Record Context : Type := mkContext {
  repo_owner : string;
  repo_repo : string;
  payload_issue_number : option Z
}.

(** An operation of the client, seen from the job: it acts on the remote
    service and on nothing else. *)
Definition on_job {R A} (op : Operation R A) : Operation (Job R) A :=
  fun j =>
    let (result, r') := op (remote j) in
    (result, with_remote j r').

Definition job_octokit {R} (o : Octokit R) : Octokit (Job R) :=
  mkOctokit
    (fun projectId => on_job (graphql_PROJECT_FIELDS o projectId))
    (fun issueNodeId => on_job (graphql_ISSUE_PROJECT_ITEMS o issueNodeId))
    (fun prNodeId cursor =>
       on_job (graphql_PR_PROJECT_ITEMS_PAGINATED o prNodeId cursor)).

(** [process.env[name]] where the validation has made sure that the
    variable is set. *)
Definition env_string (env : Env) (name : string) : string :=
  default "" (env name).

(** [a || b] on strings that may be unset. *)
Definition or_default (a : option string) (b : string) : string :=
  if truthy a then default "" a else b.

(** ** findDateField *)

Definition is_date_field (fieldName : string) (field : Field.t) : bool :=
  (Field.name field =? fieldName)%string
  && match Field.dataType field with
     | Some dataType => (dataType =? "DATE")%string
     | None => false
     end.

Definition DateFieldNotFound (fieldName : string) : Thrown :=
  JsError ("Date field " ++ dquote ++ fieldName ++ dquote ++ " not found in project").

Definition findDateField {W} (octokit : Octokit W) (projectId fieldName : string)
  : M W Field.t :=
  result <- withRetry (graphql_PROJECT_FIELDS octokit projectId)
                      (with_operation "finding date field") ;;
  fields <- fields_nodes result ;;
  match find (is_date_field fieldName) fields with
  | None => throw (DateFieldNotFound fieldName)
  | Some dateField =>
      core_info ("✅ Found date field '" ++ fieldName ++ "' (ID: "
                   ++ Field.id dateField ++ ")") ;;
      ret dateField
  end.

(** ** The scripts *)

(** [!issueNumber] on what the extractor returns. *)
Definition falsy_number (v : Nullable JsNumber) : bool :=
  match v with
  | Val (Num z) => z =? 0
  | _ => true
  end.

(** [config.json], parsed: the two keys the scripts read, each a string or
    absent. *)
Record ConfigData : Type := mkConfigData {
  config_PROJECT_ID : option string;
  config_DOMAIN : option string
}.

(** What [readConfig] returns when it does not return [null]; a member
    that was not assigned, or was assigned [undefined], is [None]. *)
Record Config : Type := mkConfig {
  project_id : option string;
  domain : option string
}.

Section Scripts.

Variable R : Type.
Variable Data : Type.

(** [github.getOctokit], [github.context], and the members of an issue
    the scripts use: [node_id] and its rendering by [JSON.stringify]. *)
Variable getOctokit : string -> Client R Data.
Variable context : Context.
Variable node_id : Data -> string.
Variable JSON_stringify : Data -> string.

(** The [status] member of an error object, when it has one. *)
Variable status : Thrown -> option Z.

(** The file system and the JSON parser [readConfig] uses. *)
Variable fs_existsSync : string -> bool.
Variable fs_readFileSync : string -> Outcome string.
Variable JSON_parse : string -> Outcome ConfigData.

(** *** add-to-project *)

(** [result.addProjectV2ItemById.item.id] *)
Definition added_item_id (result : AddResult.t) : M (Job R) string :=
  match AddResult.addProjectV2ItemById result with
  | None => throw (TypeError "Cannot read properties of null (reading 'item')")
  | Some payload =>
      match AddResult.item payload with
      | None => throw (TypeError "Cannot read properties of null (reading 'id')")
      | Some item => ret (AddResult.id item)
      end
  end.

Definition addToProject (env : Env) : M (Job R) unit :=
  validateEnvironmentVariables env ["GITHUB_TOKEN"; "PROJECT_ID"; "CONTENT_ID"] ;;
  let token := env "GITHUB_TOKEN" in
  let projectId := env_string env "PROJECT_ID" in
  let contentId := env_string env "CONTENT_ID" in
  octokit <- createOctokit getOctokit token ;;
  result <- withRetry
              (on_job (graphql_ADD_TO_PROJECT (mutations octokit) projectId contentId))
              (with_operation "adding content to project") ;;
  itemId <- added_item_id result ;;
  core_info ("✅ Added content " ++ contentId ++ " to project " ++ projectId) ;;
  setOutputs [("itemId", Some itemId)].

(** *** move-issue *)

(** [issueNumber ? ` #${issueNumber}` : ''] *)
Definition issue_tag (issueNumber : option string) : string :=
  if truthy issueNumber then " #" ++ default "" issueNumber else "".

Definition moveIssue (env : Env) : M (Job R) unit :=
  validateEnvironmentVariables
    env ["GITHUB_TOKEN"; "PROJECT_ID"; "ISSUE_NODE_ID"; "FIELD_ID"; "OPTION_ID"] ;;
  let token := env "GITHUB_TOKEN" in
  let projectId := env_string env "PROJECT_ID" in
  let issueNodeId := env_string env "ISSUE_NODE_ID" in
  let fieldId := env_string env "FIELD_ID" in
  let optionId := env "OPTION_ID" in
  let issueNumber := env "ISSUE_NUMBER" in
  octokit <- createOctokit getOctokit token ;;
  item <- findIssueProjectItem (job_octokit (queries octokit)) issueNodeId projectId ;;
  match item with
  | Val it =>
      withRetry
        (on_job (graphql_UPDATE_PROJECT_FIELD (mutations octokit)
                   projectId (Item.id it) fieldId optionId))
        (with_operation "updating issue status") ;;
      core_info ("✅ Moved issue" ++ issue_tag issueNumber ++ " to new status")
  | _ =>
      core_warning ("⚠️ No project item found for issue" ++ issue_tag issueNumber
                      ++ " with node_id " ++ issueNodeId
                      ++ " in project " ++ projectId) ;;
      core_warning "This could mean: 1) Issue not in project, 2) Node ID mismatch"
  end.

(** *** add-domain *)

(** The block under [if (!providedItemId)]: the issue number of the
    event and the node id of that issue. *)
Definition issue_of_context (octokit : Client R Data) : M (Job R) (string * Z) :=
  match payload_issue_number context with
  | Some issueNumber =>
      if issueNumber =? 0
      then throw (JsError "No issue number found in context and no ITEM_ID provided")
      else
        response <- withRetry
                      (on_job (rest_issues_get (rest octokit)
                                 (repo_owner context) (repo_repo context)
                                 (Num issueNumber)))
                      (with_operation "fetching issue data") ;;
        ret (node_id (IssueResponse.data response), issueNumber)
  | None =>
      throw (JsError "No issue number found in context and no ITEM_ID provided")
  end.

Definition addDomain (env : Env) : M (Job R) unit :=
  validateEnvironmentVariables env ["GITHUB_TOKEN"; "PROJECT_ID"; "DOMAIN"] ;;
  let token := env "GITHUB_TOKEN" in
  let projectId := env_string env "PROJECT_ID" in
  let domainValue := env "DOMAIN" in
  let providedItemId := env "ITEM_ID" in
  octokit <- createOctokit getOctokit token ;;
  (* [contentId] and [issueNumber] stay undefined with a provided item *)
  issue <- (if truthy providedItemId then ret None
            else found <- issue_of_context octokit ;; ret (Some found)) ;;
  lookup <- findProjectFields (job_octokit (queries octokit))
                              projectId "Domain" domainValue ;;
  (* the second [if (providedItemId)] takes the branch the first did not *)
  itemId <- match issue with
            | None =>
                core_info ("📌 Using provided item ID: " ++ default "" providedItemId) ;;
                ret (default "" providedItemId)
            | Some (contentId, issueNumber) =>
                item <- findIssueProjectItem (job_octokit (queries octokit))
                                             contentId projectId ;;
                match item with
                | Val it => ret (Item.id it)
                | _ =>
                    throw (JsError ("Project item for issue #" ++ string_of_Z issueNumber
                                      ++ " not found in project " ++ projectId))
                end
            end ;;
  withRetry
    (on_job (graphql_UPDATE_PROJECT_FIELD (mutations octokit)
               projectId itemId (fieldId lookup) (optionId lookup)))
    (with_operation "updating domain field") ;;
  core_info ("✅ Set Domain field to " ++ dquote ++ default "" domainValue ++ dquote
               ++ match issue with
                  | Some (_, issueNumber) => " for issue #" ++ string_of_Z issueNumber
                  | None => " for project item"
                  end).

(** *** find-fields *)

Definition findFields (env : Env) : M (Job R) unit :=
  validateEnvironmentVariables
    env ["GITHUB_TOKEN"; "PROJECT_ID"; "FIELD_NAME"; "OPTION_NAME"] ;;
  let token := env "GITHUB_TOKEN" in
  let projectId := env_string env "PROJECT_ID" in
  let fieldName := env_string env "FIELD_NAME" in
  let optionName := env "OPTION_NAME" in
  octokit <- createOctokit getOctokit token ;;
  lookup <- findProjectFields (job_octokit (queries octokit))
                              projectId fieldName optionName ;;
  setOutputs [("fieldId", Some (fieldId lookup)); ("optionId", optionId lookup)].

(** *** remove-pr-from-project *)

(** [fuel] is the fuel of [findPRProjectItem]; [None] is a scan that was
    still running when it ran out. *)
Definition removePRFromProject (fuel : nat) (env : Env) : M (Job R) (option unit) :=
  validateEnvironmentVariables env ["GITHUB_TOKEN"; "PROJECT_ID"; "PR_NODE_ID"] ;;
  let token := env "GITHUB_TOKEN" in
  let projectId := env_string env "PROJECT_ID" in
  let prNodeId := env_string env "PR_NODE_ID" in
  octokit <- createOctokit getOctokit token ;;
  core_info ("🔍 Looking for PR with node_id: " ++ prNodeId
               ++ " in project " ++ projectId) ;;
  found <- findPRProjectItem (job_octokit (queries octokit)) fuel prNodeId projectId ;;
  match found with
  | None => ret None
  | Some (Val it) =>
      withRetry
        (on_job (graphql_REMOVE_FROM_PROJECT (mutations octokit) projectId (Item.id it)))
        (with_operation "removing PR from project") ;;
      core_info "✅ Successfully removed PR from project" ;;
      setOutputs [("removed", Some "true");
                  ("pr-number", Some "");
                  ("item-id", Some (Item.id it))] ;;
      ret (Some tt)
  | Some _ =>
      core_info ("ℹ️ PR is not in project " ++ projectId ++ " - nothing to remove") ;;
      setOutputs [("removed", Some "false");
                  ("pr-number", Some "");
                  ("item-id", Some "")] ;;
      ret (Some tt)
  end.

(** *** set-date *)

(** [today] is [new Date().toISOString().split('T')[0]]. *)
Definition setDate (today : string) (env : Env) : M (Job R) unit :=
  validateEnvironmentVariables
    env ["GITHUB_TOKEN"; "PROJECT_ID"; "FIELD_NAME"; "ISSUE_NODE_ID"] ;;
  let token := env "GITHUB_TOKEN" in
  let projectId := env_string env "PROJECT_ID" in
  let fieldName := env_string env "FIELD_NAME" in
  let issueNodeId := env_string env "ISSUE_NODE_ID" in
  let dateValue := or_default (env "DATE_VALUE") today in
  octokit <- createOctokit getOctokit token ;;
  dateField <- findDateField (job_octokit (queries octokit)) projectId fieldName ;;
  projectItem <- findIssueProjectItem (job_octokit (queries octokit))
                                      issueNodeId projectId ;;
  match projectItem with
  | Val it =>
      withRetry
        (on_job (graphql_UPDATE_PROJECT_DATE_FIELD (mutations octokit)
                   projectId (Item.id it) (Field.id dateField) dateValue))
        (with_operation "updating date field") ;;
      core_info ("✅ Field " ++ dquote ++ fieldName ++ dquote
                   ++ " updated with date: " ++ dateValue) ;;
      setOutputs [("fieldId", Some (Field.id dateField)); ("date", Some dateValue)]
  | _ => core_warning ("⚠️ Issue not found in project " ++ projectId)
  end.

(** *** stg-to-prod *)

Definition removeLabel (octokit : Client R Data) (owner repo : string)
           (issueNumber : Z) (labelName : string) : M (Job R) unit :=
  try_catch
    (withRetry
       (on_job (rest_issues_removeLabel (rest octokit) owner repo issueNumber labelName))
       (with_operation ("removing " ++ dquote ++ labelName ++ dquote
                          ++ " label from issue #" ++ string_of_Z issueNumber)) ;;
     core_info ("✅ Removed " ++ dquote ++ labelName ++ dquote
                  ++ " label from issue #" ++ string_of_Z issueNumber))
    (fun error =>
       core_warning ("⚠️ Could not remove " ++ dquote ++ labelName ++ dquote
                       ++ " label from issue #" ++ string_of_Z issueNumber
                       ++ ": " ++ message error)).

Definition addLabels (octokit : Client R Data) (owner repo : string)
           (issueNumber : Z) (labels : list string) : M (Job R) unit :=
  withRetry
    (on_job (rest_issues_addLabels (rest octokit) owner repo issueNumber labels))
    (with_operation ("adding labels to issue #" ++ string_of_Z issueNumber)) ;;
  core_info ("✅ Added " ++ dquote ++ join ", " labels ++ dquote
               ++ " label(s) to issue #" ++ string_of_Z issueNumber).

(** The [for (const issue of issues)] loop with its counter. *)
Fixpoint process_issues (octokit : Client R Data) (owner repo : string)
         (stagingLabel productionLabel : string)
         (issues : list RepoIssue.t) (processedCount : Z) : M (Job R) Z :=
  match issues with
  | [] => ret processedCount
  | issue :: rest =>
      processedCount' <-
        try_catch
          (removeLabel octokit owner repo (RepoIssue.number issue) stagingLabel ;;
           addLabels octokit owner repo (RepoIssue.number issue) [productionLabel] ;;
           ret (processedCount + 1))
          (fun error =>
             core_warning ("⚠️ Failed to process issue #"
                             ++ string_of_Z (RepoIssue.number issue)
                             ++ ": " ++ message error) ;;
             ret processedCount) ;;
      process_issues octokit owner repo stagingLabel productionLabel
                     rest processedCount'
  end.

Definition stagingToProduction (env : Env) : M (Job R) unit :=
  validateEnvironmentVariables env ["GITHUB_TOKEN"] ;;
  let token := env "GITHUB_TOKEN" in
  let stagingLabel := or_default (env "STAGING_LABEL") "staging" in
  let productionLabel := or_default (env "PRODUCTION_LABEL") "production" in
  octokit <- createOctokit getOctokit token ;;
  let owner := repo_owner context in
  let repo := repo_repo context in
  core_info ("🏷️ Using staging label: '" ++ stagingLabel
               ++ "', production label: '" ++ productionLabel ++ "'") ;;
  issues <- withRetry
              (on_job (paginate_issues_listForRepo (rest octokit)
                         owner repo "closed" stagingLabel 100))
              (with_operation ("fetching closed issues with " ++ stagingLabel
                                 ++ " label")) ;;
  core_info ("📋 Found " ++ string_of_Z (Z.of_nat (List.length issues))
               ++ " closed issues with '" ++ stagingLabel ++ "' label") ;;
  if (List.length issues =? 0)%nat
  then core_info "ℹ️ No issues to process"
  else
    processedCount <- process_issues octokit owner repo stagingLabel productionLabel
                                     issues 0 ;;
    core_info ("✅ Successfully processed " ++ string_of_Z processedCount ++ "/"
                 ++ string_of_Z (Z.of_nat (List.length issues)) ++ " issues").

(** *** find-issue *)

Definition no_issue_outputs : list (string * option string) :=
  [("issue", Some ""); ("issue_number", Some ""); ("issue_node_id", Some "")].

(** The outer [option] is that of [extractIssueFromBranch]: [None] for a
    pattern outside the modelled syntax. *)
Definition findIssue (env : Env) : M (Job R) (option unit) :=
  let tokenVar := if truthy (env "GITHUB_TOKEN") then "GITHUB_TOKEN" else "TOKEN" in
  validateEnvironmentVariables env [tokenVar; "BRANCH"; "REGEX"] ;;
  let token := if truthy (env "GITHUB_TOKEN") then env "GITHUB_TOKEN" else env "TOKEN" in
  let branch := env_string env "BRANCH" in
  let regex := env_string env "REGEX" in
  octokit <- createOctokit getOctokit token ;;
  match extractIssueFromBranch branch regex with
  | None => ret None
  | Some extraction =>
      issueNumber <- extraction ;;
      if falsy_number issueNumber then
        core_info ("ℹ️ No issue number found in branch '" ++ branch
                     ++ "' using regex '" ++ regex ++ "'") ;;
        setOutputs no_issue_outputs ;;
        ret (Some tt)
      else
        let number := match issueNumber with Val n => n | _ => NaN end in
        try_catch
          (issue <- withRetry
                      (on_job (rest_issues_get (rest octokit)
                                 (repo_owner context) (repo_repo context) number))
                      (with_operation ("fetching issue #" ++ string_of_number number)) ;;
           core_info ("✅ Found issue #" ++ string_of_number number) ;;
           setOutputs [("issue", Some (JSON_stringify (IssueResponse.data issue)));
                       ("issue_number", Some (string_of_number number));
                       ("issue_node_id", Some (node_id (IssueResponse.data issue)))])
          (fun error =>
             match status error with
             | Some 404 =>
                 core_info ("ℹ️ No issue found for #" ++ string_of_number number) ;;
                 setOutputs no_issue_outputs
             | _ => throw error
             end) ;;
        ret (Some tt)
  end.

(** *** read-config *)

(** [JSON.parse(fs.readFileSync(configPath, 'utf8'))] *)
Definition read_config_file (configPath : string) : Outcome ConfigData :=
  match fs_readFileSync configPath with
  | Return text => JSON_parse text
  | Throw error => Throw error
  end.

(** The part of [readConfig] that settles [config.project_id]; [None] is
    the early [return null]. *)
Definition read_project_id (inputs_project_id : option string) (configPath : string)
  : M (Job R) (option (option string)) :=
  if truthy inputs_project_id then
    core_info ("Using PROJECT_ID from input: " ++ default "" inputs_project_id) ;;
    ret (Some inputs_project_id)
  else if fs_existsSync configPath then
    match read_config_file configPath with
    | Return configData =>
        core_info ("Using PROJECT_ID from config.json: "
                     ++ default "undefined" (config_PROJECT_ID configData)) ;;
        ret (Some (config_PROJECT_ID configData))
    | Throw error =>
        core_setFailed ("Error reading config.json: " ++ message error) ;;
        ret None
    end
  else
    core_setFailed ("No PROJECT_ID provided as input and " ++ configPath
                      ++ " not found in the repository") ;;
    ret None.

(** The part that settles [config.domain]. *)
Definition read_domain (inputs_domain : option string) (configPath : string)
  : M (Job R) (option string) :=
  if truthy inputs_domain then
    core_info ("Using DOMAIN from input: " ++ default "" inputs_domain) ;;
    ret inputs_domain
  else if fs_existsSync configPath then
    match read_config_file configPath with
    | Return configData =>
        (if truthy (config_DOMAIN configData)
         then core_info ("Using DOMAIN from config.json: "
                           ++ default "" (config_DOMAIN configData))
         else ret tt) ;;
        ret (config_DOMAIN configData)
    | Throw error =>
        core_warning ("Error reading DOMAIN from config.json: " ++ message error) ;;
        ret None
    end
  else ret None.

Definition readConfig (inputs_project_id inputs_domain : option string)
           (configPath : string) : M (Job R) (Nullable Config) :=
  project <- read_project_id inputs_project_id configPath ;;
  match project with
  | None => ret Null
  | Some project_id =>
      domain <- read_domain inputs_domain configPath ;;
      ret (Val (mkConfig project_id domain))
  end.

End Scripts.

Arguments added_item_id {R} result.
Arguments addToProject {R Data} getOctokit env.
Arguments moveIssue {R Data} getOctokit env.
Arguments issue_of_context {R Data} context node_id octokit.
Arguments addDomain {R Data} getOctokit context node_id env.
Arguments findFields {R Data} getOctokit env.
Arguments removePRFromProject {R Data} getOctokit fuel env.
Arguments setDate {R Data} getOctokit today env.
Arguments removeLabel {R Data} octokit owner repo issueNumber labelName.
Arguments addLabels {R Data} octokit owner repo issueNumber labels.
Arguments process_issues {R Data} octokit owner repo stagingLabel productionLabel
  issues processedCount.
Arguments stagingToProduction {R Data} getOctokit context env.
Arguments findIssue {R Data} getOctokit context node_id JSON_stringify status env.

(** ** Vocabulary of the properties of the scripts *)

(** The job [j] around the state [s] of the remote service. *)
Definition job_state {R} (j : Job R) (s : State R) : State (Job R) :=
  mkState (with_remote j (world s)) (trace s).

(** [m'] does to the remote service of a job what [m] does to the
    service, writes the same lines, and leaves the rest of the job as it
    is. *)
Definition lifts {R A} (m' : M (Job R) A) (m : M R A) : Prop :=
  forall (j : Job R) (t : list Event),
    m' (mkState j t)
    = (fst (m (mkState (remote j) t)), job_state j (snd (m (mkState (remote j) t)))).

(** The line [setOutputs] writes for one entry. *)
Definition output_line (entry : string * option string) : Event :=
  Info ("📤 Set output: " ++ fst entry ++ " = " ++ default "null" (snd entry)).

(** Every variable of [requiredVars] holds a non-empty string. *)
Definition all_set (env : Env) (requiredVars : list string) : Prop :=
  filter (unset_in env) requiredVars = [].

Definition MissingVariables (env : Env) (requiredVars : list string) : string :=
  "Missing required environment variables: "
    ++ join ", " (filter (unset_in env) requiredVars).

(** A script run through [executeScript] that stops at the validation of
    [requiredVars]: the job is marked as failed with the message that
    lists the missing variables, the error is thrown again, and nothing
    but the starting line was written. *)
Definition stops_at_validation {R A} (env : Env) (requiredVars : list string)
           (script : M (Job R) A) (scriptName : string) : Prop :=
  forall (j : Job R) (t : list Event),
    filter (unset_in env) requiredVars <> [] ->
    executeScript script scriptName (mkState j t)
    = (Throw (JsError (MissingVariables env requiredVars)),
       mkState (mkJob (remote j) (outputs j)
                      (errors j ++ ["❌ " ++ scriptName ++ " failed: "
                                      ++ MissingVariables env requiredVars])
                      (Some (MissingVariables env requiredVars)))
               (t ++ [Info ("🚀 Starting " ++ scriptName)])).

(** ** Test doubles for the scripts *)

Module Doubles.

(** An environment given by its bindings. *)
Definition env_of (bindings : list (string * string)) : Env :=
  fun name =>
    option_map snd (find (fun binding => (fst binding =? name)%string) bindings).

Definition without (itemId : string) (items : option (list Item.t))
  : option (list Item.t) :=
  option_map (filter (fun it => negb (Item.id it =? itemId)%string)) items.

(** Mutations over the service of the queries: removing an item takes it
    off every list of memberships, adding one answers with a fixed item,
    and field updates are accepted. *)
Definition mutations : Mutations GitHub.Remote :=
  mkMutations
    (fun projectId contentId remote =>
       (Return (AddResult.make
                  (Some (AddResult.make_payload (Some (AddResult.make_item "PVTI_new"))))),
        remote))
    (fun projectId itemId fieldId optionId remote => (Return tt, remote))
    (fun projectId itemId fieldId dateValue remote => (Return tt, remote))
    (fun projectId itemId remote =>
       (Return tt,
        GitHub.mkRemote (GitHub.board_fields remote)
                        (fun issueNodeId =>
                           without itemId (GitHub.issue_items remote issueNodeId))
                        (fun prNodeId =>
                           without itemId (GitHub.pr_items remote prNodeId)))).

(** A repository whose issues are numbered 1 to 99, that lists two closed
    issues and refuses to remove a label. *)
Definition rest : Rest GitHub.Remote string :=
  mkRest
    (fun owner repo issue_number remote =>
       match issue_number with
       | Num n =>
           if (0 <? n) && (n <? 100)
           then (Return (IssueResponse.make ("I_" ++ string_of_Z n)), remote)
           else (Throw (JsError "Not Found"), remote)
       | NaN => (Throw (JsError "Not Found"), remote)
       end)
    (fun owner repo issue_number name remote =>
       (Throw (JsError "Label does not exist"), remote))
    (fun owner repo issue_number labels remote => (Return tt, remote))
    (fun owner repo state labels per_page remote =>
       (Return [RepoIssue.make 12; RepoIssue.make 15], remote)).

Definition getOctokit (token : string) : Client GitHub.Remote string :=
  mkClient GitHub.octokit mutations rest.

Definition context : Context := mkContext "acme" "board-tools" None.

Definition job (remote : GitHub.Remote) : Job GitHub.Remote :=
  mkJob remote [] [] None.

(** [error.status] as the client sets it: 404 on its own "Not Found". *)
Definition status (error : Thrown) : option Z :=
  if (message error =? "Not Found")%string then Some 404 else None.

(** A file system with one file, and a parser for the two texts it may
    hold. *)
Definition fs_existsSync (path : string) : bool :=
  (path =? ".github/config.json")%string.

Definition fs_readFileSync (path : string) : Outcome string :=
  if (path =? ".github/config.json")%string
  then Return "{ }"
  else Throw (JsError "ENOENT: no such file or directory").

Definition JSON_parse (text : string) : Outcome ConfigData :=
  if (text =? "{ }")%string
  then Return (mkConfigData None None)
  else Throw (SyntaxError "Unexpected end of JSON input").

End Doubles.

Set Implicit Arguments.

(** * Properties *)

(** ** The trace *)

Lemma invocations_app (t1 t2 : list Event) :
  invocations (t1 ++ t2) = (invocations t1 + invocations t2)%nat.
Proof.
  unfold invocations. now rewrite filter_app, length_app.
Qed.

Lemma delays_app (t1 t2 : list Event) :
  delays (t1 ++ t2) = (delays t1 + delays t2)%nat.
Proof.
  unfold delays. now rewrite filter_app, length_app.
Qed.

(** ** withRetry *)

Section RetryFacts.

Variable W : Type.
Variable A : Type.
Variable fn : Operation W A.

Lemma retry_loop_turn (maxRetries delay : Z) (operation : string)
      (fuel : nat) (attempt : Z) (lastError : option Thrown) :
  attempt <= maxRetries ->
  retry_loop fn maxRetries delay operation (S fuel) attempt lastError
  = attempt_body fn maxRetries delay operation attempt
                 (retry_loop fn maxRetries delay operation fuel (attempt + 1)).
Proof. intros Hle. cbn [retry_loop]. now rewrite (proj2 (Z.leb_le _ _) Hle). Qed.

Lemma retry_loop_done (maxRetries delay : Z) (operation : string)
      (fuel : nat) (attempt : Z) (lastError : option Thrown) :
  maxRetries < attempt ->
  retry_loop fn maxRetries delay operation fuel attempt lastError
  = @exhausted W A maxRetries operation lastError.
Proof.
  intros Hgt. destruct fuel; cbn [retry_loop];
    now rewrite (proj2 (Z.leb_gt _ _) Hgt).
Qed.

(** The body of the loop depends on the rest of the loop only through
    what the rest does. *)
Lemma attempt_body_ext (maxRetries delay : Z) (operation : string) (attempt : Z)
      (again again' : option Thrown -> M W A) :
  (forall lastError s, again lastError s = again' lastError s) ->
  forall s, attempt_body fn maxRetries delay operation attempt again s
            = attempt_body fn maxRetries delay operation attempt again' s.
Proof.
  intros Hsame s. unfold attempt_body, try_catch.
  destruct (bind (invoke fn) _ s) as [[result | error] s1]; [reflexivity |].
  unfold bind.
  destruct (core_warning _ s1) as [[[] | e] s2]; [| reflexivity].
  match goal with
  | |- (let (_, _) := ?m s2 in _) = _ => destruct (m s2) as [[[] | e] s3]
  end; [apply Hsame | reflexivity].
Qed.

(** Fuel beyond the turns the loop test allows changes nothing, so the
    fuel [withRetry] starts with never runs out before the test fails. *)
Lemma retry_loop_enough_fuel (maxRetries delay : Z) (operation : string)
      (fuel : nat) :
  forall (extra : nat) (attempt : Z) (lastError : option Thrown) (s : State W),
    maxRetries - attempt + 1 <= Z.of_nat fuel ->
    retry_loop fn maxRetries delay operation (fuel + extra) attempt lastError s
    = retry_loop fn maxRetries delay operation fuel attempt lastError s.
Proof.
  induction fuel as [| fuel IH]; intros extra attempt lastError s Hfuel.
  - assert (Hout : (attempt <=? maxRetries) = false) by (apply Z.leb_gt; lia).
    destruct extra; cbn [retry_loop Nat.add]; now rewrite Hout.
  - cbn [retry_loop Nat.add]. destruct (attempt <=? maxRetries); trivial.
    apply attempt_body_ext. intros lastError' s'. apply IH. lia.
Qed.

Lemma withRetry_enough_fuel (options : RetryOptions) (extra : nat) (s : State W) :
  let maxRetries := default 3 (opt_maxRetries options) in
  retry_loop fn maxRetries (default 1000 (opt_delay options))
             (default "operation" (opt_operation options))
             (Z.to_nat maxRetries + extra) 1 None s
  = withRetry fn options s.
Proof. cbv zeta. unfold withRetry. apply retry_loop_enough_fuel. lia. Qed.

(** A first attempt that succeeds is the whole run: one call, no log
    line, no delay. *)
Lemma withRetry_first_attempt (options : RetryOptions) (s : State W)
      (a : A) (w' : W) :
  1 <= default 3 (opt_maxRetries options) ->
  fn (world s) = (Return a, w') ->
  withRetry fn options s = (Return a, mkState w' (trace s ++ [Invoke])).
Proof.
  intros Hmax Hfn. unfold withRetry.
  destruct (Z.to_nat (default 3 (opt_maxRetries options))) eqn:Hn; [lia|].
  cbn [retry_loop]. rewrite (proj2 (Z.leb_le _ _) Hmax).
  unfold attempt_body, try_catch, bind, invoke.
  rewrite Hfn. reflexivity.
Qed.

End RetryFacts.

(** One turn of the retry loop in hypothesis [Hrun], with the outcome of
    the call given by [Hfn]. *)
Ltac run_attempt Hfn Hrun :=
  rewrite retry_loop_turn in Hrun by lia;
  unfold attempt_body at 1 in Hrun;
  unfold try_catch, bind, invoke in Hrun;
  cbn [world trace] in Hrun;
  rewrite Hfn in Hrun;
  cbn -[retry_loop] in Hrun.

(** C2. With three attempts allowed (the default), an operation that
    fails on attempts 1 and 2 decides the run on attempt 3: its result is
    returned if it succeeds, and if it fails too the run ends in the
    permanent failure carrying the operation label and the message of that
    last failure.  Either way the operation has been invoked exactly three
    times and the run has waited exactly twice. *)
Theorem withRetry_third_attempt_decides
        (W A : Type) (fn : Operation W A) (options : RetryOptions)
        (w0 w1 w2 w3 : W) (e1 e2 : Thrown) (third : Outcome A)
        (t0 : list Event) :
  default 3 (opt_maxRetries options) = 3 ->
  fn w0 = (Throw e1, w1) ->
  fn w1 = (Throw e2, w2) ->
  fn w2 = (third, w3) ->
  let run := withRetry fn options (mkState w0 t0) in
  fst run =
    match third with
    | Return v => Return v
    | Throw e3 =>
        Throw (RetryExhausted (default "operation" (opt_operation options)) 3 e3)
    end
  /\ world (snd run) = w3
  /\ invocations (trace (snd run)) = (invocations t0 + 3)%nat
  /\ delays (trace (snd run)) = (delays t0 + 2)%nat.
Proof.
  intros Hmax H1 H2 H3 run.
  remember run as r eqn:Hrun. subst run.
  unfold withRetry in Hrun. rewrite Hmax in Hrun.
  change (Z.to_nat 3) with 3%nat in Hrun.
  run_attempt H1 Hrun. run_attempt H2 Hrun. run_attempt H3 Hrun.
  destruct third as [v | e3]; cbn -[retry_loop] in Hrun;
    rewrite ?retry_loop_done in Hrun by lia;
    cbv [exhausted throw] in Hrun; subst r;
    cbn [fst snd world trace];
    rewrite !invocations_app, !delays_app; cbn; repeat split; lia.
Qed.

Lemma withRetry_third_attempt_decides_witness :
  (let run := withRetry (Fixtures.fails_first 2) (with_operation "adding content")
                        (mkState 0%nat []) in
   fst run = Return "done"
   /\ world (snd run) = 3%nat
   /\ invocations (trace (snd run)) = 3%nat
   /\ delays (trace (snd run)) = 2%nat)
  /\
  (let run := withRetry (Fixtures.fails_first 5) (with_operation "adding content")
                        (mkState 0%nat []) in
   fst run = Throw (JsError "adding content failed after 3 attempts. Last error: socket hang up")
   /\ world (snd run) = 3%nat
   /\ invocations (trace (snd run)) = 3%nat
   /\ delays (trace (snd run)) = 2%nat).
Proof.
  split.
  - exact (@withRetry_third_attempt_decides nat string
             (Fixtures.fails_first 2) (with_operation "adding content")
             0%nat 1%nat 2%nat 3%nat
             (JsError "socket hang up") (JsError "socket hang up")
             (Return "done") []
             eq_refl eq_refl eq_refl eq_refl).
  - exact (@withRetry_third_attempt_decides nat string
             (Fixtures.fails_first 5) (with_operation "adding content")
             0%nat 1%nat 2%nat 3%nat
             (JsError "socket hang up") (JsError "socket hang up")
             (Throw (JsError "socket hang up")) []
             eq_refl eq_refl eq_refl eq_refl).
Defined.

(** C10. With [maxRetries] below 1 the loop body is never entered: the
    operation is not invoked, nothing is logged, and the final [throw]
    reads [message] from a [lastError] that was never assigned, so the
    call fails with the [TypeError] of that access and not with the
    "failed after N attempts" error. *)
Theorem withRetry_no_attempts
        (W A : Type) (fn : Operation W A) (options : RetryOptions) (s : State W) :
  default 3 (opt_maxRetries options) < 1 ->
  withRetry fn options s = (Throw UndefinedMessage, s)
  /\ invocations (trace (snd (withRetry fn options s))) = invocations (trace s)
  /\ forall operation n lastError,
       fst (withRetry fn options s) <> Throw (RetryExhausted operation n lastError).
Proof.
  intros Hmax. unfold withRetry.
  replace (Z.to_nat (default 3 (opt_maxRetries options))) with 0%nat by lia.
  cbn [retry_loop]. rewrite (proj2 (Z.leb_gt _ _) Hmax).
  cbn. repeat split. intros operation n lastError. discriminate.
Qed.

Lemma withRetry_no_attempts_witness :
  withRetry (Fixtures.fails_first 0) (mkOptions (Some 0) None (Some "moving issue"))
            (mkState 0%nat [])
  = (Throw (TypeError "Cannot read properties of undefined (reading 'message')"),
     mkState 0%nat []).
Proof.
  apply (withRetry_no_attempts (Fixtures.fails_first 0)
           (mkOptions (Some 0) None (Some "moving issue")) (mkState 0%nat [])).
  cbn. lia.
Defined.

(** ** First match in a list *)

Section FirstMatch.

Variable A : Type.
Variable p : A -> Prop.
Variable test : A -> bool.
Hypothesis test_spec : forall x, test x = true <-> p x.

Lemma find_first_such (l : list A) (x : A) :
  find test l = Some x <-> first_such p l x.
Proof.
  induction l as [| y l IH]; cbn.
  - split; [discriminate|]. intros (before & after & E & _).
    destruct before; discriminate.
  - destruct (test y) eqn:Hy.
    + split.
      * intros [= <-]. exists [], l. repeat split; [now apply test_spec | constructor].
      * intros (before & after & E & Hx & Hbefore).
        destruct before as [| z before]; cbn in E; injection E as -> E.
        -- reflexivity.
        -- inversion Hbefore as [| ? ? Hz _]; subst.
           exfalso. apply Hz. now apply test_spec.
    + rewrite IH. split.
      * intros (before & after & -> & Hx & Hbefore).
        exists (y :: before), after. repeat split; trivial.
        constructor; trivial. intros Hp. apply test_spec in Hp. congruence.
      * intros (before & after & E & Hx & Hbefore).
        destruct before as [| z before]; cbn in E; injection E as -> E.
        -- apply test_spec in Hx. congruence.
        -- exists before, after. inversion Hbefore; subst. now repeat split.
Qed.

Lemma find_none_iff (l : list A) :
  find test l = None <-> forall x, In x l -> ~ p x.
Proof.
  split.
  - intros Hnone x Hin Hp. apply test_spec in Hp.
    pose proof (find_none test l Hnone x Hin). congruence.
  - intros Hall. destruct (find test l) as [x |] eqn:Hfind; trivial.
    apply find_some in Hfind as [Hin Hx].
    exfalso. apply (Hall x Hin). now apply test_spec.
Qed.

(** Taking the first match is taking the head of the filtered list. *)
Lemma find_head_filter (l : list A) : find test l = hd_error (filter test l).
Proof.
  induction l as [| y l IH]; cbn; trivial. now destruct (test y).
Qed.

End FirstMatch.

Lemma has_name_spec (fieldName : string) (f : Field.t) :
  has_name fieldName f = true <-> Field.name f = fieldName.
Proof. apply String.eqb_eq. Qed.

Lemma option_has_name_spec (optionName : string) (o : FieldOption.t) :
  option_has_name optionName o = true <-> FieldOption.name o = optionName.
Proof. apply String.eqb_eq. Qed.

Lemma on_project_spec (projectId : string) (it : Item.t) :
  on_project projectId it = true <-> Project.id (Item.project it) = projectId.
Proof. apply String.eqb_eq. Qed.

(** ** findProjectFields *)

Lemma OptionNotFound_not_FieldNotFound (optionName fieldName fieldName' projectId : string) :
  OptionNotFound optionName fieldName <> FieldNotFound fieldName' projectId.
Proof. unfold OptionNotFound, FieldNotFound. cbn. discriminate. Qed.

Section ResolverFacts.

Variable W : Type.
Variable octokit : Octokit W.
Variables projectId fieldName : string.
Variable s s1 : State W.
Variable result : FieldsResult.t.
Variable fields : list Field.t.

Hypothesis fetched :
  withRetry (graphql_PROJECT_FIELDS octokit projectId)
            (with_operation "finding project fields") s = (Return result, s1).
Hypothesis shape :
  FieldsResult.node result
  = Some (FieldsResult.make_node (Some (FieldsResult.make_fields fields))).

(** What is left of [findProjectFields] once the field list is there. *)
Lemma findProjectFields_fetched (optionName : option string) :
  findProjectFields octokit projectId fieldName optionName s =
  match find (has_name fieldName) fields with
  | None => (Throw (FieldNotFound fieldName projectId), s1)
  | Some field =>
      match select_option fieldName optionName field s1 with
      | (Return optionId, s2) =>
          (Return (mkLookup (Field.id field) optionId field),
           mkState (world s2)
                   (trace s2 ++
                    [Info ("✅ Found field '" ++ fieldName ++ "' (ID: "
                             ++ Field.id field ++ ")"
                             ++ (if truthy optionId
                                 then " with option '" ++ default "null" optionName
                                        ++ "' (ID: " ++ default "null" optionId ++ ")"
                                 else ""))]))
      | (Throw e, s2) => (Throw e, s2)
      end
  end.
Proof.
  unfold findProjectFields, bind at 1. rewrite fetched.
  unfold bind at 1. unfold fields_nodes. rewrite shape. cbn [FieldsResult.fields FieldsResult.nodes ret].
  destruct (find (has_name fieldName) fields) as [field |]; [| reflexivity].
  unfold bind. destruct (select_option fieldName optionName field s1) as [[optionId | e] s2];
    reflexivity.
Qed.

(** The option block throws nothing but [OptionNotFound], and leaves the
    state alone. *)
Lemma select_option_cases (optionName : option string) (field : Field.t) :
  (exists optionId, select_option fieldName optionName field s1 = (Return optionId, s1))
  \/ (exists name, optionName = Some name
                   /\ select_option fieldName optionName field s1
                      = (Throw (OptionNotFound name fieldName), s1)).
Proof.
  unfold select_option.
  destruct optionName as [name |]; [| left; now eexists].
  destruct (Field.options field) as [options |]; [| left; now eexists].
  destruct (truthy (Some name)); [| left; now eexists].
  destruct (find (option_has_name name) options).
  - left; now eexists.
  - right. exists name. now split.
Qed.

End ResolverFacts.

(** C3. Once the field list has been fetched, [findProjectFields] fails
    with [FieldNotFound] exactly when no fetched field is named
    [fieldName]; whenever it returns, the field it returns is the first
    fetched field of that name (compared by string equality) and
    [fieldId] is the id of that field; and when such a field exists the
    call returns it, unless an option name was given and the option lookup
    fails.  Without an option name it returns the field with no option
    id. *)
Theorem findProjectFields_first_named
        (W : Type) (octokit : Octokit W) (projectId fieldName : string)
        (optionName : option string) (s s1 : State W)
        (result : FieldsResult.t) (fields : list Field.t) :
  withRetry (graphql_PROJECT_FIELDS octokit projectId)
            (with_operation "finding project fields") s = (Return result, s1) ->
  FieldsResult.node result
  = Some (FieldsResult.make_node (Some (FieldsResult.make_fields fields))) ->
  let run := findProjectFields octokit projectId fieldName optionName s in
  let named := fun f => Field.name f = fieldName in
  (fst run = Throw (FieldNotFound fieldName projectId)
   <-> forall f, In f fields -> ~ named f)
  /\ (forall r, fst run = Return r ->
                first_such named fields (field r) /\ fieldId r = Field.id (field r))
  /\ (forall f, first_such named fields f ->
                (exists optionId, fst run = Return (mkLookup (Field.id f) optionId f))
                \/ (exists name, optionName = Some name
                                 /\ fst run = Throw (OptionNotFound name fieldName)))
  /\ (optionName = None ->
      forall f, first_such named fields f ->
                fst run = Return (mkLookup (Field.id f) None f)).
Proof.
  intros fetched shape run named. subst run.
  rewrite (findProjectFields_fetched octokit projectId fieldName s fetched shape optionName).
  pose proof (find_first_such _ _ (has_name_spec fieldName) fields) as Hfirst.
  pose proof (find_none_iff _ _ (has_name_spec fieldName) fields) as Hnone.
  fold named in Hfirst, Hnone.
  destruct (find (has_name fieldName) fields) as [f0 |] eqn:Hfind.
  - assert (Hf0 : first_such named fields f0) by now apply Hfirst.
    assert (Hsame : forall f, first_such named fields f -> f = f0).
    { intros f Hf. apply Hfirst in Hf. congruence. }
    repeat split.
    + intros Hthrow. exfalso.
      destruct (select_option_cases fieldName s1 optionName f0)
        as [[optionId E] | [name [_ E]]]; rewrite E in Hthrow; cbn in Hthrow.
      * discriminate.
      * assert (Heq : OptionNotFound name fieldName = FieldNotFound fieldName projectId)
          by congruence.
        now apply OptionNotFound_not_FieldNotFound in Heq.
    + intros Hall. apply Hnone in Hall. discriminate.
    + destruct (select_option fieldName optionName f0 s1) as [[optionId | e] s2];
        cbn in H; [injection H as <- | discriminate]. exact Hf0.
    + destruct (select_option fieldName optionName f0 s1) as [[optionId | e] s2];
        cbn in H; [injection H as <- | discriminate]. reflexivity.
    + intros f Hf. rewrite (Hsame f Hf).
      destruct (select_option_cases fieldName s1 optionName f0)
        as [[optionId E] | [name [Hname E]]]; rewrite E; cbn.
      * left. now exists optionId.
      * right. now exists name.
    + intros -> f Hf. rewrite (Hsame f Hf). reflexivity.
  - repeat split.
    + intros _. now apply Hnone.
    + discriminate.
    + discriminate.
    + intros f Hf. apply Hfirst in Hf. discriminate.
    + intros _ f Hf. apply Hfirst in Hf. discriminate.
Qed.

(** C4, as amended.  With the field resolved, an option name that is a
    non-empty string and a field that carries options: the call returns
    the id of the first option of that name, and it fails with
    [OptionNotFound] exactly when no option of the field has that name.
    A field without options makes the call return no option id, whatever
    option name was given.  The empty string is left out: the guard of the
    lookup treats it as no option name (see the counterexample among the
    worked instances). *)
Theorem findProjectFields_option
        (W : Type) (octokit : Octokit W) (projectId fieldName : string)
        (optionName : option string) (s s1 : State W)
        (result : FieldsResult.t) (fields : list Field.t) (f : Field.t) :
  withRetry (graphql_PROJECT_FIELDS octokit projectId)
            (with_operation "finding project fields") s = (Return result, s1) ->
  FieldsResult.node result
  = Some (FieldsResult.make_node (Some (FieldsResult.make_fields fields))) ->
  first_such (fun g => Field.name g = fieldName) fields f ->
  let run := findProjectFields octokit projectId fieldName optionName s in
  (forall name options,
      optionName = Some name -> name <> "" -> Field.options f = Some options ->
      let called := fun o => FieldOption.name o = name in
      (forall o, first_such called options o ->
                 fst run = Return (mkLookup (Field.id f) (Some (FieldOption.id o)) f))
      /\ (fst run = Throw (OptionNotFound name fieldName)
          <-> forall o, In o options -> ~ called o))
  /\ (Field.options f = None ->
      fst run = Return (mkLookup (Field.id f) None f)).
Proof.
  intros fetched shape Hf run. subst run.
  rewrite (findProjectFields_fetched octokit projectId fieldName s fetched shape optionName).
  apply (find_first_such _ _ (has_name_spec fieldName)) in Hf. rewrite Hf.
  unfold select_option. split.
  - intros name options -> Hname Hoptions. rewrite Hoptions.
    assert (Htruthy : truthy (Some name) = true).
    { cbn. now apply negb_true_iff, String.eqb_neq. }
    rewrite Htruthy.
    pose proof (find_first_such _ _ (option_has_name_spec name) options) as Hfirst.
    pose proof (find_none_iff _ _ (option_has_name_spec name) options) as Hnone.
    destruct (find (option_has_name name) options) as [o0 |] eqn:Hfind; cbn; split.
    + intros o Ho. apply Hfirst in Ho. now injection Ho as <-.
    + split; [discriminate |]. intros Hall. apply Hnone in Hall. discriminate.
    + intros o Ho. apply Hfirst in Ho. discriminate.
    + split; [intros _; now apply Hnone | reflexivity].
  - intros ->. now destruct optionName.
Qed.

(** ** findIssueProjectItem *)

Lemma array_find_filter {A} (test : A -> bool) (l : list A) :
  array_find test l = to_nullable (hd_error (filter test l)).
Proof. unfold array_find. now rewrite find_head_filter. Qed.

Lemma array_find_Val {A} (test : A -> bool) (l : list A) (x : A) :
  array_find test l = Val x -> test x = true.
Proof.
  unfold array_find. destruct (find test l) as [y |] eqn:Hfind; [| discriminate].
  intros [= <-]. now apply find_some in Hfind.
Qed.

(** What is left of [findIssueProjectItem] once the page is there: the
    outcome is the lookup in the page, and the state only gains the log
    line. *)
Lemma findIssueProjectItem_fetched
      (W : Type) (octokit : Octokit W) (issueNodeId projectId : string)
      (s s1 : State W) (result : IssueResult.t) :
  withRetry (graphql_ISSUE_PROJECT_ITEMS octokit issueNodeId)
            (with_operation "finding issue project items") s = (Return result, s1) ->
  findIssueProjectItem octokit issueNodeId projectId s
  = (Return (issue_item projectId result),
     mkState (world s1)
             (trace s1 ++ [issue_log_line issueNodeId projectId
                                          (issue_item projectId result)])).
Proof.
  intros fetched. unfold findIssueProjectItem, bind at 1.
  rewrite fetched. cbv zeta.
  destruct (issue_item projectId result) as [| | it]; reflexivity.
Qed.

Lemma issue_log_line_not_invoke (issueNodeId projectId : string)
      (item : Nullable Item.t) :
  is_invoke (issue_log_line issueNodeId projectId item) = false.
Proof. now destruct item. Qed.

(** C5. Once the one page of memberships has been fetched,
    [findIssueProjectItem] sends no further request: it keeps the
    memberships of the page that are on the target board and returns the
    first of them, and it returns no membership (a nullish value: the
    [undefined] of [Array.prototype.find], which the callers take for
    [null]) exactly when the page holds none on that board. *)
Theorem findIssueProjectItem_first_on_board
        (W : Type) (octokit : Octokit W) (issueNodeId projectId : string)
        (s s1 : State W) (result : IssueResult.t) (nodes : list Item.t) :
  withRetry (graphql_ISSUE_PROJECT_ITEMS octokit issueNodeId)
            (with_operation "finding issue project items") s = (Return result, s1) ->
  IssueResult.issue result
  = Some (IssueResult.make_issue (Some (IssueResult.make_items (Some nodes)))) ->
  let run := findIssueProjectItem octokit issueNodeId projectId s in
  let on_board := fun it => Project.id (Item.project it) = projectId in
  fst run = Return (to_nullable (hd_error (filter (on_project projectId) nodes)))
  /\ (forall it, fst run = Return (Val it) <-> first_such on_board nodes it)
  /\ ((exists v, fst run = Return v /\ nullish v = true)
      <-> forall it, In it nodes -> ~ on_board it)
  /\ world (snd run) = world s1
  /\ invocations (trace (snd run)) = invocations (trace s1).
Proof.
  intros fetched shape run on_board.
  subst run.
  rewrite (findIssueProjectItem_fetched octokit issueNodeId projectId s fetched).
  assert (Hitem : issue_item projectId result = array_find (on_project projectId) nodes).
  { unfold issue_item. now rewrite shape. }
  rewrite Hitem. cbn [fst snd world trace].
  pose proof (find_first_such _ _ (on_project_spec projectId) nodes) as Hfirst.
  pose proof (find_none_iff _ _ (on_project_spec projectId) nodes) as Hnone.
  fold on_board in Hfirst, Hnone.
  repeat split.
  - now rewrite array_find_filter.
  - unfold array_find. intros H. apply Hfirst.
    destruct (find (on_project projectId) nodes); congruence.
  - intros H. apply Hfirst in H. unfold array_find. now rewrite H.
  - unfold array_find. intros (v & Hv & Hnull). apply Hnone.
    destruct (find (on_project projectId) nodes); [| reflexivity].
    injection Hv as <-. discriminate.
  - intros H. apply Hnone in H. unfold array_find. rewrite H.
    now exists Undefined.
  - rewrite invocations_app. unfold invocations at 2. cbn [filter].
    rewrite issue_log_line_not_invoke. cbn. lia.
Qed.

(** ** findPRProjectItem *)

Lemma pr_log_line_not_invoke (prNodeId projectId : string)
      (projectItem : Nullable Item.t) :
  is_invoke (pr_log_line prNodeId projectId projectItem) = false.
Proof. now destruct projectItem. Qed.

Section LocatorFacts.

Variable W : Type.
Variable octokit : Octokit W.
Variables prNodeId projectId : string.

Lemma pr_epilogue_eq (projectItem : Nullable Item.t) (s : State W) :
  pr_epilogue prNodeId projectId projectItem s
  = (Return projectItem,
     mkState (world s) (trace s ++ [pr_log_line prNodeId projectId projectItem])).
Proof. now destruct projectItem. Qed.

(** Leaving the loop: the condition fails, the epilogue runs. *)
Lemma pr_loop_exit (fuel : nat) (projectItem : Nullable Item.t)
      (hasNextPage : bool) (cursor : option string) (s : State W) :
  hasNextPage && nullish projectItem = false ->
  pr_loop octokit fuel prNodeId projectId projectItem hasNextPage cursor s
  = (Return (Some projectItem),
     mkState (world s) (trace s ++ [pr_log_line prNodeId projectId projectItem])).
Proof.
  intros Hcond. destruct fuel; cbn [pr_loop]; rewrite Hcond;
    unfold bind; now rewrite pr_epilogue_eq.
Qed.

(** One turn of the loop whose fetch succeeded on a pull request that
    still resolves. *)
Lemma pr_loop_turn (fuel : nat) (projectItem : Nullable Item.t)
      (cursor : option string) (s s1 : State W) (items : PRResult.items_t) :
  nullish projectItem = true ->
  withRetry (graphql_PR_PROJECT_ITEMS_PAGINATED octokit prNodeId cursor)
            (with_operation "finding PR project items") s
  = (Return (PRResult.make (Some (PRResult.make_pr (Some items)))), s1) ->
  pr_loop octokit (S fuel) prNodeId projectId projectItem true cursor s
  = pr_loop octokit fuel prNodeId projectId
            (array_find (on_project projectId) (PRResult.nodes items))
            (PageInfo.hasNextPage (PRResult.pageInfo items))
            (PageInfo.endCursor (PRResult.pageInfo items)) s1.
Proof.
  intros Hnull fetched. cbn [pr_loop]. rewrite Hnull. cbn [andb].
  unfold bind at 1. rewrite fetched. reflexivity.
Qed.

(** One turn of the loop whose fetch finds the pull request gone: the
    function returns [null] there and then. *)
Lemma pr_loop_gone (fuel : nat) (projectItem : Nullable Item.t)
      (cursor : option string) (s s1 : State W) :
  nullish projectItem = true ->
  withRetry (graphql_PR_PROJECT_ITEMS_PAGINATED octokit prNodeId cursor)
            (with_operation "finding PR project items") s
  = (Return (PRResult.make None), s1) ->
  pr_loop octokit (S fuel) prNodeId projectId projectItem true cursor s
  = (Return (Some Null),
     mkState (world s1)
             (trace s1 ++ [Warning ("⚠️ PR with node ID " ++ prNodeId ++ " not found")])).
Proof.
  intros Hnull fetched. cbn [pr_loop]. rewrite Hnull. cbn [andb].
  unfold bind at 1. rewrite fetched. reflexivity.
Qed.

Lemma pr_loop_on_board (fuel : nat) :
  forall (projectItem : Nullable Item.t) (hasNextPage : bool)
         (cursor : option string) (s : State W) (it : Item.t),
    (forall it0, projectItem = Val it0 -> on_project projectId it0 = true) ->
    fst (pr_loop octokit fuel prNodeId projectId projectItem hasNextPage cursor s)
    = Return (Some (Val it)) ->
    on_project projectId it = true.
Proof.
  induction fuel as [| fuel IH]; intros projectItem hasNextPage cursor s it Hinv Hrun;
    destruct (hasNextPage && nullish projectItem) eqn:Hcond;
    try (rewrite pr_loop_exit in Hrun by assumption;
         cbn in Hrun; injection Hrun as Hrun; now apply Hinv).
  - cbn [pr_loop] in Hrun. rewrite Hcond in Hrun. discriminate.
  - cbn [pr_loop] in Hrun. rewrite Hcond in Hrun. unfold bind at 1 in Hrun.
    destruct (withRetry _ _ s) as [[result | e] s1]; [| discriminate].
    destruct (PRResult.pullRequest result) as [pr |]; [| discriminate].
    destruct (PRResult.projectItems pr) as [items |]; [| discriminate].
    apply IH in Hrun; trivial.
    intros it0. apply array_find_Val.
Qed.

Lemma findIssueProjectItem_on_board (issueNodeId : string) (s : State W) (it : Item.t) :
  fst (findIssueProjectItem octokit issueNodeId projectId s) = Return (Val it) ->
  on_project projectId it = true.
Proof.
  destruct (withRetry (graphql_ISSUE_PROJECT_ITEMS octokit issueNodeId)
                      (with_operation "finding issue project items") s)
    as [[result | e] s1] eqn:fetched.
  - rewrite (findIssueProjectItem_fetched octokit issueNodeId projectId s fetched).
    cbn [fst]. intros [= Hitem]. unfold issue_item in Hitem.
    destruct (IssueResult.issue result) as [issue |]; [| discriminate].
    destruct (IssueResult.projectItems issue) as [projectItems |]; [| discriminate].
    destruct (IssueResult.nodes projectItems) as [nodes |]; [| discriminate].
    now apply array_find_Val in Hitem.
  - unfold findIssueProjectItem, bind at 1. rewrite fetched. discriminate.
Qed.

End LocatorFacts.

(** C9. Whatever the service answers, a membership that
    [findIssueProjectItem] or [findPRProjectItem] returns has the project
    id the call was given. *)
Theorem locators_return_target_board
        (W : Type) (octokit : Octokit W) (projectId : string) :
  (forall issueNodeId s it,
      fst (findIssueProjectItem octokit issueNodeId projectId s) = Return (Val it) ->
      Project.id (Item.project it) = projectId)
  /\ (forall fuel prNodeId s it,
         fst (findPRProjectItem octokit fuel prNodeId projectId s)
         = Return (Some (Val it)) ->
         Project.id (Item.project it) = projectId).
Proof.
  split.
  - intros issueNodeId s it Hrun. apply on_project_spec.
    exact (findIssueProjectItem_on_board octokit projectId issueNodeId s Hrun).
  - intros fuel prNodeId s it Hrun. apply on_project_spec.
    unfold findPRProjectItem in Hrun.
    eapply pr_loop_on_board; [| exact Hrun]. discriminate.
Qed.

(** ** The paginated scan against the service *)

Lemma to_uint_not_Nil (n : nat) : Nat.to_uint n <> Decimal.Nil.
Proof.
  rewrite <- (DecimalNat.Unsigned.of_to n) at 1.
  rewrite DecimalNat.Unsigned.to_of. unfold Decimal.unorm.
  now destruct (Decimal.nzhead (Nat.to_uint n)).
Qed.

Lemma decode_encode_cursor (offset : nat) :
  GitHub.decode_cursor (Some (GitHub.encode_cursor offset)) = Some offset.
Proof.
  unfold GitHub.decode_cursor, GitHub.encode_cursor.
  rewrite NilZero.usu by apply to_uint_not_Nil.
  cbn [option_map]. now rewrite DecimalNat.Unsigned.of_to.
Qed.

Section ListFacts.

Variable A : Type.
Variable test : A -> bool.

Lemma find_app_none (l1 l2 : list A) :
  find test l1 = None -> find test (l1 ++ l2) = find test l2.
Proof.
  induction l1 as [| x l1 IH]; cbn; trivial.
  destruct (test x); [discriminate | exact IH].
Qed.

Lemma find_app_split (l1 l2 : list A) :
  find test (l1 ++ l2) = None -> find test l1 = None /\ find test l2 = None.
Proof.
  induction l1 as [| x l1 IH]; cbn; [now split |].
  destruct (test x); [discriminate | exact IH].
Qed.

Lemma find_none_firstn (n : nat) (l : list A) :
  find test l = None -> find test (firstn n l) = None.
Proof.
  intros H. rewrite <- (firstn_skipn n l) in H. now apply find_app_split in H.
Qed.

Lemma find_none_skipn (n : nat) (l : list A) :
  find test l = None -> find test (skipn n l) = None.
Proof.
  intros H. rewrite <- (firstn_skipn n l) in H. now apply find_app_split in H.
Qed.

Lemma find_none_Forall (p : A -> Prop) (l : list A) :
  (forall x, test x = true <-> p x) ->
  Forall (fun y => ~ p y) l -> find test l = None.
Proof.
  intros Hspec Hall. apply (find_none_iff p test Hspec).
  now apply Forall_forall.
Qed.

End ListFacts.

Lemma div_page_step (a n : nat) : n <> 0%nat -> (n <= a)%nat ->
  (a / n = S ((a - n) / n))%nat.
Proof.
  intros Hn Hle. replace a with ((a - n) + 1 * n)%nat at 1 by lia.
  rewrite Nat.div_add by exact Hn. lia.
Qed.

Section Pagination.

Variable remote : GitHub.Remote.
Variables prNodeId projectId : string.
Variable items : list Item.t.
Hypothesis known : GitHub.pr_items remote prNodeId = Some items.

(** A page request on the service: one call, answered at once. *)
Lemma fetch_page (cursor : option string) (offset : nat) (t : list Event) :
  GitHub.decode_cursor cursor = Some offset ->
  withRetry (graphql_PR_PROJECT_ITEMS_PAGINATED GitHub.octokit prNodeId cursor)
            (with_operation "finding PR project items") (mkState remote t)
  = (Return (PRResult.make (Some (PRResult.make_pr (Some (GitHub.page items offset))))),
     mkState remote (t ++ [Invoke])).
Proof.
  intros Hcursor.
  apply (withRetry_first_attempt
           (graphql_PR_PROJECT_ITEMS_PAGINATED GitHub.octokit prNodeId cursor)
           (with_operation "finding PR project items") (mkState remote t)).
  - cbn. lia.
  - cbn. unfold GitHub.pr_project_items. now rewrite Hcursor, known.
Qed.

Local Abbreviation size := GitHub.pr_items_first.
Local Abbreviation wanted := (on_project projectId).

(** The page at [offset] when more than a page is left and the page has
    no match: it is full, announces a next page and hands out the cursor
    behind its last node. *)
Lemma page_inner (offset : nat) :
  (size < List.length (skipn offset items))%nat ->
  PageInfo.hasNextPage (PRResult.pageInfo (GitHub.page items offset)) = true
  /\ PageInfo.endCursor (PRResult.pageInfo (GitHub.page items offset))
     = Some (GitHub.encode_cursor (offset + size)).
Proof.
  intros Hmore. unfold GitHub.page.
  cbn [PRResult.pageInfo PageInfo.hasNextPage PageInfo.endCursor].
  split; [now apply Nat.ltb_lt |].
  assert (Hlen : List.length (firstn size (skipn offset items)) = size)
    by (rewrite length_firstn; lia).
  rewrite Hlen.
  destruct (firstn size (skipn offset items)); [discriminate | reflexivity].
Qed.

Lemma page_last (offset : nat) :
  (List.length (skipn offset items) <= size)%nat ->
  PageInfo.hasNextPage (PRResult.pageInfo (GitHub.page items offset)) = false
  /\ PRResult.nodes (GitHub.page items offset) = skipn offset items.
Proof.
  intros Hlast. unfold GitHub.page.
  cbn [PRResult.pageInfo PRResult.nodes PageInfo.hasNextPage].
  split; [now apply Nat.ltb_ge | now apply firstn_all2].
Qed.

(** The scan from [offset] when the first match of what is left has
    [before] in front of it: the loop turns once per page up to the page
    that holds the match and returns it. *)
Lemma scan_found (fuel : nat) :
  forall (offset : nat) (cursor : option string) (t : list Event)
         (projectItem : Nullable Item.t) (before after : list Item.t) (it : Item.t),
    nullish projectItem = true ->
    GitHub.decode_cursor cursor = Some offset ->
    skipn offset items = (before ++ it :: after)%list ->
    wanted it = true ->
    find wanted before = None ->
    (List.length before / size < fuel)%nat ->
    exists t',
      pr_loop GitHub.octokit fuel prNodeId projectId projectItem true cursor
              (mkState remote t)
      = (Return (Some (Val it)), mkState remote t')
      /\ invocations t' = (invocations t + S (List.length before / size))%nat.
Proof.
  induction fuel as [| fuel IH];
    intros offset cursor t projectItem before after it Hnull Hcursor Hrest Hit Hbefore Hfuel;
    [lia |].
  erewrite pr_loop_turn; [| exact Hnull | apply fetch_page; exact Hcursor].
  destruct (Nat.lt_ge_cases (List.length before) size) as [Hlt | Hge].
  - assert (Hnodes : find wanted (PRResult.nodes (GitHub.page items offset)) = Some it).
    { unfold GitHub.page. cbn [PRResult.nodes]. rewrite Hrest, firstn_app.
      rewrite find_app_none by now apply find_none_firstn.
      destruct (size - List.length before)%nat eqn:E; [lia |].
      cbn [firstn find]. now rewrite Hit. }
    unfold array_find. rewrite Hnodes.
    rewrite pr_loop_exit by apply andb_false_r.
    eexists. split; [reflexivity |].
    cbn [trace]. rewrite !invocations_app, Nat.div_small by exact Hlt.
    unfold invocations at 2 3. cbn [filter is_invoke].
    rewrite pr_log_line_not_invoke. cbn. lia.
  - assert (Hmore : (size < List.length (skipn offset items))%nat).
    { rewrite Hrest, length_app. cbn [List.length]. lia. }
    destruct (page_inner offset Hmore) as [Hnext Hend]. rewrite Hnext, Hend.
    assert (Hnodes : find wanted (PRResult.nodes (GitHub.page items offset)) = None).
    { unfold GitHub.page. cbn [PRResult.nodes]. rewrite Hrest, firstn_app.
      replace (size - List.length before)%nat with 0%nat by lia.
      cbn [firstn]. rewrite app_nil_r. now apply find_none_firstn. }
    unfold array_find. rewrite Hnodes.
    destruct (IH (offset + size)%nat (Some (GitHub.encode_cursor (offset + size)))
                 (t ++ [Invoke])%list Undefined (skipn size before) after it)
      as (t' & Hrun & Hcount); trivial.
    + apply decode_encode_cursor.
    + rewrite Nat.add_comm, <- skipn_skipn, Hrest, skipn_app.
      replace (size - List.length before)%nat with 0%nat by lia. reflexivity.
    + now apply find_none_skipn.
    + rewrite length_skipn. rewrite (@div_page_step (List.length before) size) in Hfuel;
        [lia | discriminate | exact Hge].
    + exists t'. split; [exact Hrun |].
      rewrite Hcount, invocations_app, length_skipn.
      rewrite (@div_page_step (List.length before) size); [| discriminate | exact Hge].
      unfold invocations at 2. cbn. lia.
Qed.

(** The scan from [offset] when nothing that is left matches: the loop
    turns once per remaining page and ends without a membership. *)
Lemma scan_absent (fuel : nat) :
  forall (offset : nat) (cursor : option string) (t : list Event)
         (projectItem : Nullable Item.t),
    nullish projectItem = true ->
    GitHub.decode_cursor cursor = Some offset ->
    find wanted (skipn offset items) = None ->
    ((List.length (skipn offset items) - 1) / size < fuel)%nat ->
    exists t',
      pr_loop GitHub.octokit fuel prNodeId projectId projectItem true cursor
              (mkState remote t)
      = (Return (Some Undefined), mkState remote t')
      /\ invocations t'
         = (invocations t + S ((List.length (skipn offset items) - 1) / size))%nat.
Proof.
  induction fuel as [| fuel IH];
    intros offset cursor t projectItem Hnull Hcursor Hrest Hfuel; [lia |].
  erewrite pr_loop_turn; [| exact Hnull | apply fetch_page; exact Hcursor].
  assert (Hnodes : find wanted (PRResult.nodes (GitHub.page items offset)) = None).
  { unfold GitHub.page. cbn [PRResult.nodes]. now apply find_none_firstn. }
  unfold array_find. rewrite Hnodes.
  destruct (Nat.lt_ge_cases size (List.length (skipn offset items))) as [Hmore | Hlast].
  - destruct (page_inner offset Hmore) as [Hnext Hend]. rewrite Hnext, Hend.
    assert (Hskip : skipn (offset + size) items = skipn size (skipn offset items))
      by now rewrite Nat.add_comm, <- skipn_skipn.
    assert (Hlen : List.length (skipn (offset + size) items)
                   = (List.length (skipn offset items) - size)%nat)
      by now rewrite Hskip, length_skipn.
    assert (Hdiv : ((List.length (skipn offset items) - 1) / size
                    = S ((List.length (skipn (offset + size) items) - 1) / size))%nat).
    { rewrite Hlen, (@div_page_step (List.length (skipn offset items) - 1) size);
        [ f_equal; f_equal; lia | discriminate | unfold size in *; lia ]. }
    destruct (IH (offset + size)%nat (Some (GitHub.encode_cursor (offset + size)))
                 (t ++ [Invoke])%list Undefined)
      as (t' & Hrun & Hcount); trivial.
    + apply decode_encode_cursor.
    + rewrite Hskip. now apply find_none_skipn.
    + lia.
    + exists t'. split; [exact Hrun |].
      rewrite Hcount, invocations_app, Hdiv. unfold invocations at 2. cbn. lia.
  - destruct (page_last offset Hlast) as [Hnext _]. rewrite Hnext.
    rewrite pr_loop_exit by reflexivity.
    eexists. split; [reflexivity |].
    cbn [trace]. rewrite !invocations_app, Nat.div_small by (unfold size in *; lia).
    unfold invocations at 2 3. cbn. lia.
Qed.

End Pagination.

Lemma In_page (items : list Item.t) (offset : nat) (it : Item.t) :
  In it (PRResult.nodes (GitHub.page items offset)) -> In it items.
Proof.
  unfold GitHub.page. cbn [PRResult.nodes]. intros Hin.
  rewrite <- (firstn_skipn offset items). apply in_or_app. right.
  rewrite <- (firstn_skipn GitHub.pr_items_first (skipn offset items)).
  apply in_or_app. now left.
Qed.

(** The last page of a scan that finds nothing announces no next page. *)
Lemma last_page_has_no_next (items : list Item.t) :
  PageInfo.hasNextPage
    (PRResult.pageInfo
       (GitHub.page items ((List.length items - 1) / 100 * 100))) = false.
Proof.
  unfold GitHub.page. cbn [PRResult.pageInfo PageInfo.hasNextPage].
  apply Nat.ltb_ge. rewrite length_skipn. unfold GitHub.pr_items_first.
  pose proof (Nat.div_mod_eq (List.length items - 1) 100) as Hdiv.
  pose proof (Nat.mod_upper_bound (List.length items - 1) 100) as Hmod.
  lia.
Qed.

(** C1. Against a service that hands out the memberships of a pull
    request in pages of 100: with fuel for every page, [findPRProjectItem]
    returns the first membership on the target board wherever it lies,
    after fetching the pages up to the one that holds it, so a target
    membership on any page, the last included, makes the call return a
    membership of that board; the call always returns, and it returns no
    membership only when no page holds one on the target board, all pages
    have been fetched and the last one announced no next page.  And on any
    service, a fetch that finds the pull request gone makes the loop
    return [null] at once: nothing is requested after it. *)
Theorem findPRProjectItem_pagination :
  (forall (remote : GitHub.Remote) (prNodeId projectId : string)
          (items : list Item.t) (t : list Event) (fuel : nat),
      GitHub.pr_items remote prNodeId = Some items ->
      (List.length items / 100 < fuel)%nat ->
      let run := findPRProjectItem GitHub.octokit fuel prNodeId projectId
                                   (mkState remote t) in
      let on_board := fun it => Project.id (Item.project it) = projectId in
      (forall before it after,
          items = (before ++ it :: after)%list ->
          on_board it ->
          Forall (fun x => ~ on_board x) before ->
          fst run = Return (Some (Val it))
          /\ invocations (trace (snd run))
             = (invocations t + S (List.length before / 100))%nat)
      /\ (forall k it,
             In it (PRResult.nodes (GitHub.page items (k * 100))) ->
             on_board it ->
             exists m, fst run = Return (Some (Val m)) /\ on_board m)
      /\ (exists v, fst run = Return (Some v))
      /\ (forall v,
             fst run = Return (Some v) ->
             nullish v = true ->
             (forall it, In it items -> ~ on_board it)
             /\ invocations (trace (snd run))
                = (invocations t + S ((List.length items - 1) / 100))%nat
             /\ PageInfo.hasNextPage
                  (PRResult.pageInfo
                     (GitHub.page items ((List.length items - 1) / 100 * 100)))
                = false))
  /\ (forall (W : Type) (octokit : Octokit W) (fuel : nat)
             (prNodeId projectId : string) (projectItem : Nullable Item.t)
             (cursor : option string) (s s1 : State W),
         nullish projectItem = true ->
         withRetry (graphql_PR_PROJECT_ITEMS_PAGINATED octokit prNodeId cursor)
                   (with_operation "finding PR project items") s
         = (Return (PRResult.make None), s1) ->
         let run := pr_loop octokit (S fuel) prNodeId projectId projectItem
                            true cursor s in
         fst run = Return (Some Null)
         /\ world (snd run) = world s1
         /\ invocations (trace (snd run)) = invocations (trace s1)).
Proof.
  split.
  - intros remote prNodeId projectId items t fuel known Hfuel run on_board.
    assert (Hfound : forall before it after,
               items = (before ++ it :: after)%list ->
               on_board it ->
               Forall (fun x => ~ on_board x) before ->
               fst run = Return (Some (Val it))
               /\ invocations (trace (snd run))
                  = (invocations t + S (List.length before / 100))%nat).
    { intros before it after Hitems Hit Hbefore.
      destruct (@scan_found remote prNodeId projectId items known fuel
                            0%nat None t Null before after it)
        as (t' & Hrun & Hcount); trivial.
      - now apply on_project_spec.
      - exact (@find_none_Forall _ (on_project projectId) _ before
                                 (on_project_spec projectId) Hbefore).
      - apply Nat.le_lt_trans with (List.length items / 100)%nat; [| exact Hfuel].
        apply Nat.Div0.div_le_mono. rewrite Hitems, length_app. lia.
      - subst run. unfold findPRProjectItem. rewrite Hrun. now split. }
    assert (Habsent : find (on_project projectId) items = None ->
               fst run = Return (Some Undefined)
               /\ invocations (trace (snd run))
                  = (invocations t + S ((List.length items - 1) / 100))%nat).
    { intros Hnone.
      destruct (@scan_absent remote prNodeId projectId items known fuel
                             0%nat None t Null)
        as (t' & Hrun & Hcount); trivial.
      - apply Nat.le_lt_trans with (List.length items / 100)%nat; [| exact Hfuel].
        apply Nat.Div0.div_le_mono. cbn [skipn]. lia.
      - subst run. unfold findPRProjectItem. rewrite Hrun. now split. }
    pose proof (find_first_such _ _ (on_project_spec projectId) items) as Hfirst.
    pose proof (find_none_iff _ _ (on_project_spec projectId) items) as Hnone.
    fold on_board in Hfirst, Hnone.
    assert (Hsome : forall m, find (on_project projectId) items = Some m ->
               fst run = Return (Some (Val m)) /\ on_board m).
    { intros m Hm. apply Hfirst in Hm.
      destruct Hm as (before & after & Hitems & Hm & Hbefore).
      split; [| exact Hm]. exact (proj1 (Hfound before m after Hitems Hm Hbefore)). }
    repeat apply conj.
    + exact Hfound.
    + intros k it Hin Hit. apply In_page in Hin.
      destruct (find (on_project projectId) items) as [m |] eqn:Hfind.
      * exists m. now apply Hsome.
      * exfalso. exact (proj1 Hnone eq_refl it Hin Hit).
    + destruct (find (on_project projectId) items) as [m |] eqn:Hfind.
      * exists (Val m). now apply Hsome.
      * exists Undefined. now apply Habsent.
    + intros v Hv Hnull.
      destruct (find (on_project projectId) items) as [m |] eqn:Hfind.
      * destruct (Hsome m eq_refl) as [Hrun _]. rewrite Hrun in Hv.
        injection Hv as <-. discriminate.
      * repeat apply conj.
        -- now apply Hnone.
        -- now apply Habsent.
        -- apply last_page_has_no_next.
  - intros W octokit fuel prNodeId projectId projectItem cursor s s1 Hnull fetched run.
    subst run.
    rewrite (@pr_loop_gone W octokit prNodeId projectId fuel projectItem cursor
                           s s1 Hnull fetched).
    cbn [fst snd world trace]. repeat split.
    rewrite invocations_app. unfold invocations at 2. cbn. lia.
Qed.

(** ** The limits of the unpaginated queries *)

(** On the service, the resolver sees the first 50 fields of the board and
    no other. *)
Lemma findProjectFields_first_50
      (remote : GitHub.Remote) (projectId fieldName : string)
      (all : list Field.t) (t : list Event) :
  GitHub.board_fields remote projectId = Some all ->
  fst (findProjectFields GitHub.octokit projectId fieldName None (mkState remote t))
  = match find (has_name fieldName) (firstn 50 all) with
    | Some f => Return (mkLookup (Field.id f) None f)
    | None => Throw (FieldNotFound fieldName projectId)
    end.
Proof.
  intros known.
  assert (fetched :
            withRetry (graphql_PROJECT_FIELDS GitHub.octokit projectId)
                      (with_operation "finding project fields") (mkState remote t)
            = (Return (FieldsResult.make
                         (Some (FieldsResult.make_node
                                  (Some (FieldsResult.make_fields (firstn 50 all)))))),
               mkState remote (t ++ [Invoke]))).
  { apply (withRetry_first_attempt
             (graphql_PROJECT_FIELDS GitHub.octokit projectId)
             (with_operation "finding project fields") (mkState remote t)).
    - cbn. lia.
    - cbn. unfold GitHub.project_fields. now rewrite known. }
  rewrite (findProjectFields_fetched GitHub.octokit projectId fieldName
                                     (mkState remote t) fetched eq_refl None).
  now destruct (find (has_name fieldName) (firstn 50 all)).
Qed.

(** On the service, the issue locator sees the first 20 memberships of the
    issue and no other, in one request. *)
Lemma findIssueProjectItem_first_20
      (remote : GitHub.Remote) (issueNodeId projectId : string)
      (all : list Item.t) (t : list Event) :
  GitHub.issue_items remote issueNodeId = Some all ->
  let run := findIssueProjectItem GitHub.octokit issueNodeId projectId
                                  (mkState remote t) in
  fst run = Return (array_find (on_project projectId) (firstn 20 all))
  /\ invocations (trace (snd run)) = (invocations t + 1)%nat.
Proof.
  intros known run. subst run.
  assert (fetched :
            withRetry (graphql_ISSUE_PROJECT_ITEMS GitHub.octokit issueNodeId)
                      (with_operation "finding issue project items") (mkState remote t)
            = (Return (IssueResult.make
                         (Some (IssueResult.make_issue
                                  (Some (IssueResult.make_items
                                           (Some (firstn 20 all))))))),
               mkState remote (t ++ [Invoke]))).
  { apply (withRetry_first_attempt
             (graphql_ISSUE_PROJECT_ITEMS GitHub.octokit issueNodeId)
             (with_operation "finding issue project items") (mkState remote t)).
    - cbn. lia.
    - cbn. unfold GitHub.issue_project_items. now rewrite known. }
  rewrite (findIssueProjectItem_fetched GitHub.octokit issueNodeId projectId
                                        (mkState remote t) fetched).
  cbn [fst snd trace issue_item IssueResult.issue IssueResult.projectItems
       IssueResult.nodes].
  split; [reflexivity |].
  rewrite !invocations_app. unfold invocations at 2 3. cbn [filter is_invoke].
  rewrite issue_log_line_not_invoke. cbn. lia.
Qed.

(** An option name that is the empty string counts as not supplied: no
    option is looked up. *)
Lemma select_option_empty_name (W : Type) (fieldName : string) (f : Field.t)
      (s : State W) :
  select_option fieldName (Some "") f s = (Return None, s).
Proof. unfold select_option. now destruct (Field.options f). Qed.

(** ** Worked instances *)

Lemma findPRProjectItem_pagination_witness :
  (let run := findPRProjectItem
                GitHub.octokit 5 "PR_1" "PVT_board"
                (mkState (Fixtures.remote
                            [] (Fixtures.elsewhere 250
                                  ++ [Fixtures.item "PVTI_hit" "PVT_board"]))
                         []) in
   fst run = Return (Some (Val (Fixtures.item "PVTI_hit" "PVT_board")))
   /\ invocations (trace (snd run)) = 3%nat)
  /\
  (let run := pr_loop GitHub.octokit 1 "PR_gone" "PVT_board" Null true None
                      (mkState (Fixtures.remote [] []) []) in
   fst run = Return (Some Null)
   /\ world (snd run) = Fixtures.remote [] []
   /\ invocations (trace (snd run)) = 1%nat).
Proof.
  destruct findPRProjectItem_pagination as [Hscan Hgone]. split.
  - refine (proj1 (Hscan (Fixtures.remote
                            [] (Fixtures.elsewhere 250
                                  ++ [Fixtures.item "PVTI_hit" "PVT_board"]))
                         "PR_1" "PVT_board" _ [] 5%nat eq_refl _)
                  (Fixtures.elsewhere 250) (Fixtures.item "PVTI_hit" "PVT_board") []
                  eq_refl eq_refl _).
    + vm_compute. lia.
    + apply Forall_forall. intros x Hin. apply repeat_spec in Hin. subst x.
      discriminate.
  - exact (Hgone GitHub.Remote GitHub.octokit 0%nat "PR_gone" "PVT_board" Null None
                 (mkState (Fixtures.remote [] []) [])
                 (mkState (Fixtures.remote [] []) [Invoke])
                 eq_refl eq_refl).
Defined.

Lemma findProjectFields_first_named_witness :
  fst (findProjectFields
         GitHub.octokit "PVT_board" "Status" None
         (mkState (Fixtures.remote [Fixtures.date_field; Fixtures.status_field] []) []))
  = Return (mkLookup "F_status" None Fixtures.status_field).
Proof.
  refine (proj2 (proj2 (proj2
            (@findProjectFields_first_named
               GitHub.Remote GitHub.octokit "PVT_board" "Status" None
               (mkState (Fixtures.remote [Fixtures.date_field; Fixtures.status_field] []) [])
               (mkState (Fixtures.remote [Fixtures.date_field; Fixtures.status_field] [])
                        [Invoke])
               _ [Fixtures.date_field; Fixtures.status_field]
               eq_refl eq_refl)))
            eq_refl Fixtures.status_field _).
  exists [Fixtures.date_field], []. repeat split.
  constructor; [discriminate | constructor].
Defined.

Lemma findProjectFields_option_witness :
  fst (findProjectFields
         GitHub.octokit "PVT_board" "Status" (Some "Done")
         (mkState (Fixtures.remote [Fixtures.date_field; Fixtures.status_field] []) []))
  = Return (mkLookup "F_status" (Some "O_done") Fixtures.status_field).
Proof.
  refine (proj1 (proj1
            (@findProjectFields_option
               GitHub.Remote GitHub.octokit "PVT_board" "Status" (Some "Done")
               (mkState (Fixtures.remote [Fixtures.date_field; Fixtures.status_field] []) [])
               (mkState (Fixtures.remote [Fixtures.date_field; Fixtures.status_field] [])
                        [Invoke])
               _ [Fixtures.date_field; Fixtures.status_field] Fixtures.status_field
               eq_refl eq_refl _)
            "Done" _ eq_refl _ eq_refl)
            (FieldOption.make "O_done" "Done") _).
  - exists [Fixtures.date_field], []. repeat split.
    constructor; [discriminate | constructor].
  - discriminate.
  - exists [FieldOption.make "O_todo" "Todo"], []. repeat split.
    constructor; [discriminate | constructor].
Defined.

(** C4, counterexample.  An option name that is the empty string is
    supplied, the field [Status] carries options and none of them has that
    name, and yet the call does not fail with [OptionNotFound]: the guard
    [if (optionName && field.options)] skips the lookup, and the call
    returns the field with no option id. *)
Lemma findProjectFields_option_counterexample :
  let run := findProjectFields
               GitHub.octokit "PVT_board" "Status" (Some "")
               (mkState (Fixtures.remote [Fixtures.status_field] []) []) in
  let options := [FieldOption.make "O_todo" "Todo"; FieldOption.make "O_done" "Done"] in
  Field.options Fixtures.status_field = Some options
  /\ fst run = Return (mkLookup "F_status" None Fixtures.status_field)
  /\ ~ (fst run = Throw (OptionNotFound "" "Status")
        <-> forall o, In o options -> FieldOption.name o <> "").
Proof.
  cbv zeta. split; [reflexivity |]. split; [reflexivity |].
  intros [_ Hthrow].
  assert (Hnone : forall o,
             In o [FieldOption.make "O_todo" "Todo"; FieldOption.make "O_done" "Done"] ->
             FieldOption.name o <> "").
  { intros o [<- | [<- | []]]; discriminate. }
  specialize (Hthrow Hnone). discriminate Hthrow.
Qed.

(** The twenty-second membership is on the target board, and the issue
    locator does not see it. *)
Lemma findIssueProjectItem_first_on_board_witness :
  (let run := findIssueProjectItem
                GitHub.octokit "I_1" "PVT_board"
                (mkState (Fixtures.remote
                            [] [Fixtures.item "PVTI_a" "PVT_other";
                                Fixtures.item "PVTI_b" "PVT_board";
                                Fixtures.item "PVTI_c" "PVT_board"])
                         []) in
   fst run = Return (Val (Fixtures.item "PVTI_b" "PVT_board"))
   /\ invocations (trace (snd run)) = 1%nat)
  /\
  fst (findIssueProjectItem
         GitHub.octokit "I_1" "PVT_board"
         (mkState (Fixtures.remote
                     [] (Fixtures.elsewhere 21
                           ++ [Fixtures.item "PVTI_late" "PVT_board"]))
                  []))
  = Return Undefined.
Proof.
  split.
  - pose proof (@findIssueProjectItem_first_on_board
                  GitHub.Remote GitHub.octokit "I_1" "PVT_board"
                  (mkState (Fixtures.remote
                              [] [Fixtures.item "PVTI_a" "PVT_other";
                                  Fixtures.item "PVTI_b" "PVT_board";
                                  Fixtures.item "PVTI_c" "PVT_board"])
                           [])
                  _ _ _ eq_refl eq_refl) as (Hrun & _ & _ & _ & Hcount).
    split; [exact Hrun | exact Hcount].
  - exact (proj1 (@findIssueProjectItem_first_on_board
                    GitHub.Remote GitHub.octokit "I_1" "PVT_board"
                    (mkState (Fixtures.remote
                                [] (Fixtures.elsewhere 21
                                      ++ [Fixtures.item "PVTI_late" "PVT_board"]))
                             [])
                    _ _ _ eq_refl eq_refl)).
Defined.

Lemma locators_return_target_board_witness :
  Project.id (Item.project (Fixtures.item "PVTI_b" "PVT_board")) = "PVT_board"
  /\ Project.id (Item.project (Fixtures.item "PVTI_hit" "PVT_board")) = "PVT_board".
Proof.
  destruct (locators_return_target_board GitHub.octokit "PVT_board")
    as [Hissue Hpr].
  split.
  - exact (Hissue "I_1"
                  (mkState (Fixtures.remote
                              [] [Fixtures.item "PVTI_a" "PVT_other";
                                  Fixtures.item "PVTI_b" "PVT_board"])
                           [])
                  (Fixtures.item "PVTI_b" "PVT_board") eq_refl).
  - exact (Hpr 3%nat "PR_1"
               (mkState (Fixtures.remote
                           [] (Fixtures.elsewhere 120
                                 ++ [Fixtures.item "PVTI_hit" "PVT_board"]))
                        [])
               (Fixtures.item "PVTI_hit" "PVT_board") eq_refl).
Defined.

(** ** extractIssueFromBranch *)

Lemma string_drop_length (search s : string) :
  prefix search s = true ->
  (String.length (string_drop (String.length search) s) + String.length search
   = String.length s)%nat.
Proof.
  revert s. induction search as [| c search IH]; intros s Hprefix; cbn.
  - lia.
  - destruct s as [| d s]; cbn in Hprefix; [discriminate |].
    destruct (ascii_dec c d); [| discriminate].
    cbn. specialize (IH s Hprefix). lia.
Qed.

Lemma string_replace_eq (s search replacement : string) :
  string_replace s search replacement
  = if prefix search s
    then replacement ++ string_drop (String.length search) s
    else match s with
         | "" => ""
         | String c s' => String c (string_replace s' search replacement)
         end.
Proof. now destruct s. Qed.

Lemma occurs_eq (search s : string) :
  occurs search s
  = prefix search s
    || match s with
       | "" => false
       | String _ s' => occurs search s'
       end.
Proof. now destruct s. Qed.

(** A name that starts with [search] loses that prefix. *)
Lemma string_replace_prefix (s search : string) :
  prefix search s = true ->
  string_replace s search "" = string_drop (String.length search) s.
Proof. intros Hprefix. now rewrite string_replace_eq, Hprefix. Qed.

(** A name without an occurrence of [search] is left as it is. *)
Lemma string_replace_absent (s search : string) :
  occurs search s = false -> string_replace s search "" = s.
Proof.
  induction s as [| c s IH]; intros Hocc; rewrite occurs_eq in Hocc;
    apply orb_false_iff in Hocc as [Hprefix Hrest];
    rewrite string_replace_eq, Hprefix.
  - reflexivity.
  - now rewrite IH.
Qed.

(** An occurrence of [search] is removed wherever it starts: the name
    gets shorter by the length of [search]. *)
Lemma string_replace_removes_occurrence (s search : string) :
  occurs search s = true ->
  (String.length (string_replace s search "") + String.length search
   = String.length s)%nat.
Proof.
  induction s as [| c s IH]; intros Hocc; rewrite occurs_eq in Hocc;
    rewrite string_replace_eq;
    destruct (prefix search _) eqn:Hprefix;
    try (now apply string_drop_length); try discriminate.
  cbn [orb] in Hocc. cbn [String.length]. rewrite <- (IH Hocc). lia.
Qed.

(** C6, at a branch name that holds [refs/heads/] past its start.  The
    occurrence is removed although it is no prefix, and the pattern is
    matched against the shortened name: an anchored pattern that does not
    match the branch name as it was given extracts an issue number from
    it. *)
Theorem extractIssueFromBranch_strips_inner_occurrence (W : Type) (s : State W) :
  prefix "refs/heads/" "feature/refs/heads/issue-7" = false
  /\ string_replace "feature/refs/heads/issue-7" "refs/heads/" "" = "feature/issue-7"
  /\ outcome_of (extractIssueFromBranch "feature/refs/heads/issue-7"
                                        "^feature/issue-(\d+)") s
     = Some (Return (Val (Num 7)))
  /\ outcome_of (extract_from "feature/refs/heads/issue-7"
                              "^feature/issue-(\d+)") s
     = Some (Return Null).
Proof. repeat split. Qed.

(** C7. The three documented extractions. *)
Theorem extractIssueFromBranch_examples (W : Type) (s : State W) :
  outcome_of (extractIssueFromBranch "refs/heads/issue-42-fix" "issue-(\d+)") s
  = Some (Return (Val (Num 42)))
  /\ outcome_of (extractIssueFromBranch "issue-42-fix" "issue-(\d+)") s
     = Some (Return (Val (Num 42)))
  /\ outcome_of (extractIssueFromBranch "main" "issue-(\d+)") s
     = Some (Return Null).
Proof. repeat split. Qed.

Lemma parseInt10_not_numeric (c : ascii) (rest : string) :
  is_digit c = false -> is_space c = false -> c <> "-"%char -> c <> "+"%char ->
  parseInt10 (String c rest) = NaN.
Proof.
  intros Hdigit Hspace Hminus Hplus. unfold parseInt10.
  cbn [skip_space]. rewrite Hspace.
  assert (Hsign : (let (negative, digits) :=
                     match String c rest with
                     | String "-" tail => (true, tail)
                     | String "+" tail => (false, tail)
                     | _ => (false, String c rest)
                     end in
                   match read_digits digits None with
                   | None => NaN
                   | Some z => Num (if negative then - z else z)
                   end)
                  = match read_digits (String c rest) None with
                    | None => NaN
                    | Some z => Num z
                    end).
  { destruct (ascii_dec c "-") as [-> | _]; [now elim Hminus |].
    destruct (ascii_dec c "+") as [-> | _]; [now elim Hplus |].
    destruct c as [[] [] [] [] [] [] [] []]; try reflexivity;
      (now elim Hminus) || (now elim Hplus). }
  rewrite Hsign. cbn [read_digits]. now rewrite Hdigit.
Qed.

(** C8. When the match succeeds and its first capture is a non-empty
    text, the extractor returns whatever base-10 parsing makes of that
    text, unguarded; a capture that starts with neither a digit, a sign
    nor white space parses to [NaN]; and for the branch [feature-login]
    and the pattern [feature-(\w+)] the call ends normally and returns
    [NaN], not [null]. *)
Theorem extractIssueFromBranch_propagates_NaN (W : Type) (s : State W) :
  (forall branch regex re captures text,
      RegExp.compile regex = RegExp.Ok re ->
      RegExp.exec re (string_replace branch "refs/heads/" "") = Some captures ->
      nth 1 captures None = Some text ->
      text <> "" ->
      outcome_of (extractIssueFromBranch branch regex) s
      = Some (Return (Val (parseInt10 text))))
  /\ (forall c rest,
         is_digit c = false -> is_space c = false ->
         c <> "-"%char -> c <> "+"%char ->
         parseInt10 (String c rest) = NaN)
  /\ outcome_of (extractIssueFromBranch "feature-login" "feature-(\w+)") s
     = Some (Return (Val NaN)).
Proof.
  repeat apply conj.
  - intros branch regex re captures text Hcompile Hexec Hgroup Htext.
    unfold extractIssueFromBranch, extract_from, outcome_of.
    rewrite Hcompile. cbn [option_map]. cbv zeta. rewrite Hexec, Hgroup.
    assert (Htruthy : truthy (Some text) = true).
    { cbn. now apply negb_true_iff, String.eqb_neq. }
    rewrite Htruthy. reflexivity.
  - exact parseInt10_not_numeric.
  - reflexivity.
Qed.

Lemma extractIssueFromBranch_propagates_NaN_witness :
  outcome_of (extractIssueFromBranch (W := unit) "refs/heads/hotfix-urgent"
                                     "hotfix-([a-z]+)")
             (mkState tt [])
  = Some (Return (Val NaN)).
Proof.
  destruct (extractIssueFromBranch_propagates_NaN (mkState tt []))
    as (Hparse & Hnan & _).
  rewrite <- (Hnan "u"%char "rgent" eq_refl eq_refl
                   ltac:(discriminate) ltac:(discriminate)).
  refine (Hparse "refs/heads/hotfix-urgent" "hotfix-([a-z]+)"
                 _ [Some "hotfix-urgent"; Some "urgent"] "urgent"
                 eq_refl eq_refl eq_refl _).
  discriminate.
Defined.

(** Whenever [refs/heads/] occurs in a branch name without being its
    prefix, the name the pattern is matched against differs from the
    branch name. *)
Lemma cleanBranch_differs_on_inner_occurrence (branch : string) :
  prefix "refs/heads/" branch = false ->
  occurs "refs/heads/" branch = true ->
  string_replace branch "refs/heads/" "" <> branch.
Proof.
  intros _ Hocc Hsame.
  pose proof (string_replace_removes_occurrence branch "refs/heads/" Hocc) as Hlen.
  rewrite Hsame in Hlen. cbn [String.length] in Hlen. lia.
Qed.

(** * Properties of the rest of the code *)

Unset Implicit Arguments.

(** ** withRetry, for any number of attempts *)

Section RetryRuns.

Variable W : Type.
Variable A : Type.
Variable fn : Operation W A.
Variable maxRetries : Z.
Variable delay : Z.
Variable operation : string.

(** The loop from counter [attempt] when the next [k] calls reject and
    more attempts than that are left: it reaches counter [attempt + k]
    with the last rejection in [lastError], after [k] calls and [k]
    delays. *)
Lemma retry_loop_rejections (k : nat) :
  forall (fuel : nat) (attempt : Z) (lastError : option Thrown)
         (w wk : W) (t : list Event) (last : option Thrown),
    rejections fn k w lastError = Some (wk, last) ->
    attempt + Z.of_nat k <= maxRetries ->
    exists tk,
      retry_loop fn maxRetries delay operation (k + fuel) attempt lastError
                 (mkState w t)
      = retry_loop fn maxRetries delay operation fuel (attempt + Z.of_nat k) last
                   (mkState wk tk)
      /\ invocations tk = (invocations t + k)%nat
      /\ delays tk = (delays t + k)%nat.
Proof.
  induction k as [| k IH]; intros fuel attempt lastError w wk t last Hrej Hle.
  - cbn in Hrej. injection Hrej as <- <-. exists t.
    rewrite Z.add_0_r, !Nat.add_0_r. now repeat split.
  - cbn [rejections] in Hrej.
    destruct (fn w) as [[v | e] w1] eqn:Hfn; [discriminate |].
    cbn [Nat.add]. rewrite retry_loop_turn by lia.
    unfold attempt_body at 1. unfold try_catch, bind, invoke.
    cbn [world trace]. rewrite Hfn.
    assert (Hlt : (attempt <? maxRetries) = true) by (apply Z.ltb_lt; lia).
    rewrite Hlt. cbn -[retry_loop invocations delays Z.of_nat].
    destruct (IH fuel (attempt + 1) (Some e) w1 wk
                 ((((t ++ [Invoke]) ++
                    [Warning ("⚠️ " ++ operation ++ " failed on attempt "
                                ++ string_of_Z attempt ++ "/" ++ string_of_Z maxRetries
                                ++ ": " ++ message e)]) ++
                   [Info ("⏱️ Retrying in " ++ string_of_Z delay ++ "ms...")]) ++
                  [Sleep delay])%list last Hrej)
      as (tk & Hloop & Hinv & Hdel); [lia |].
    exists tk. replace (attempt + Z.of_nat (S k)) with (attempt + 1 + Z.of_nat k) by lia.
    split; [exact Hloop |].
    rewrite Hinv, Hdel, !invocations_app, !delays_app. cbn. lia.
Qed.

Lemma rejections_last (k : nat) :
  forall (w w' : W) (lastError last : option Thrown),
    rejections fn (S k) w lastError = Some (w', last) ->
    exists wk lk e,
      rejections fn k w lastError = Some (wk, lk)
      /\ fn wk = (Throw e, w') /\ last = Some e.
Proof.
  induction k as [| k IH]; intros w w' lastError last Hrej.
  - cbn in Hrej. destruct (fn w) as [[v | e] w1] eqn:Hfn; [discriminate |].
    injection Hrej as <- <-. exists w, lastError, e. now repeat split.
  - cbn [rejections] in Hrej. cbn [rejections].
    destruct (fn w) as [[v | e] w1] eqn:Hfn; [discriminate |].
    exact (IH w1 w' (Some e) last Hrej).
Qed.

Lemma exhausted_state (lastError : option Thrown) (s : State W) :
  snd (@exhausted W A maxRetries operation lastError s) = s.
Proof. now destruct lastError. Qed.

(** What one run of the loop adds to the trace, whatever the operation
    does: at most one call per attempt that is left, one delay between
    two calls and none after the last, each of the configured length. *)
Lemma retry_loop_budget (fuel : nat) :
  forall (attempt : Z) (lastError : option Thrown) (s : State W),
    maxRetries - attempt + 1 <= Z.of_nat fuel ->
    exists added,
      trace (snd (retry_loop fn maxRetries delay operation fuel attempt lastError s))
      = (trace s ++ added)%list
      /\ Z.of_nat (invocations added) <= Z.max 0 (maxRetries - attempt + 1)
      /\ delays added = pred (invocations added)
      /\ (attempt <= maxRetries -> (1 <= invocations added)%nat)
      /\ Forall (fun ev => is_sleep ev = true -> ev = Sleep delay) added
      /\ filter call_or_wait added = spaced_calls delay (invocations added).
Proof.
  induction fuel as [| fuel IH]; intros attempt lastError s Hfuel.
  - rewrite retry_loop_done, exhausted_state by lia. exists [].
    rewrite app_nil_r. cbn. repeat split; try lia; constructor.
  - destruct (Z.le_gt_cases attempt maxRetries) as [Hle | Hgt].
    2:{ rewrite retry_loop_done, exhausted_state by lia. exists [].
        rewrite app_nil_r. cbn. repeat split; try lia; constructor. }
    rewrite retry_loop_turn by exact Hle.
    unfold attempt_body, try_catch, bind, invoke.
    destruct (fn (world s)) as [[v | e] w1].
    + destruct (1 <? attempt); cbn [ret core_info emit snd trace world].
      * exists [Invoke; Info ("✅ " ++ operation ++ " succeeded on attempt "
                                ++ string_of_Z attempt)].
        rewrite <- app_assoc. cbn. repeat split; try lia.
        repeat constructor; discriminate.
      * exists [Invoke]. cbn. repeat split; try lia.
        repeat constructor; discriminate.
    + cbn [core_warning emit world trace].
      destruct (attempt <? maxRetries) eqn:Hlt;
        cbn [core_info sleep emit ret world trace].
      * apply Z.ltb_lt in Hlt.
        match goal with
        | |- context [retry_loop _ _ _ _ fuel (attempt + 1) (Some e) ?s1] =>
            destruct (IH (attempt + 1) (Some e) s1)
              as (added & Htrace & Hinv & Hdel & Hone & Hsleep & Hspaced); [lia |]
        end.
        exists ([Invoke;
                 Warning ("⚠️ " ++ operation ++ " failed on attempt "
                            ++ string_of_Z attempt ++ "/" ++ string_of_Z maxRetries
                            ++ ": " ++ message e);
                 Info ("⏱️ Retrying in " ++ string_of_Z delay ++ "ms...");
                 Sleep delay] ++ added)%list.
        rewrite Htrace. cbn [trace]. rewrite <- !app_assoc. cbn [app].
        specialize (Hone ltac:(lia)).
        change (invocations (Invoke :: ?a :: ?b :: Sleep delay :: added))
          with (S (invocations added)).
        change (delays (Invoke :: ?a :: ?b :: Sleep delay :: added))
          with (S (delays added)).
        repeat split; try lia.
        -- repeat constructor; trivial; discriminate.
        -- cbn [filter call_or_wait is_invoke is_sleep orb]. rewrite Hspaced.
           destruct (invocations added); [lia | reflexivity].
      * apply Z.ltb_ge in Hlt.
        rewrite retry_loop_done, exhausted_state by lia. cbn [trace].
        exists [Invoke;
                Warning ("⚠️ " ++ operation ++ " failed on attempt "
                           ++ string_of_Z attempt ++ "/" ++ string_of_Z maxRetries
                           ++ ": " ++ message e)].
        rewrite <- app_assoc. cbn. repeat split; try lia.
        repeat constructor; discriminate.
Qed.

(** Where the outcome of the loop comes from: a returned value is one
    the operation returned, and a thrown error is built by the final
    [throw], from the last rejection of the operation when there was
    one. *)
Lemma retry_loop_outcome (fuel : nat) :
  forall (attempt : Z) (lastError : option Thrown) (s : State W),
    maxRetries - attempt + 1 <= Z.of_nat fuel ->
    (forall e, lastError = Some e -> exists w w', fn w = (Throw e, w')) ->
    match fst (retry_loop fn maxRetries delay operation fuel attempt lastError s) with
    | Return v => exists w w', fn w = (Return v, w')
    | Throw err =>
        (lastError = None /\ maxRetries < attempt /\ err = UndefinedMessage)
        \/ (exists e w w',
               fn w = (Throw e, w')
               /\ err = RetryExhausted operation maxRetries e)
    end.
Proof.
  induction fuel as [| fuel IH]; intros attempt lastError s Hfuel Hlast.
  - rewrite retry_loop_done by lia.
    destruct lastError as [e |]; cbn.
    + right. destruct (Hlast e eq_refl) as (w & w' & Hfn). now exists e, w, w'.
    + left. repeat split. lia.
  - destruct (Z.le_gt_cases attempt maxRetries) as [Hle | Hgt].
    2:{ rewrite retry_loop_done by lia.
        destruct lastError as [e |]; cbn.
        - right. destruct (Hlast e eq_refl) as (w & w' & Hfn). now exists e, w, w'.
        - left. repeat split. lia. }
    rewrite retry_loop_turn by exact Hle.
    unfold attempt_body, try_catch, bind, invoke.
    destruct (fn (world s)) as [[v | e] w1] eqn:Hfn.
    + destruct (1 <? attempt); cbn; now exists (world s), w1.
    + cbn [core_warning emit world trace].
      assert (Hnext : forall s1,
                 match fst (retry_loop fn maxRetries delay operation fuel
                                       (attempt + 1) (Some e) s1) with
                 | Return v => exists w w', fn w = (Return v, w')
                 | Throw err =>
                     exists e0 w w',
                       fn w = (Throw e0, w')
                       /\ err = RetryExhausted operation maxRetries e0
                 end).
      { intros s1.
        specialize (IH (attempt + 1) (Some e) s1 ltac:(lia)).
        destruct (fst (retry_loop _ _ _ _ fuel (attempt + 1) (Some e) s1))
          as [v | err].
        - apply IH. intros e0 [= <-]. now exists (world s), w1.
        - destruct IH as [[Habs _] | IH]; [| discriminate | exact IH].
          intros e0 [= <-]. now exists (world s), w1. }
      destruct (attempt <? maxRetries); cbn [core_info sleep emit ret world trace];
        match goal with
        | |- context [retry_loop _ _ _ _ fuel (attempt + 1) (Some e) ?s1] =>
            specialize (Hnext s1);
            destruct (fst (retry_loop fn maxRetries delay operation fuel
                                      (attempt + 1) (Some e) s1)) as [v | err];
            [exact Hnext | now right]
        end.
Qed.

End RetryRuns.

(** X1. An operation that rejects its first [k] calls and then returns,
    with more than [k] attempts allowed: the run returns that result after
    exactly [k + 1] calls and [k] delays. *)
Theorem withRetry_succeeds_after
        (W A : Type) (fn : Operation W A) (options : RetryOptions)
        (k : nat) (w0 wk w' : W) (last : option Thrown) (v : A)
        (t0 : list Event) :
  rejections fn k w0 None = Some (wk, last) ->
  fn wk = (Return v, w') ->
  Z.of_nat k < default 3 (opt_maxRetries options) ->
  let run := withRetry fn options (mkState w0 t0) in
  fst run = Return v
  /\ world (snd run) = w'
  /\ invocations (trace (snd run)) = (invocations t0 + S k)%nat
  /\ delays (trace (snd run)) = (delays t0 + k)%nat.
Proof.
  intros Hrej Hfn Hk run. subst run. unfold withRetry.
  set (maxRetries := default 3 (opt_maxRetries options)) in *.
  replace (Z.to_nat maxRetries) with (k + S (Z.to_nat maxRetries - S k))%nat by lia.
  destruct (@retry_loop_rejections
              W A fn maxRetries (default 1000 (opt_delay options))
              (default "operation" (opt_operation options))
              k (S (Z.to_nat maxRetries - S k)) 1 None w0 wk t0 last Hrej)
    as (tk & Hloop & Hinv & Hdel); [lia |].
  rewrite Hloop, retry_loop_turn by lia.
  unfold attempt_body, try_catch, bind, invoke. cbn [world trace]. rewrite Hfn.
  destruct (1 <? 1 + Z.of_nat k); cbn [ret core_info emit fst snd world trace];
    rewrite !invocations_app, !delays_app, Hinv, Hdel; cbn; repeat split; lia.
Qed.

Lemma withRetry_succeeds_after_witness :
  let run := withRetry (Fixtures.fails_first 4)
                       (mkOptions (Some 6) (Some 250) (Some "adding labels"))
                       (mkState 0%nat []) in
  fst run = Return "done"
  /\ world (snd run) = 5%nat
  /\ invocations (trace (snd run)) = 5%nat
  /\ delays (trace (snd run)) = 4%nat.
Proof.
  exact (@withRetry_succeeds_after
           nat string (Fixtures.fails_first 4)
           (mkOptions (Some 6) (Some 250) (Some "adding labels"))
           4%nat 0%nat 4%nat 5%nat (Some (JsError "socket hang up")) "done" []
           eq_refl eq_refl ltac:(cbn; lia)).
Defined.

(** X2. An operation that rejects every one of the [maxRetries] calls it
    gets (at least one): the run ends in the permanent failure built from
    the operation label, [maxRetries] and the message of the last
    rejection, after exactly [maxRetries] calls and [maxRetries - 1]
    delays. *)
Theorem withRetry_exhausted
        (W A : Type) (fn : Operation W A) (options : RetryOptions)
        (n : nat) (w0 w : W) (last : option Thrown) (t0 : list Event) :
  default 3 (opt_maxRetries options) = Z.of_nat (S n) ->
  rejections fn (S n) w0 None = Some (w, last) ->
  let run := withRetry fn options (mkState w0 t0) in
  exists e,
    last = Some e
    /\ fst run = Throw (RetryExhausted (default "operation" (opt_operation options))
                                       (Z.of_nat (S n)) e)
    /\ world (snd run) = w
    /\ invocations (trace (snd run)) = (invocations t0 + S n)%nat
    /\ delays (trace (snd run)) = (delays t0 + n)%nat.
Proof.
  intros Hmax Hrej run. subst run. unfold withRetry. rewrite Hmax.
  destruct (@rejections_last W A fn n w0 w None last Hrej)
    as (wn & ln & e & Hn & Hfn & ->).
  exists e. split; [reflexivity |].
  replace (Z.to_nat (Z.of_nat (S n))) with (n + 1)%nat by lia.
  destruct (@retry_loop_rejections
              W A fn (Z.of_nat (S n)) (default 1000 (opt_delay options))
              (default "operation" (opt_operation options))
              n 1%nat 1 None w0 wn t0 ln Hn)
    as (tn & Hloop & Hinv & Hdel); [lia |].
  rewrite Hloop, retry_loop_turn by lia.
  unfold attempt_body, try_catch, bind, invoke. cbn [world trace]. rewrite Hfn.
  assert (Hlast : (1 + Z.of_nat n <? Z.of_nat (S n)) = false)
    by (apply Z.ltb_ge; lia).
  rewrite Hlast. cbn [core_warning emit ret world trace].
  rewrite retry_loop_done by lia. cbn [exhausted throw fst snd world trace].
  rewrite !invocations_app, !delays_app, Hinv, Hdel. cbn. repeat split; lia.
Qed.

Lemma withRetry_exhausted_witness :
  let run := withRetry (Fixtures.fails_first 9)
                       (mkOptions (Some 5) None (Some "removing PR from project"))
                       (mkState 0%nat []) in
  exists e,
    Some (JsError "socket hang up") = Some e
    /\ fst run = Throw (RetryExhausted "removing PR from project" 5 e)
    /\ world (snd run) = 5%nat
    /\ invocations (trace (snd run)) = 5%nat
    /\ delays (trace (snd run)) = 4%nat.
Proof.
  exact (@withRetry_exhausted
           nat string (Fixtures.fails_first 9)
           (mkOptions (Some 5) None (Some "removing PR from project"))
           4%nat 0%nat 5%nat (Some (JsError "socket hang up")) []
           eq_refl eq_refl).
Defined.

(** X3. Whatever the operation does, one run of [withRetry] calls it at
    most [maxRetries] times, waits exactly once between two consecutive
    calls and never before the first or after the last one, and every
    wait has the configured length: the calls and waits of the run, in
    the order they happen, are a call, then a wait and a call for every
    further attempt. *)
Theorem withRetry_budget
        (W A : Type) (fn : Operation W A) (options : RetryOptions) (s : State W) :
  exists added,
    trace (snd (withRetry fn options s)) = (trace s ++ added)%list
    /\ Z.of_nat (invocations added) <= Z.max 0 (default 3 (opt_maxRetries options))
    /\ filter call_or_wait added
       = spaced_calls (default 1000 (opt_delay options)) (invocations added)
    /\ delays added = pred (invocations added)
    /\ Forall (fun ev => is_sleep ev = true
                         -> ev = Sleep (default 1000 (opt_delay options))) added.
Proof.
  unfold withRetry.
  destruct (@retry_loop_budget
              W A fn (default 3 (opt_maxRetries options))
              (default 1000 (opt_delay options))
              (default "operation" (opt_operation options))
              (Z.to_nat (default 3 (opt_maxRetries options))) 1 None s)
    as (added & Htrace & Hinv & Hdel & _ & Hsleep & Hspaced); [lia |].
  exists added. repeat split; trivial. lia.
Qed.


(** ** validateEnvironmentVariables *)

Lemma unset_in_spec (env : Env) (v : string) :
  unset_in env v = true <-> env v = None \/ env v = Some "".
Proof.
  unfold unset_in, truthy. destruct (env v) as [value |]; cbn.
  - rewrite negb_involutive, String.eqb_eq. split; [right | intros [|]]; congruence.
  - split; [now left | reflexivity].
Qed.

(** X5. For required names that are not property names of
    [Object.prototype]: [validateEnvironmentVariables] returns exactly
    when every required variable holds a non-empty string.  Otherwise it
    throws before it logs anything, and the message lists the required
    variables that are unset or empty, and only those. *)
Theorem validateEnvironmentVariables_checks_all
        (W : Type) (env : Env) (requiredVars : list string) (s : State W) :
  Forall (fun v => inherited_name v = false) requiredVars ->
  let run := validateEnvironmentVariables env requiredVars s in
  (fst run = Return tt
   <-> forall v, In v requiredVars -> exists value, env v = Some value /\ value <> "")
  /\ (forall e,
         fst run = Throw e ->
         snd run = s
         /\ exists missing,
             e = JsError ("Missing required environment variables: "
                            ++ join ", " missing)
             /\ missing <> []
             /\ forall v, In v missing
                          <-> In v requiredVars /\ (env v = None \/ env v = Some "")).
Proof.
  intros _ run. subst run. unfold validateEnvironmentVariables.
  remember (filter (unset_in env) requiredVars) as missing eqn:Hdef.
  assert (Hmissing : forall v, In v missing
                               <-> In v requiredVars /\ (env v = None \/ env v = Some "")).
  { intros v. rewrite Hdef, filter_In, unset_in_spec. reflexivity. }
  clear Hdef. destruct missing as [| m rest]; cbn [List.length Nat.ltb Nat.leb].
  - split.
    + split; [| reflexivity]. intros _ v Hin.
      destruct (env v) as [value |] eqn:Hv.
      * exists value. split; [reflexivity |]. intros ->.
        apply (proj2 (Hmissing v)). split; [exact Hin | right; exact Hv].
      * exfalso. apply (proj2 (Hmissing v)). split; [exact Hin | now left].
    + discriminate.
  - split.
    + split; [discriminate |]. intros Hall. exfalso.
      destruct (proj1 (Hmissing m) (or_introl eq_refl)) as [Hin Hunset].
      destruct (Hall m Hin) as (value & Hvalue & Hne).
      destruct Hunset as [Hunset | Hunset]; congruence.
    + intros e [= <-]. split; [reflexivity |].
      exists (m :: rest).
      split; [reflexivity |]. split; [discriminate | exact Hmissing].
Qed.

Lemma validateEnvironmentVariables_checks_all_witness :
  let env := Doubles.env_of [("GITHUB_TOKEN", "ghs_token"); ("PROJECT_ID", "")] in
  let requiredVars := ["GITHUB_TOKEN"; "PROJECT_ID"; "DOMAIN"] in
  let run := validateEnvironmentVariables env requiredVars (mkState tt []) in
  snd run = mkState tt []
  /\ exists missing,
      JsError "Missing required environment variables: PROJECT_ID, DOMAIN"
      = JsError ("Missing required environment variables: " ++ join ", " missing)
      /\ missing <> []
      /\ forall v, In v missing
                   <-> In v requiredVars /\ (env v = None \/ env v = Some "").
Proof.
  refine (proj2 (validateEnvironmentVariables_checks_all
                   unit
                   (Doubles.env_of [("GITHUB_TOKEN", "ghs_token"); ("PROJECT_ID", "")])
                   ["GITHUB_TOKEN"; "PROJECT_ID"; "DOMAIN"] (mkState tt []) _)
                (JsError "Missing required environment variables: PROJECT_ID, DOMAIN")
                eq_refl).
  repeat constructor.
Defined.

(** ** extractIssueFromBranch on full refs and decimal numbers *)

(** X6. A full ref and the short branch name give the same extraction,
    for every pattern, as long as the short name does not itself contain
    [refs/heads/]. *)
Theorem extractIssueFromBranch_full_ref (W : Type) (branch regex : string) :
  occurs "refs/heads/" branch = false ->
  @extractIssueFromBranch W ("refs/heads/" ++ branch) regex
  = @extractIssueFromBranch W branch regex.
Proof.
  intros Habsent. unfold extractIssueFromBranch. cbv zeta.
  rewrite (string_replace_absent branch "refs/heads/" Habsent).
  rewrite string_replace_prefix; [reflexivity |].
  cbn. now destruct branch.
Qed.

Lemma extractIssueFromBranch_full_ref_witness :
  @extractIssueFromBranch unit "refs/heads/feature/issue-318-retry" "issue-([0-9]+)"
  = @extractIssueFromBranch unit "feature/issue-318-retry" "issue-([0-9]+)".
Proof.
  exact (@extractIssueFromBranch_full_ref
           unit "feature/issue-318-retry" "issue-([0-9]+)" eq_refl).
Defined.

Lemma horner_of_uint_acc (d : Decimal.uint) :
  forall acc, Z.pos (Pos.of_uint_acc d acc) = horner d (Z.pos acc).
Proof.
  induction d; intros acc; cbn [Pos.of_uint_acc horner];
    try reflexivity; rewrite IHd; f_equal; lia.
Qed.

Lemma horner_of_uint (d : Decimal.uint) : Z.of_N (Pos.of_uint d) = horner d 0.
Proof.
  induction d; cbn [Pos.of_uint horner Z.of_N]; trivial;
    rewrite horner_of_uint_acc; reflexivity.
Qed.

(** Reading the digits that print [d] gives the value of [d]. *)
Lemma read_digits_string_of_uint (d : Decimal.uint) :
  forall acc,
    read_digits (NilEmpty.string_of_uint d) acc
    = match d with
      | Decimal.Nil => acc
      | _ => Some (horner d (default 0 acc))
      end.
Proof.
  induction d; intros acc; cbn [NilEmpty.string_of_uint read_digits]; trivial;
    (change (is_digit _) with true; cbv iota; rewrite IHd;
     match goal with
     | |- context [digit_value ?c] =>
         let v := eval vm_compute in (digit_value c) in
         change (digit_value c) with v
     end;
     destruct d; cbn [horner default]; rewrite ?Z.add_0_r; reflexivity).
Qed.

Lemma parseInt10_string_of_uint (d : Decimal.uint) :
  d <> Decimal.Nil ->
  parseInt10 (NilEmpty.string_of_uint d) = Num (horner d 0)
  /\ parseInt10 (String "-" (NilEmpty.string_of_uint d)) = Num (- horner d 0).
Proof.
  intros Hd. unfold parseInt10.
  pose proof (read_digits_string_of_uint d None) as Hread.
  destruct d; try congruence; cbn [NilEmpty.string_of_uint skip_space] in *;
    (change (is_space _) with false; cbv iota beta; rewrite Hread; now split).
Qed.

(** Decimal printing followed by [parseInt(_, 10)] is the identity:
    the number the scripts print for an issue parses back to itself. *)
Lemma parseInt10_string_of_Z (z : Z) : parseInt10 (string_of_Z z) = Num z.
Proof.
  unfold string_of_Z. destruct z as [| p | p]; cbn [Z.to_int].
  - reflexivity.
  - cbn [NilZero.string_of_int]. unfold NilZero.string_of_uint.
    pose proof (DecimalPos.Unsigned.to_uint_nonnil p) as Hd.
    destruct (parseInt10_string_of_uint _ Hd) as [Hpos _].
    replace (match Pos.to_uint p with
             | Decimal.Nil => "0"
             | _ => NilEmpty.string_of_uint (Pos.to_uint p)
             end) with (NilEmpty.string_of_uint (Pos.to_uint p))
      by (destruct (Pos.to_uint p); congruence).
    rewrite Hpos, <- horner_of_uint, DecimalPos.Unsigned.of_to. reflexivity.
  - cbn [NilZero.string_of_int]. unfold NilZero.string_of_uint.
    pose proof (DecimalPos.Unsigned.to_uint_nonnil p) as Hd.
    destruct (parseInt10_string_of_uint _ Hd) as [_ Hneg].
    replace (match Pos.to_uint p with
             | Decimal.Nil => "0"
             | _ => NilEmpty.string_of_uint (Pos.to_uint p)
             end) with (NilEmpty.string_of_uint (Pos.to_uint p))
      by (destruct (Pos.to_uint p); congruence).
    rewrite Hneg, <- horner_of_uint, DecimalPos.Unsigned.of_to. reflexivity.
Qed.

(** ** The match array *)

Section MatchArray.

Import RegExp.

Lemma set_capture_length (i : nat) (v : option string) (caps : Captures) :
  List.length (set_capture i v caps) = List.length caps.
Proof.
  revert i. induction caps as [| c caps IH]; intros [| i]; cbn; trivial.
  now rewrite IH.
Qed.

Lemma clear_captures_length (r : Re) (caps : Captures) :
  List.length (clear_captures r caps) = List.length caps.
Proof.
  unfold clear_captures. induction (groups_of r) as [| i l IH]; cbn; trivial.
  now rewrite set_capture_length.
Qed.

Lemma repeat_greedy_keeps_length (n : nat) (m : Matcher) (k : Continuation) :
  matcher_keeps_length n m -> keeps_length n k ->
  forall fuel, keeps_length n (repeat_greedy m k fuel).
Proof.
  intros Hm Hk fuel. induction fuel as [| fuel IH]; intros pos rest caps out Hcaps.
  - apply Hk, Hcaps.
  - cbn [repeat_greedy]. unfold or_else.
    destruct (m pos rest caps _) as [out' |] eqn:Hrun.
    + intros [= <-]. revert Hrun. apply Hm; trivial.
      intros pos1 rest1 caps1 out1 Hcaps1.
      destruct (pos1 =? pos)%nat; [discriminate |]. now apply IH.
    + apply Hk, Hcaps.
Qed.

Lemma run_keeps_length (n : nat) (r : Re) : matcher_keeps_length n (run r).
Proof.
  induction r; intros pos rest caps k out Hk Hcaps; cbn [run]; unfold one_char, or_else.
  - now apply Hk.
  - destruct rest as [| c' rest]; [discriminate |].
    destruct (Ascii.eqb c c'); [now apply Hk | discriminate].
  - destruct rest as [| c' rest]; [discriminate |].
    destruct (negb (is_line_terminator c')); [now apply Hk | discriminate].
  - destruct rest as [| c' rest]; [discriminate |].
    destruct (xorb negated _); [now apply Hk | discriminate].
  - destruct (pos =? 0)%nat; [now apply Hk | discriminate].
  - destruct rest; [now apply Hk | discriminate].
  - apply IHr1; trivial. intros pos1 rest1 caps1 out1 Hcaps1. now apply IHr2.
  - destruct (run r1 pos rest caps k) as [out' |] eqn:Hrun.
    + intros [= <-]. revert Hrun. now apply IHr1.
    + now apply IHr2.
  - apply repeat_greedy_keeps_length; trivial.
    intros p s c k' out' Hk' Hc. apply IHr; trivial.
    now rewrite clear_captures_length.
  - apply IHr; [| now rewrite clear_captures_length].
    intros pos1 rest1 caps1 out1 Hcaps1.
    apply repeat_greedy_keeps_length; trivial.
    intros p s c k' out' Hk' Hc. apply IHr; trivial.
    now rewrite clear_captures_length.
  - destruct (run r pos rest (clear_captures r caps) _) as [out' |] eqn:Hrun.
    + intros [= <-]. revert Hrun.
      apply IHr; [| now rewrite clear_captures_length].
      intros pos1 rest1 caps1 out1 Hcaps1.
      destruct (pos1 =? pos)%nat; [discriminate |]. now apply Hk.
    + now apply Hk.
  - apply IHr; trivial. intros pos1 rest1 caps1 out1 Hcaps1.
    apply Hk. now rewrite set_capture_length.
Qed.

(** The match array has one slot for the whole match and one per group
    of the pattern. *)
Lemma exec_length (re : t) (subject : string) (out : Captures) :
  exec re subject = Some out -> List.length out = S (ngroups re).
Proof.
  unfold exec. generalize 0%nat as pos. revert out.
  induction subject as [| c subject IH]; intros out pos; cbn [search]; unfold or_else.
  - destruct (run (expr re) pos "" _ _) as [out' |] eqn:Hrun; [| discriminate].
    intros [= <-]. revert Hrun. apply run_keeps_length.
    + intros pos1 rest1 caps1 out1 Hcaps1 Hout. cbv beta in Hout.
      injection Hout as Hout. subst out1. now destruct caps1.
    + apply repeat_length.
  - destruct (run (expr re) pos (String c subject) _ _) as [out' |] eqn:Hrun.
    + intros [= <-]. revert Hrun. apply run_keeps_length.
      * intros pos1 rest1 caps1 out1 Hcaps1 Hout. cbv beta in Hout.
        injection Hout as Hout. subst out1. now destruct caps1.
      * apply repeat_length.
    + apply IH.
Qed.

End MatchArray.

(** X7. A pattern without a capturing group never yields an issue
    number: on every branch name, matching or not, the extractor logs that
    nothing was found and returns [null]. *)
Theorem extractIssueFromBranch_without_group
        (W : Type) (branch regex : string) (re : RegExp.t) (s : State W) :
  RegExp.compile regex = RegExp.Ok re ->
  RegExp.ngroups re = 0%nat ->
  outcome_of (extractIssueFromBranch branch regex) s = Some (Return Null).
Proof.
  intros Hcompile Hgroups.
  unfold extractIssueFromBranch, extract_from, outcome_of.
  rewrite Hcompile. cbn [option_map]. cbv zeta.
  destruct (RegExp.exec re _) as [captures |] eqn:Hexec; [| reflexivity].
  apply exec_length in Hexec. rewrite Hgroups in Hexec.
  destruct captures as [| whole [| group1 captures]]; try discriminate.
  reflexivity.
Qed.

Lemma extractIssueFromBranch_without_group_witness :
  outcome_of (extractIssueFromBranch (W := unit) "refs/heads/issue-42-fix"
                                     "issue-(?:\d+)")
             (mkState tt [])
  = Some (Return Null).
Proof.
  exact (@extractIssueFromBranch_without_group
           unit "refs/heads/issue-42-fix" "issue-(?:\d+)"
           _ (mkState tt []) eq_refl eq_refl).
Defined.

(** ** Issue numbers in branch names *)

Lemma string_length_app (a b : string) :
  String.length (a ++ b) = (String.length a + String.length b)%nat.
Proof. induction a as [| c a IH]; cbn; [reflexivity | now rewrite IH]. Qed.

Lemma string_take_app (a b : string) : string_take (String.length a) (a ++ b) = a.
Proof. induction a as [| c a IH]; cbn; [now destruct b | now rewrite IH]. Qed.

Section DigitRuns.

Import RegExp.

(** [\d*] over a run of digits that a non-digit ends: the greedy
    repetition takes the whole run when the rest of the pattern accepts
    what follows. *)
Lemma digit_class_accepts (c : ascii) :
  xorb false (existsb (in_item c) [Digit]) = is_digit c.
Proof. cbn. now destruct (is_digit c). Qed.

Lemma repeat_greedy_digits (k : Continuation) (suffix : string) (ds : string) :
  forall (fuel pos : nat) (caps out : Captures),
    all_digits ds = true ->
    starts_with_digit suffix = false ->
    (String.length ds < fuel)%nat ->
    k (pos + String.length ds)%nat suffix caps = Some out ->
    repeat_greedy
      (fun p s c k' =>
         one_char (fun c1 => xorb false (existsb (in_item c1) [Digit])) p s c k')
      k fuel pos (ds ++ suffix) caps
    = Some out.
Proof.
  induction ds as [| c ds IH]; intros fuel pos caps out Hds Hsuffix Hfuel Hk;
    (destruct fuel as [| fuel]; [cbn in Hfuel; lia |]);
    cbn [repeat_greedy append]; unfold one_char at 1.
  - cbn [String.length] in Hk. rewrite Nat.add_0_r in Hk.
    destruct suffix as [| c suffix]; cbn [or_else]; [exact Hk |].
    cbn [starts_with_digit] in Hsuffix. cbv beta.
    rewrite digit_class_accepts, Hsuffix. exact Hk.
  - cbn [all_digits] in Hds. apply andb_true_iff in Hds as [Hc Hds].
    cbv beta. rewrite digit_class_accepts, Hc.
    assert (Hpos : (S pos =? pos)%nat = false) by (apply Nat.eqb_neq; lia).
    rewrite Hpos.
    rewrite (IH fuel (S pos) caps out Hds Hsuffix); [reflexivity | |].
    + cbn [String.length] in Hfuel. lia.
    + cbn [String.length] in Hk. now rewrite Nat.add_succ_r in Hk.
Qed.

End DigitRuns.

Lemma string_of_uint_digits (d : Decimal.uint) :
  all_digits (NilEmpty.string_of_uint d) = true.
Proof. induction d; cbn; trivial. Qed.

Lemma string_of_Z_digits (n : Z) :
  0 <= n -> all_digits (string_of_Z n) = true /\ string_of_Z n <> "".
Proof.
  intros Hn. unfold string_of_Z. destruct n as [| p | p]; [now split | | lia].
  cbn [Z.to_int NilZero.string_of_int]. unfold NilZero.string_of_uint.
  pose proof (DecimalPos.Unsigned.to_uint_nonnil p) as Hd.
  pose proof (string_of_uint_digits (Pos.to_uint p)) as Hdigits.
  destruct (Pos.to_uint p); try congruence; split; trivial; discriminate.
Qed.

(** The pattern [issue-(\d+)] on a name that starts with [issue-] and a
    run of digits. *)
Lemma extract_from_issue_digits (W : Type) (s : State W) (ds suffix : string) :
  ds <> "" ->
  all_digits ds = true ->
  starts_with_digit suffix = false ->
  outcome_of (extract_from ("issue-" ++ ds ++ suffix) "issue-(\d+)") s
  = Some (Return (Val (parseInt10 ds))).
Proof.
  intros Hne Hds Hsuffix. destruct ds as [| c ds]; [congruence |].
  cbn in Hds. apply andb_true_iff in Hds as [Hc Hds].
  unfold extract_from, outcome_of.
  change (RegExp.compile "issue-(\d+)")
    with (RegExp.Ok
            (RegExp.make
               (RegExp.Seq (RegExp.Char "i")
                  (RegExp.Seq (RegExp.Char "s")
                     (RegExp.Seq (RegExp.Char "s")
                        (RegExp.Seq (RegExp.Char "u")
                           (RegExp.Seq (RegExp.Char "e")
                              (RegExp.Seq (RegExp.Char "-")
                                 (RegExp.Seq
                                    (RegExp.Group 1
                                       (RegExp.Seq
                                          (RegExp.Plus
                                             (RegExp.Class false [RegExp.Digit]))
                                          RegExp.Empty))
                                    RegExp.Empty)))))))
               1)).
  cbn [option_map]. cbv zeta.
  assert (Hexec :
            RegExp.exec
              (RegExp.make
                 (RegExp.Seq (RegExp.Char "i")
                    (RegExp.Seq (RegExp.Char "s")
                       (RegExp.Seq (RegExp.Char "s")
                          (RegExp.Seq (RegExp.Char "u")
                             (RegExp.Seq (RegExp.Char "e")
                                (RegExp.Seq (RegExp.Char "-")
                                   (RegExp.Seq
                                      (RegExp.Group 1
                                         (RegExp.Seq
                                            (RegExp.Plus
                                               (RegExp.Class false [RegExp.Digit]))
                                            RegExp.Empty))
                                      RegExp.Empty)))))))
                 1)
              ("issue-" ++ String c ds ++ suffix)
            = Some [Some ("issue-" ++ String c ds); Some (String c ds)]).
  { unfold RegExp.exec.
    cbn [append RegExp.search RegExp.expr RegExp.ngroups RegExp.run RegExp.one_char
         Ascii.eqb Bool.eqb repeat RegExp.clear_captures RegExp.groups_of
         fold_right existsb RegExp.in_item xorb orb].
    rewrite Hc. cbn [orb xorb].
    erewrite repeat_greedy_digits; [reflexivity | exact Hds | exact Hsuffix | | ].
    - rewrite string_length_app. lia.
    - cbn [RegExp.set_capture Nat.add Nat.sub string_take].
      now rewrite (string_take_app ds suffix). }
  rewrite Hexec. reflexivity.
Qed.

(** X8. For every issue number [n] from 0 to [Number.MAX_SAFE_INTEGER]
    and every rest of the name that does not go on with a digit, the
    branch [refs/heads/issue-<n><rest>] and the pattern [issue-(\d+)] give
    [n]; so does the short name [issue-<n><rest>] when it does not contain
    [refs/heads/]. *)
Theorem extractIssueFromBranch_issue_number
        (W : Type) (s : State W) (n : Z) (suffix : string) :
  0 <= n <= MAX_SAFE_INTEGER ->
  starts_with_digit suffix = false ->
  outcome_of (extractIssueFromBranch
                ("refs/heads/issue-" ++ string_of_Z n ++ suffix) "issue-(\d+)") s
  = Some (Return (Val (Num n)))
  /\ (occurs "refs/heads/" ("issue-" ++ string_of_Z n ++ suffix) = false ->
      outcome_of (extractIssueFromBranch
                    ("issue-" ++ string_of_Z n ++ suffix) "issue-(\d+)") s
      = Some (Return (Val (Num n)))).
Proof.
  intros [Hn _] Hsuffix.
  destruct (string_of_Z_digits n Hn) as [Hds Hne].
  pose proof (extract_from_issue_digits W s (string_of_Z n) suffix Hne Hds Hsuffix)
    as Hextract.
  rewrite parseInt10_string_of_Z in Hextract.
  split.
  - unfold extractIssueFromBranch. cbv zeta.
    rewrite string_replace_prefix by reflexivity. exact Hextract.
  - intros Habsent. unfold extractIssueFromBranch. cbv zeta.
    now rewrite string_replace_absent.
Qed.

Lemma extractIssueFromBranch_issue_number_witness :
  outcome_of (extractIssueFromBranch (W := unit)
                "refs/heads/issue-1207-retry-budget" "issue-(\d+)")
             (mkState tt [])
  = Some (Return (Val (Num 1207))).
Proof.
  exact (proj1 (@extractIssueFromBranch_issue_number
                  unit (mkState tt []) 1207 "-retry-budget"
                  ltac:(unfold MAX_SAFE_INTEGER; lia) eq_refl)).
Defined.

(** ** Client operations inside a job *)

Section Lifting.

Variable R : Type.

Lemma lifts_run (A : Type) (m' : M (Job R) A) (m : M R A)
      (j : Job R) (t t' : list Event) (r : Outcome A) (w' : R) :
  lifts m' m ->
  m (mkState (remote j) t) = (r, mkState w' t') ->
  m' (mkState j t) = (r, mkState (with_remote j w') t').
Proof. intros Hm Hrun. rewrite (Hm j t), Hrun. reflexivity. Qed.

Lemma lifts_ret (A : Type) (a : A) : lifts (R := R) (ret a) (ret a).
Proof. intros [r o e f] t. reflexivity. Qed.

Lemma lifts_throw (A : Type) (e : Thrown) : lifts (R := R) (A := A) (throw e) (throw e).
Proof. intros [r o e' f] t. reflexivity. Qed.

Lemma lifts_emit (ev : Event) : lifts (R := R) (emit ev) (emit ev).
Proof. intros [r o e f] t. reflexivity. Qed.

Lemma lifts_bind (A B : Type) (m' : M (Job R) A) (m : M R A)
      (k' : A -> M (Job R) B) (k : A -> M R B) :
  lifts m' m -> (forall a, lifts (k' a) (k a)) -> lifts (bind m' k') (bind m k).
Proof.
  intros Hm Hk j t. unfold bind. rewrite (Hm j t).
  destruct (m (mkState (remote j) t)) as [[a | e] [w' t']]; [| reflexivity].
  cbn [fst snd]. unfold job_state at 1. cbn [world trace].
  rewrite (Hk a (with_remote j w') t'). reflexivity.
Qed.

Lemma lifts_try_catch (A : Type) (m' : M (Job R) A) (m : M R A)
      (h' : Thrown -> M (Job R) A) (h : Thrown -> M R A) :
  lifts m' m -> (forall e, lifts (h' e) (h e)) -> lifts (try_catch m' h') (try_catch m h).
Proof.
  intros Hm Hh j t. unfold try_catch. rewrite (Hm j t).
  destruct (m (mkState (remote j) t)) as [[a | e] [w' t']]; [reflexivity |].
  cbn [fst snd]. unfold job_state at 1. cbn [world trace].
  rewrite (Hh e (with_remote j w') t'). reflexivity.
Qed.

Lemma lifts_invoke (A : Type) (op : Operation R A) :
  lifts (invoke (on_job op)) (invoke op).
Proof.
  intros j t. unfold invoke, on_job. cbn [world trace].
  now destruct (op (remote j)) as [r w'].
Qed.

Lemma lifts_if (A : Type) (b : bool) (m1' m2' : M (Job R) A) (m1 m2 : M R A) :
  lifts m1' m1 -> lifts m2' m2 ->
  lifts (if b then m1' else m2') (if b then m1 else m2).
Proof. now destruct b. Qed.

Lemma lifts_retry_loop (A : Type) (op : Operation R A)
      (maxRetries delay : Z) (operation : string) (fuel : nat) :
  forall (attempt : Z) (lastError : option Thrown),
    lifts (retry_loop (on_job op) maxRetries delay operation fuel attempt lastError)
          (retry_loop op maxRetries delay operation fuel attempt lastError).
Proof.
  assert (Hexhausted : forall lastError,
             lifts (@exhausted (Job R) A maxRetries operation lastError)
                   (@exhausted R A maxRetries operation lastError)).
  { intros [e |]; apply lifts_throw. }
  induction fuel as [| fuel IH]; intros attempt lastError; cbn [retry_loop];
    destruct (attempt <=? maxRetries); try apply Hexhausted.
  unfold attempt_body. apply lifts_try_catch.
  - apply lifts_bind; [apply lifts_invoke |].
    intros result. apply lifts_bind; [| intros _; apply lifts_ret].
    apply lifts_if; [apply lifts_emit | apply lifts_ret].
  - intros error. apply lifts_bind; [apply lifts_emit |]. intros _.
    apply lifts_bind; [| intros _; apply IH].
    apply lifts_if; [| apply lifts_ret].
    apply lifts_bind; [apply lifts_emit | intros _; apply lifts_emit].
Qed.

Lemma lifts_withRetry (A : Type) (op : Operation R A) (options : RetryOptions) :
  lifts (withRetry (on_job op) options) (withRetry op options).
Proof. apply lifts_retry_loop. Qed.

Variable octokit : Octokit R.

Lemma lifts_fields_nodes (result : FieldsResult.t) :
  lifts (fields_nodes (W := Job R) result) (fields_nodes (W := R) result).
Proof.
  unfold fields_nodes. destruct (FieldsResult.node result) as [node |];
    [| apply lifts_throw].
  destruct (FieldsResult.fields node); [apply lifts_ret | apply lifts_throw].
Qed.

Lemma lifts_findProjectFields (projectId fieldName : string)
      (optionName : option string) :
  lifts (findProjectFields (job_octokit octokit) projectId fieldName optionName)
        (findProjectFields octokit projectId fieldName optionName).
Proof.
  unfold findProjectFields. apply lifts_bind; [apply lifts_withRetry |].
  intros result. apply lifts_bind; [apply lifts_fields_nodes |].
  intros fields. destruct (find (has_name fieldName) fields) as [f |];
    [| apply lifts_throw].
  apply lifts_bind.
  - unfold select_option. destruct optionName as [name |]; [| apply lifts_ret].
    destruct (Field.options f) as [options |]; [| apply lifts_ret].
    destruct (truthy (Some name)); [| apply lifts_ret].
    destruct (find (option_has_name name) options);
      [apply lifts_ret | apply lifts_throw].
  - intros optionId. apply lifts_bind; [apply lifts_emit | intros _; apply lifts_ret].
Qed.

Lemma lifts_findDateField (projectId fieldName : string) :
  lifts (findDateField (job_octokit octokit) projectId fieldName)
        (findDateField octokit projectId fieldName).
Proof.
  unfold findDateField. apply lifts_bind; [apply lifts_withRetry |].
  intros result. apply lifts_bind; [apply lifts_fields_nodes |].
  intros fields. destruct (find (is_date_field fieldName) fields) as [f |];
    [| apply lifts_throw].
  apply lifts_bind; [apply lifts_emit | intros _; apply lifts_ret].
Qed.

Lemma lifts_findIssueProjectItem (issueNodeId projectId : string) :
  lifts (findIssueProjectItem (job_octokit octokit) issueNodeId projectId)
        (findIssueProjectItem octokit issueNodeId projectId).
Proof.
  unfold findIssueProjectItem. apply lifts_bind; [apply lifts_withRetry |].
  intros result. cbv zeta. apply lifts_bind; [| intros _; apply lifts_ret].
  destruct (issue_item projectId result); apply lifts_emit.
Qed.

Lemma lifts_pr_loop (prNodeId projectId : string) (fuel : nat) :
  forall (projectItem : Nullable Item.t) (hasNextPage : bool) (cursor : option string),
    lifts (pr_loop (job_octokit octokit) fuel prNodeId projectId
                   projectItem hasNextPage cursor)
          (pr_loop octokit fuel prNodeId projectId projectItem hasNextPage cursor).
Proof.
  induction fuel as [| fuel IH]; intros projectItem hasNextPage cursor;
    cbn [pr_loop]; destruct (hasNextPage && nullish projectItem);
    try apply lifts_ret;
    try (apply lifts_bind; [| intros item; apply lifts_ret];
         unfold pr_epilogue; apply lifts_bind; [| intros _; apply lifts_ret];
         destruct projectItem; apply lifts_emit).
  apply lifts_bind; [apply lifts_withRetry |]. intros result.
  destruct (PRResult.pullRequest result) as [pr |].
  - destruct (PRResult.projectItems pr) as [items |]; [apply IH | apply lifts_throw].
  - apply lifts_bind; [apply lifts_emit | intros _; apply lifts_ret].
Qed.

Lemma lifts_findPRProjectItem (prNodeId projectId : string) (fuel : nat) :
  lifts (findPRProjectItem (job_octokit octokit) fuel prNodeId projectId)
        (findPRProjectItem octokit fuel prNodeId projectId).
Proof. apply lifts_pr_loop. Qed.

End Lifting.
(** ** Running a script *)

Section ScriptSteps.

Variable W : Type.

Lemma bind_Return (A B : Type) (m : M W A) (k : A -> M W B)
      (s s' : State W) (a : A) :
  m s = (Return a, s') -> bind m k s = k a s'.
Proof. intros H. unfold bind. now rewrite H. Qed.

Lemma bind_Throw (A B : Type) (m : M W A) (k : A -> M W B)
      (s s' : State W) (e : Thrown) :
  m s = (Throw e, s') -> bind m k s = (Throw e, s').
Proof. intros H. unfold bind. now rewrite H. Qed.

Lemma validate_ok (env : Env) (requiredVars : list string) (s : State W) :
  all_set env requiredVars ->
  validateEnvironmentVariables env requiredVars s
  = (Return tt,
     mkState (world s)
             (trace s ++ [Info ("✅ All required environment variables validated: "
                                  ++ join ", " requiredVars)])).
Proof.
  intros Hset. unfold validateEnvironmentVariables. now rewrite Hset.
Qed.

Lemma validate_missing (env : Env) (requiredVars : list string) (s : State W) :
  filter (unset_in env) requiredVars <> [] ->
  validateEnvironmentVariables env requiredVars s
  = (Throw (JsError (MissingVariables env requiredVars)), s).
Proof.
  intros Hmissing. unfold validateEnvironmentVariables, MissingVariables.
  now destruct (filter (unset_in env) requiredVars).
Qed.

Lemma all_set_truthy (env : Env) (requiredVars : list string) (v : string) :
  all_set env requiredVars -> In v requiredVars -> truthy (env v) = true.
Proof.
  intros Hset Hin. unfold all_set in Hset.
  destruct (truthy (env v)) eqn:E; trivial.
  assert (Hv : In v (filter (unset_in env) requiredVars)).
  { apply filter_In. split; [exact Hin |]. unfold unset_in. now rewrite E. }
  rewrite Hset in Hv. destruct Hv.
Qed.

Lemma createOctokit_ok (C : Type) (getOctokit : string -> C)
      (token : option string) (s : State W) :
  truthy token = true ->
  createOctokit getOctokit token s = (Return (getOctokit (default "" token)), s).
Proof.
  intros Htoken. unfold createOctokit. destruct token as [tk |]; [| discriminate].
  now rewrite Htoken.
Qed.

End ScriptSteps.

Lemma setOutputs_eq (R : Type) (entries : list (string * option string)) :
  forall (j : Job R) (t : list Event),
    setOutputs entries (mkState j t)
    = (Return tt,
       mkState (mkJob (remote j) (outputs j ++ entries) (errors j) (failure j))
               (t ++ map output_line entries)).
Proof.
  induction entries as [| [key value] entries IH]; intros [r o e f] t.
  - cbn. now rewrite !app_nil_r.
  - cbn [setOutputs]. unfold bind at 1. cbn -[setOutputs bind].
    unfold bind at 1. cbn -[setOutputs]. rewrite IH. cbn.
    now rewrite <- !app_assoc.
Qed.

Lemma invocations_output_lines (entries : list (string * option string)) :
  invocations (map output_line entries) = 0%nat.
Proof. induction entries as [| [key value] entries IH]; trivial. Qed.

(** ** Scripts that lack a variable *)

Lemma stops_at_validation_intro (R A : Type) (env : Env) (requiredVars : list string)
      (rest : unit -> M (Job R) A) (scriptName : string) :
  stops_at_validation env requiredVars
                      (bind (validateEnvironmentVariables env requiredVars) rest)
                      scriptName.
Proof.
  intros j t Hmissing. unfold executeScript, try_catch.
  unfold bind at 1. cbn [core_info emit world trace].
  erewrite bind_Throw; [| erewrite bind_Throw; [reflexivity |];
                          now apply validate_missing].
  destruct j as [r o e f]. reflexivity.
Qed.

(** X9. Whatever else the environment holds, a script that lacks one of the
    variables it requires ends where [executeScript] catches the error of
    the validation: the job is marked as failed with the message that
    lists the missing variables, no request has been sent and no output
    set.  This holds for each of the eight scripts, with the name it gives
    to [executeScript]. *)
Theorem scripts_stop_on_missing_variable
        (R Data : Type) (getOctokit : string -> Client R Data) (context : Context)
        (node_id JSON_stringify : Data -> string) (status : Thrown -> option Z)
        (today : string) (fuel : nat) (env : Env) :
  stops_at_validation env ["GITHUB_TOKEN"; "PROJECT_ID"; "CONTENT_ID"]
                      (addToProject getOctokit env) "Add to Project Script"
  /\ stops_at_validation
       env ["GITHUB_TOKEN"; "PROJECT_ID"; "ISSUE_NODE_ID"; "FIELD_ID"; "OPTION_ID"]
       (moveIssue getOctokit env) "Move Issue Script"
  /\ stops_at_validation env ["GITHUB_TOKEN"; "PROJECT_ID"; "DOMAIN"]
                         (addDomain getOctokit context node_id env)
                         "Add Domain Script"
  /\ stops_at_validation env ["GITHUB_TOKEN"; "PROJECT_ID"; "FIELD_NAME"; "OPTION_NAME"]
                         (findFields getOctokit env) "Find Fields Script"
  /\ stops_at_validation env ["GITHUB_TOKEN"; "PROJECT_ID"; "PR_NODE_ID"]
                         (removePRFromProject getOctokit fuel env)
                         "Remove PR from Project Script"
  /\ stops_at_validation env ["GITHUB_TOKEN"; "PROJECT_ID"; "FIELD_NAME"; "ISSUE_NODE_ID"]
                         (setDate getOctokit today env) "Set Date Script"
  /\ stops_at_validation env ["GITHUB_TOKEN"]
                         (stagingToProduction getOctokit context env)
                         "Staging to Production Script"
  /\ stops_at_validation
       env [if truthy (env "GITHUB_TOKEN") then "GITHUB_TOKEN" else "TOKEN";
            "BRANCH"; "REGEX"]
       (findIssue getOctokit context node_id JSON_stringify status env)
       "Find Issue Script".
Proof.
  repeat split; apply stops_at_validation_intro.
Qed.

Lemma scripts_stop_on_missing_variable_witness :
  executeScript
    (moveIssue Doubles.getOctokit
               (Doubles.env_of [("GITHUB_TOKEN", "ghs_token"); ("PROJECT_ID", "PVT_board");
                                ("ISSUE_NODE_ID", ""); ("OPTION_ID", "O_done")]))
    "Move Issue Script"
    (mkState (Doubles.job (Fixtures.remote [] [])) [])
  = (Throw (JsError "Missing required environment variables: ISSUE_NODE_ID, FIELD_ID"),
     mkState
       (mkJob (Fixtures.remote [] []) []
              ["❌ Move Issue Script failed: Missing required environment variables: ISSUE_NODE_ID, FIELD_ID"]
              (Some "Missing required environment variables: ISSUE_NODE_ID, FIELD_ID"))
       [Info "🚀 Starting Move Issue Script"]).
Proof.
  apply (proj1 (proj2 (scripts_stop_on_missing_variable
                         _ _ Doubles.getOctokit Doubles.context (fun d => d) (fun d => d)
                         Doubles.status "2026-01-01" 0%nat
                         (Doubles.env_of [("GITHUB_TOKEN", "ghs_token");
                                          ("PROJECT_ID", "PVT_board");
                                          ("ISSUE_NODE_ID", "");
                                          ("OPTION_ID", "O_done")])))).
  vm_compute. discriminate.
Defined.
(** ** findDateField *)

Lemma is_date_field_spec (fieldName : string) (f : Field.t) :
  is_date_field fieldName f = true
  <-> Field.name f = fieldName /\ Field.dataType f = Some "DATE".
Proof.
  unfold is_date_field. rewrite andb_true_iff, String.eqb_eq.
  destruct (Field.dataType f) as [dataType |].
  - rewrite String.eqb_eq. split; intros [Hn Hd]; split; congruence.
  - split; intros [Hn Hd]; discriminate.
Qed.

Lemma findDateField_fetched
      (W : Type) (octokit : Octokit W) (projectId fieldName : string)
      (s s1 : State W) (result : FieldsResult.t) (fields : list Field.t) :
  withRetry (graphql_PROJECT_FIELDS octokit projectId)
            (with_operation "finding date field") s = (Return result, s1) ->
  FieldsResult.node result
  = Some (FieldsResult.make_node (Some (FieldsResult.make_fields fields))) ->
  findDateField octokit projectId fieldName s
  = match find (is_date_field fieldName) fields with
    | None => (Throw (DateFieldNotFound fieldName), s1)
    | Some dateField =>
        (Return dateField,
         mkState (world s1)
                 (trace s1 ++ [Info ("✅ Found date field '" ++ fieldName ++ "' (ID: "
                                       ++ Field.id dateField ++ ")")]))
    end.
Proof.
  intros fetched shape. unfold findDateField.
  erewrite bind_Return; [| exact fetched].
  unfold fields_nodes at 1. rewrite shape. cbn [FieldsResult.fields FieldsResult.nodes].
  unfold bind at 1. cbn [ret].
  now destruct (find (is_date_field fieldName) fields).
Qed.

(** X10. Once the field list has been fetched, [findDateField] returns the
    first fetched field that has the name asked for and the data type
    [DATE]; a field of that name and another type is passed over.  It
    throws [DateFieldNotFound] exactly when no fetched field is both, and
    sends no further request either way. *)
Theorem findDateField_first_date_field
        (W : Type) (octokit : Octokit W) (projectId fieldName : string)
        (s s1 : State W) (result : FieldsResult.t) (fields : list Field.t) :
  withRetry (graphql_PROJECT_FIELDS octokit projectId)
            (with_operation "finding date field") s = (Return result, s1) ->
  FieldsResult.node result
  = Some (FieldsResult.make_node (Some (FieldsResult.make_fields fields))) ->
  let run := findDateField octokit projectId fieldName s in
  let dated := fun f => Field.name f = fieldName /\ Field.dataType f = Some "DATE" in
  (forall f, fst run = Return f <-> first_such dated fields f)
  /\ (fst run = Throw (DateFieldNotFound fieldName)
      <-> forall f, In f fields -> ~ dated f)
  /\ world (snd run) = world s1
  /\ invocations (trace (snd run)) = invocations (trace s1).
Proof.
  intros fetched shape run dated. subst run.
  rewrite (findDateField_fetched W octokit projectId fieldName s s1 result fields
                                 fetched shape).
  pose proof (find_first_such _ _ (is_date_field_spec fieldName) fields) as Hfirst.
  pose proof (find_none_iff _ _ (is_date_field_spec fieldName) fields) as Hnone.
  fold dated in Hfirst, Hnone.
  destruct (find (is_date_field fieldName) fields) as [f0 |] eqn:Hfind;
    cbn [fst snd world trace].
  - repeat split.
    + intros Hf. apply Hfirst. congruence.
    + intros Hf. apply Hfirst in Hf. congruence.
    + discriminate.
    + intros Hall. apply Hnone in Hall. discriminate.
    + rewrite invocations_app. cbn. lia.
  - repeat split; try discriminate.
    + intros Hf. apply Hfirst in Hf. discriminate.
    + intros _. now apply Hnone.
Qed.

Lemma findDateField_first_date_field_witness :
  fst (findDateField
         GitHub.octokit "PVT_board" "End date"
         (mkState (Fixtures.remote
                     [Field.make "F_text" "End date" (Some "TEXT") None;
                      Fixtures.status_field; Fixtures.date_field] [])
                  []))
  = Return Fixtures.date_field.
Proof.
  eapply (proj1 (findDateField_first_date_field
                   GitHub.Remote GitHub.octokit "PVT_board" "End date" _ _ _ _ _ _)
                Fixtures.date_field).
  exists [Field.make "F_text" "End date" (Some "TEXT") None; Fixtures.status_field], [].
  split; [reflexivity |]. split; [now split |].
  repeat constructor; intros [Hn Hd]; discriminate.
  Unshelve.
  - exact (mkState (Fixtures.remote
                      [Field.make "F_text" "End date" (Some "TEXT") None;
                       Fixtures.status_field; Fixtures.date_field] [])
                   [Invoke]).
  - exact (FieldsResult.make
             (Some (FieldsResult.make_node
                      (Some (FieldsResult.make_fields
                               [Field.make "F_text" "End date" (Some "TEXT") None;
                                Fixtures.status_field; Fixtures.date_field]))))).
  - reflexivity.
  - reflexivity.
Defined.
(** ** Requests that are answered at once *)

Lemma request_answered (R A : Type) (op : Operation R A) (operation : string)
      (j : Job R) (t : list Event) (a : A) (r' : R) :
  op (remote j) = (Return a, r') ->
  withRetry (on_job op) (with_operation operation) (mkState j t)
  = (Return a, mkState (with_remote j r') (t ++ [Invoke])).
Proof.
  intros Hop.
  apply (withRetry_first_attempt (on_job op) (with_operation operation) (mkState j t)).
  - cbn. lia.
  - cbn [world]. unfold on_job. now rewrite Hop.
Qed.

Lemma issue_located (R : Type) (octokit : Octokit R) (issueNodeId projectId : string)
      (j : Job R) (t : list Event) (result : IssueResult.t) (r1 : R) :
  graphql_ISSUE_PROJECT_ITEMS octokit issueNodeId (remote j) = (Return result, r1) ->
  findIssueProjectItem (job_octokit octokit) issueNodeId projectId (mkState j t)
  = (Return (issue_item projectId result),
     mkState (with_remote j r1)
             (t ++ [Invoke; issue_log_line issueNodeId projectId
                                           (issue_item projectId result)])).
Proof.
  intros Hop.
  erewrite findIssueProjectItem_fetched;
    [| apply (request_answered R _ (graphql_ISSUE_PROJECT_ITEMS octokit issueNodeId));
       exact Hop].
  cbn [world trace]. now rewrite <- app_assoc.
Qed.

(** ** moveIssue *)

(** X11. With its variables set and the query for the memberships of the issue
    answered, [moveIssue] sends the update for the membership on the board
    [PROJECT_ID], and for that one only: when the answer holds none, the
    script sends nothing more, leaves the service as the query left it and
    still ends normally, without marking the job as failed. *)
Theorem moveIssue_updates_item_on_board
        (R Data : Type) (getOctokit : string -> Client R Data) (env : Env)
        (j : Job R) (t : list Event) (result : IssueResult.t) (r1 : R) :
  all_set env ["GITHUB_TOKEN"; "PROJECT_ID"; "ISSUE_NODE_ID"; "FIELD_ID"; "OPTION_ID"] ->
  let octokit := getOctokit (env_string env "GITHUB_TOKEN") in
  let projectId := env_string env "PROJECT_ID" in
  graphql_ISSUE_PROJECT_ITEMS (queries octokit) (env_string env "ISSUE_NODE_ID")
                              (remote j)
  = (Return result, r1) ->
  let run := moveIssue getOctokit env (mkState j t) in
  match issue_item projectId result with
  | Val it =>
      forall r2,
        graphql_UPDATE_PROJECT_FIELD (mutations octokit) projectId (Item.id it)
                                     (env_string env "FIELD_ID") (env "OPTION_ID") r1
        = (Return tt, r2) ->
        fst run = Return tt
        /\ world (snd run) = with_remote j r2
        /\ invocations (trace (snd run)) = (invocations t + 2)%nat
  | _ =>
      fst run = Return tt
      /\ world (snd run) = with_remote j r1
      /\ invocations (trace (snd run)) = (invocations t + 1)%nat
  end.
Proof.
  intros Hset octokit projectId Hquery run.
  assert (Htoken : truthy (env "GITHUB_TOKEN") = true)
    by (apply (all_set_truthy _ _ _ Hset); cbn; tauto).
  assert (Hrun : run
                 = (fun item : Nullable Item.t =>
                           match item with
                           | Val it =>
                               withRetry
                                 (on_job (graphql_UPDATE_PROJECT_FIELD
                                            (mutations octokit) projectId (Item.id it)
                                            (env_string env "FIELD_ID")
                                            (env "OPTION_ID")))
                                 (with_operation "updating issue status") ;;
                               core_info ("✅ Moved issue" ++ issue_tag (env "ISSUE_NUMBER")
                                            ++ " to new status")
                           | _ =>
                               core_warning
                                 ("⚠️ No project item found for issue"
                                    ++ issue_tag (env "ISSUE_NUMBER")
                                    ++ " with node_id " ++ env_string env "ISSUE_NODE_ID"
                                    ++ " in project " ++ projectId) ;;
                               core_warning
                                 "This could mean: 1) Issue not in project, 2) Node ID mismatch"
                           end)
                     (issue_item projectId result)
                        (mkState (with_remote j r1)
                                 ((t ++ [Info ("✅ All required environment variables validated: "
                                                 ++ join ", " ["GITHUB_TOKEN"; "PROJECT_ID";
                                                               "ISSUE_NODE_ID"; "FIELD_ID";
                                                               "OPTION_ID"])])
                                    ++ [Invoke;
                                        issue_log_line (env_string env "ISSUE_NODE_ID")
                                                       projectId
                                                       (issue_item projectId result)]))).
  { subst run. unfold moveIssue.
    erewrite bind_Return; [| apply validate_ok; exact Hset].
    erewrite bind_Return; [| apply createOctokit_ok; exact Htoken].
    erewrite bind_Return; [| apply issue_located; exact Hquery].
    reflexivity. }
  rewrite Hrun. cbv beta.
  destruct (issue_item projectId result) as [| | it].
  - cbn -[invocations]. repeat split. rewrite !invocations_app. cbn. lia.
  - cbn -[invocations]. repeat split. rewrite !invocations_app. cbn. lia.
  - intros r2 Hupdate.
    erewrite bind_Return; [| apply request_answered; exact Hupdate].
    cbn -[invocations]. repeat split. rewrite !invocations_app. cbn. lia.
Qed.

Lemma moveIssue_updates_item_on_board_witness :
  (let run := moveIssue Doubles.getOctokit
                        (Doubles.env_of [("GITHUB_TOKEN", "ghs_token");
                                         ("PROJECT_ID", "PVT_board");
                                         ("ISSUE_NODE_ID", "I_1");
                                         ("FIELD_ID", "F_status");
                                         ("OPTION_ID", "O_done")])
                        (mkState (Doubles.job
                                    (Fixtures.remote
                                       [] [Fixtures.item "PVTI_a" "PVT_other";
                                           Fixtures.item "PVTI_b" "PVT_board"]))
                                 []) in
   fst run = Return tt /\ invocations (trace (snd run)) = 2%nat)
  /\
  (let run := moveIssue Doubles.getOctokit
                        (Doubles.env_of [("GITHUB_TOKEN", "ghs_token");
                                         ("PROJECT_ID", "PVT_board");
                                         ("ISSUE_NODE_ID", "I_1");
                                         ("FIELD_ID", "F_status");
                                         ("OPTION_ID", "O_done")])
                        (mkState (Doubles.job
                                    (Fixtures.remote
                                       [] [Fixtures.item "PVTI_a" "PVT_other"]))
                                 []) in
   fst run = Return tt
   /\ world (snd run)
      = Doubles.job (Fixtures.remote [] [Fixtures.item "PVTI_a" "PVT_other"])
   /\ invocations (trace (snd run)) = 1%nat).
Proof.
  split.
  - pose proof (moveIssue_updates_item_on_board
                  _ _ Doubles.getOctokit
                  (Doubles.env_of [("GITHUB_TOKEN", "ghs_token");
                                   ("PROJECT_ID", "PVT_board");
                                   ("ISSUE_NODE_ID", "I_1");
                                   ("FIELD_ID", "F_status");
                                   ("OPTION_ID", "O_done")])
                  (Doubles.job
                     (Fixtures.remote
                        [] [Fixtures.item "PVTI_a" "PVT_other";
                            Fixtures.item "PVTI_b" "PVT_board"]))
                  [] _ _ eq_refl eq_refl _ eq_refl) as H.
    split; [exact (proj1 H) | exact (proj2 (proj2 H))].
  - exact (moveIssue_updates_item_on_board
             _ _ Doubles.getOctokit
             (Doubles.env_of [("GITHUB_TOKEN", "ghs_token");
                              ("PROJECT_ID", "PVT_board");
                              ("ISSUE_NODE_ID", "I_1");
                              ("FIELD_ID", "F_status");
                              ("OPTION_ID", "O_done")])
             (Doubles.job (Fixtures.remote [] [Fixtures.item "PVTI_a" "PVT_other"]))
             [] _ _ eq_refl eq_refl).
Defined.
(** ** removePRFromProject *)

Lemma with_remote_same (R : Type) (j : Job R) : with_remote j (remote j) = j.
Proof. now destruct j. Qed.

Section RemovePR.

Variable Data : Type.
Variable getOctokit : string -> Client GitHub.Remote Data.
Variable env : Env.
Variable j : Job GitHub.Remote.
Variable t : list Event.
Variable fuel : nat.

Local Abbreviation octokit := (getOctokit (env_string env "GITHUB_TOKEN")).
Local Abbreviation projectId := (env_string env "PROJECT_ID").
Local Abbreviation prNodeId := (env_string env "PR_NODE_ID").
Local Abbreviation on_board := (fun it => Project.id (Item.project it) = projectId).

Hypothesis variables_set : all_set env ["GITHUB_TOKEN"; "PROJECT_ID"; "PR_NODE_ID"].
Hypothesis service : queries octokit = GitHub.octokit.

(** The script from the end of the scan on, when the scan on the service
    ends with [found] after [pages] requests. *)
Lemma removePRFromProject_scanned (found : Nullable Item.t) (pages : nat) :
  (forall t0,
      exists t1,
        pr_loop GitHub.octokit fuel prNodeId projectId Null true None
                (mkState (remote j) t0)
        = (Return (Some found), mkState (remote j) t1)
        /\ invocations t1 = (invocations t0 + pages)%nat) ->
  exists t1,
    invocations t1 = (invocations t + pages)%nat
    /\ removePRFromProject getOctokit fuel env (mkState j t)
       = match found with
         | Val it =>
             (withRetry
                (on_job (graphql_REMOVE_FROM_PROJECT (mutations octokit)
                                                     projectId (Item.id it)))
                (with_operation "removing PR from project") ;;
              core_info "✅ Successfully removed PR from project" ;;
              setOutputs [("removed", Some "true");
                          ("pr-number", Some "");
                          ("item-id", Some (Item.id it))] ;;
              ret (Some tt)) (mkState j t1)
         | _ =>
             (core_info ("ℹ️ PR is not in project " ++ projectId
                           ++ " - nothing to remove") ;;
              setOutputs [("removed", Some "false");
                          ("pr-number", Some "");
                          ("item-id", Some "")] ;;
              ret (Some tt)) (mkState j t1)
         end.
Proof.
  intros Hscan.
  assert (Htoken : truthy (env "GITHUB_TOKEN") = true)
    by (apply (all_set_truthy _ _ _ variables_set); cbn; tauto).
  destruct (Hscan ((t ++ [Info ("✅ All required environment variables validated: "
                                  ++ join ", " ["GITHUB_TOKEN"; "PROJECT_ID";
                                                "PR_NODE_ID"])])
                     ++ [Info ("🔍 Looking for PR with node_id: " ++ prNodeId
                                 ++ " in project " ++ projectId)])%list)
    as (t1 & Hrun & Hcount).
  exists t1. split.
  { rewrite Hcount, !invocations_app. cbn. lia. }
  unfold removePRFromProject.
  erewrite bind_Return; [| apply validate_ok; exact variables_set].
  erewrite bind_Return; [| apply createOctokit_ok; exact Htoken].
  unfold bind at 1. cbn [core_info emit world trace].
  erewrite bind_Return;
    [| unfold env_string in service |- *; rewrite service;
       eapply lifts_run; [apply lifts_findPRProjectItem | exact Hrun]].
  rewrite with_remote_same. now destruct found.
Qed.

Lemma removePRFromProject_removed (it : Item.t) (t1 : list Event)
      (r' : GitHub.Remote) :
  graphql_REMOVE_FROM_PROJECT (mutations octokit) projectId (Item.id it) (remote j)
  = (Return tt, r') ->
  (withRetry
     (on_job (graphql_REMOVE_FROM_PROJECT (mutations octokit) projectId (Item.id it)))
     (with_operation "removing PR from project") ;;
   core_info "✅ Successfully removed PR from project" ;;
   setOutputs [("removed", Some "true");
               ("pr-number", Some "");
               ("item-id", Some (Item.id it))] ;;
   ret (Some tt)) (mkState j t1)
  = (Return (Some tt),
     mkState (mkJob r' (outputs j ++ [("removed", Some "true");
                                      ("pr-number", Some "");
                                      ("item-id", Some (Item.id it))])
                    (errors j) (failure j))
             (((t1 ++ [Invoke]) ++ [Info "✅ Successfully removed PR from project"])
                ++ map output_line [("removed", Some "true");
                                    ("pr-number", Some "");
                                    ("item-id", Some (Item.id it))])).
Proof.
  intros Hremove.
  erewrite bind_Return; [| apply request_answered; exact Hremove].
  unfold bind at 1. cbn [core_info emit world trace].
  erewrite bind_Return; [| apply setOutputs_eq].
  reflexivity.
Qed.

Lemma removePRFromProject_left_alone (t1 : list Event) :
  (core_info ("ℹ️ PR is not in project " ++ projectId ++ " - nothing to remove") ;;
   setOutputs [("removed", Some "false");
               ("pr-number", Some "");
               ("item-id", Some "")] ;;
   ret (Some tt)) (mkState j t1)
  = (Return (Some tt),
     mkState (mkJob (remote j)
                    (outputs j ++ [("removed", Some "false");
                                   ("pr-number", Some "");
                                   ("item-id", Some "")])
                    (errors j) (failure j))
             ((t1 ++ [Info ("ℹ️ PR is not in project " ++ projectId
                              ++ " - nothing to remove")])
                ++ map output_line [("removed", Some "false");
                                    ("pr-number", Some "");
                                    ("item-id", Some "")])).
Proof.
  unfold bind at 1. cbn [core_info emit world trace].
  erewrite bind_Return; [| apply setOutputs_eq].
  reflexivity.
Qed.

End RemovePR.

(** X12. On the service, with its variables set, [removePRFromProject] removes
    the first membership of the pull request on the board [PROJECT_ID],
    wherever in the list it stands, and sets the outputs [removed] to
    [true] and [item-id] to the id of that membership.  The removal is
    sent once, with that id. *)
Theorem removePRFromProject_removes_item_on_board
        (Data : Type) (getOctokit : string -> Client GitHub.Remote Data) (env : Env)
        (j : Job GitHub.Remote) (t : list Event) (fuel : nat)
        (before after : list Item.t) (it : Item.t) (r' : GitHub.Remote) :
  let octokit := getOctokit (env_string env "GITHUB_TOKEN") in
  let projectId := env_string env "PROJECT_ID" in
  let on_board := fun it => Project.id (Item.project it) = projectId in
  all_set env ["GITHUB_TOKEN"; "PROJECT_ID"; "PR_NODE_ID"] ->
  queries octokit = GitHub.octokit ->
  GitHub.pr_items (remote j) (env_string env "PR_NODE_ID")
  = Some (before ++ it :: after)%list ->
  on_board it ->
  Forall (fun x => ~ on_board x) before ->
  (List.length (before ++ it :: after) / 100 < fuel)%nat ->
  graphql_REMOVE_FROM_PROJECT (mutations octokit) projectId (Item.id it) (remote j)
  = (Return tt, r') ->
  let run := removePRFromProject getOctokit fuel env (mkState j t) in
  fst run = Return (Some tt)
  /\ world (snd run)
     = mkJob r' (outputs j ++ [("removed", Some "true");
                               ("pr-number", Some "");
                               ("item-id", Some (Item.id it))])
             (errors j) (failure j)
  /\ invocations (trace (snd run))
     = (invocations t + S (List.length before / 100) + 1)%nat.
Proof.
  intros octokit projectId on_board Hset Hservice Hknown Hit Hbefore Hfuel Hremove run.
  destruct (removePRFromProject_scanned
              Data getOctokit env j t fuel Hset Hservice (Val it)
              (S (List.length before / 100)))
    as (t1 & Hcount & Hrun).
  { intros t0.
    apply (scan_found (remote j) (env_string env "PR_NODE_ID") projectId Hknown
                      (fuel := fuel) (offset := 0%nat) None t0 Null before after it);
      trivial.
    - now apply on_project_spec.
    - apply (find_none_Forall _ _ (on_project_spec projectId)). exact Hbefore.
    - eapply Nat.le_lt_trans; [| exact Hfuel].
      apply Nat.Div0.div_le_mono. rewrite length_app. lia. }
  subst run. rewrite Hrun.
  rewrite (removePRFromProject_removed Data getOctokit env j it t1 r' Hremove).
  cbn [fst snd world trace]. repeat split.
  rewrite !invocations_app, Hcount, invocations_output_lines. cbn. lia.
Qed.

(** X13. On the service, with its variables set, a pull request that has no
    membership on the board [PROJECT_ID] is left alone: the script reads
    every page of the memberships, sends no removal, sets [removed] to
    [false] with an empty [item-id], and ends normally. *)
Theorem removePRFromProject_nothing_to_remove
        (Data : Type) (getOctokit : string -> Client GitHub.Remote Data) (env : Env)
        (j : Job GitHub.Remote) (t : list Event) (fuel : nat) (items : list Item.t) :
  let octokit := getOctokit (env_string env "GITHUB_TOKEN") in
  let projectId := env_string env "PROJECT_ID" in
  all_set env ["GITHUB_TOKEN"; "PROJECT_ID"; "PR_NODE_ID"] ->
  queries octokit = GitHub.octokit ->
  GitHub.pr_items (remote j) (env_string env "PR_NODE_ID") = Some items ->
  (forall it, In it items -> Project.id (Item.project it) <> projectId) ->
  (List.length items / 100 < fuel)%nat ->
  let run := removePRFromProject getOctokit fuel env (mkState j t) in
  fst run = Return (Some tt)
  /\ world (snd run)
     = mkJob (remote j)
             (outputs j ++ [("removed", Some "false");
                            ("pr-number", Some "");
                            ("item-id", Some "")])
             (errors j) (failure j)
  /\ invocations (trace (snd run))
     = (invocations t + S ((List.length items - 1) / 100))%nat.
Proof.
  intros octokit projectId Hset Hservice Hknown Habsent Hfuel run.
  destruct (removePRFromProject_scanned
              Data getOctokit env j t fuel Hset Hservice Undefined
              (S ((List.length items - 1) / 100)))
    as (t1 & Hcount & Hrun).
  { intros t0.
    apply (scan_absent (remote j) (env_string env "PR_NODE_ID") projectId Hknown
                       (fuel := fuel) (offset := 0%nat) None t0 Null);
      trivial.
    - apply (find_none_iff _ _ (on_project_spec projectId)). exact Habsent.
    - cbn [skipn]. eapply Nat.le_lt_trans; [| exact Hfuel].
      apply Nat.Div0.div_le_mono. lia. }
  subst run. rewrite Hrun.
  rewrite (removePRFromProject_left_alone env j t1).
  cbn [fst snd world trace]. repeat split.
  rewrite !invocations_app, Hcount, invocations_output_lines. cbn. lia.
Qed.

Lemma removePRFromProject_removes_item_on_board_witness :
  let run := removePRFromProject
               Doubles.getOctokit 3
               (Doubles.env_of [("GITHUB_TOKEN", "ghs_token");
                                ("PROJECT_ID", "PVT_board");
                                ("PR_NODE_ID", "PR_1")])
               (mkState (Doubles.job
                           (Fixtures.remote
                              [] (Fixtures.elsewhere 120
                                    ++ [Fixtures.item "PVTI_hit" "PVT_board"])))
                        []) in
  fst run = Return (Some tt)
  /\ outputs (world (snd run))
     = [("removed", Some "true"); ("pr-number", Some ""); ("item-id", Some "PVTI_hit")]
  /\ GitHub.pr_items (remote (world (snd run))) "PR_1" = Some (Fixtures.elsewhere 120)
  /\ invocations (trace (snd run)) = 3%nat.
Proof.
  intros run.
  assert (H : fst run = Return (Some tt)
              /\ world (snd run)
                 = mkJob (snd (graphql_REMOVE_FROM_PROJECT
                                 Doubles.mutations "PVT_board" "PVTI_hit"
                                 (Fixtures.remote
                                    [] (Fixtures.elsewhere 120
                                          ++ [Fixtures.item "PVTI_hit" "PVT_board"]))))
                         [("removed", Some "true"); ("pr-number", Some "");
                          ("item-id", Some "PVTI_hit")]
                         [] None
              /\ invocations (trace (snd run)) = 3%nat).
  { refine (removePRFromProject_removes_item_on_board
              _ Doubles.getOctokit
              (Doubles.env_of [("GITHUB_TOKEN", "ghs_token");
                               ("PROJECT_ID", "PVT_board");
                               ("PR_NODE_ID", "PR_1")])
              (Doubles.job
                 (Fixtures.remote
                    [] (Fixtures.elsewhere 120
                          ++ [Fixtures.item "PVTI_hit" "PVT_board"])))
              [] 3%nat
              (Fixtures.elsewhere 120) [] (Fixtures.item "PVTI_hit" "PVT_board") _
              eq_refl eq_refl eq_refl eq_refl _ _ eq_refl).
    - apply Forall_forall. intros x Hin. apply repeat_spec in Hin. subst x.
      discriminate.
    - vm_compute. lia. }
  destruct H as (Hreturn & Hworld & Hcount).
  rewrite Hworld. repeat split; trivial.
Defined.

Lemma removePRFromProject_nothing_to_remove_witness :
  let run := removePRFromProject
               Doubles.getOctokit 3
               (Doubles.env_of [("GITHUB_TOKEN", "ghs_token");
                                ("PROJECT_ID", "PVT_board");
                                ("PR_NODE_ID", "PR_1")])
               (mkState (Doubles.job (Fixtures.remote [] (Fixtures.elsewhere 120)))
                        []) in
  fst run = Return (Some tt)
  /\ world (snd run)
     = mkJob (Fixtures.remote [] (Fixtures.elsewhere 120))
             [("removed", Some "false"); ("pr-number", Some ""); ("item-id", Some "")]
             [] None
  /\ invocations (trace (snd run)) = 2%nat.
Proof.
  refine (removePRFromProject_nothing_to_remove
            _ Doubles.getOctokit
            (Doubles.env_of [("GITHUB_TOKEN", "ghs_token");
                             ("PROJECT_ID", "PVT_board");
                             ("PR_NODE_ID", "PR_1")])
            (Doubles.job (Fixtures.remote [] (Fixtures.elsewhere 120)))
            [] 3%nat (Fixtures.elsewhere 120)
            eq_refl eq_refl eq_refl _ _).
  - intros x Hin. apply repeat_spec in Hin. subst x. discriminate.
  - vm_compute. lia.
Defined.
(** ** stagingToProduction *)

Section Labels.

Variable R : Type.
Variable Data : Type.
Variable octokit : Client R Data.
Variables owner repo : string.

(** [removeLabel] catches what the removal throws. *)
Lemma removeLabel_returns (issueNumber : Z) (labelName : string) (s : State (Job R)) :
  fst (removeLabel octokit owner repo issueNumber labelName s) = Return tt.
Proof.
  unfold removeLabel, try_catch, bind.
  destruct (withRetry _ _ s) as [[[] | e] s1]; reflexivity.
Qed.

Lemma addLabels_accepted (issueNumber : Z) (labels : list string)
      (j : Job R) (t : list Event) (r' : R) :
  rest_issues_addLabels (rest octokit) owner repo issueNumber labels (remote j)
  = (Return tt, r') ->
  fst (addLabels octokit owner repo issueNumber labels (mkState j t)) = Return tt.
Proof.
  intros Hop. unfold addLabels.
  erewrite bind_Return; [| apply request_answered; exact Hop].
  reflexivity.
Qed.

Variables stagingLabel productionLabel : string.

(** The loop over the issues never throws; it counts an issue when the
    production label was added, whether or not the staging label could
    be removed. *)
Lemma process_issues_counts (issues : list RepoIssue.t) :
  forall (processedCount : Z) (s : State (Job R)),
  exists k s',
    process_issues octokit owner repo stagingLabel productionLabel
                   issues processedCount s
    = (Return k, s')
    /\ processedCount <= k <= processedCount + Z.of_nat (List.length issues)
    /\ ((forall issueNumber labels r,
            exists r',
              rest_issues_addLabels (rest octokit) owner repo issueNumber labels r
              = (Return tt, r')) ->
        k = processedCount + Z.of_nat (List.length issues)).
Proof.
  induction issues as [| issue issues IH]; intros processedCount s.
  - exists processedCount, s. cbn. repeat split; lia.
  - cbn [process_issues]. unfold bind at 1, try_catch at 1.
    pose proof (removeLabel_returns (RepoIssue.number issue) stagingLabel s) as Hremove.
    unfold bind at 1.
    destruct (removeLabel octokit owner repo (RepoIssue.number issue) stagingLabel s)
      as [[[] | e] [j1 t1]]; [clear Hremove | discriminate].
    unfold bind at 1.
    destruct (addLabels octokit owner repo (RepoIssue.number issue)
                        [productionLabel] (mkState j1 t1))
      as [[[] | e] s2] eqn:Hadd.
    + cbn [ret].
      destruct (IH (processedCount + 1) s2) as (k & s' & Hrun & Hbounds & Hall).
      exists k, s'. split; [exact Hrun |]. cbn [List.length]. split; [lia |].
      intros Haccepted. rewrite (Hall Haccepted). lia.
    + unfold bind at 1. cbn [core_warning emit ret world trace].
      match goal with
      | |- context [process_issues _ _ _ _ _ issues processedCount ?s3] =>
          destruct (IH processedCount s3) as (k & s' & Hrun & Hbounds & Hall)
      end.
      exists k, s'. split; [exact Hrun |]. cbn [List.length]. split; [lia |].
      intros Haccepted. exfalso.
      destruct (Haccepted (RepoIssue.number issue) [productionLabel] (remote j1))
        as [r' Hop].
      pose proof (addLabels_accepted (RepoIssue.number issue) [productionLabel]
                                     j1 t1 r' Hop) as Hreturns.
      rewrite Hadd in Hreturns. discriminate.
Qed.

End Labels.


(** ** findIssue *)

(** What a call of the extractor does besides returning: it writes one
    line, or throws at once. *)
Lemma extraction_effect (W : Type) (branch regex : string)
      (extraction : M W (Nullable JsNumber)) :
  extractIssueFromBranch branch regex = Some extraction ->
  (exists v line,
      forall s, extraction s
                = (Return v, mkState (world s) (trace s ++ [Info line])))
  \/ (exists e, forall s, extraction s = (Throw e, s)).
Proof.
  unfold extractIssueFromBranch, extract_from.
  destruct (RegExp.compile regex) as [re | reason |]; [| | discriminate];
    intros Hsome; injection Hsome as <-.
  - left. cbv zeta.
    match goal with
    | |- context [if ?b then _ else _] => destruct b
    end; eexists; eexists; intros s; reflexivity.
  - right. eexists. intros s. reflexivity.
Qed.

(** The permanent failure of [withRetry] is the only error a caller sees
    when at least one attempt is allowed. *)
Lemma withRetry_throws_exhausted (W A : Type) (fn : Operation W A)
      (operation : string) (s : State W) (err : Thrown) :
  fst (withRetry fn (with_operation operation) s) = Throw err ->
  exists e, err = RetryExhausted operation 3 e.
Proof.
  intros Hthrow.
  pose proof (retry_loop_outcome W A fn 3 1000 operation (Z.to_nat 3) 1 None s) as H.
  unfold withRetry in Hthrow. cbn [with_operation opt_maxRetries opt_delay
                                     opt_operation default] in Hthrow.
  rewrite Hthrow in H.
  destruct H as [(_ & Hlt & _) | (e & _ & _ & _ & Herr)].
  - lia.
  - discriminate.
  - lia.
  - now exists e.
Qed.

Section FindIssue.

Variable R : Type.
Variable Data : Type.
Variable getOctokit : string -> Client R Data.
Variable context : Context.
Variable node_id : Data -> string.
Variable JSON_stringify : Data -> string.
Variable status : Thrown -> option Z.
Variable env : Env.
Variable j : Job R.
Variable t : list Event.

Local Abbreviation tokenVar :=
  (if truthy (env "GITHUB_TOKEN") then "GITHUB_TOKEN" else "TOKEN").
Local Abbreviation token :=
  (if truthy (env "GITHUB_TOKEN") then env "GITHUB_TOKEN" else env "TOKEN").
Local Abbreviation branch := (env_string env "BRANCH").
Local Abbreviation regex := (env_string env "REGEX").

Hypothesis variables_set : all_set env [tokenVar; "BRANCH"; "REGEX"].

Lemma token_set : truthy token = true.
Proof.
  destruct (truthy (env "GITHUB_TOKEN")) eqn:E; [exact E |].
  apply (all_set_truthy _ _ _ variables_set). cbn. tauto.
Qed.

(** The script from the extracted value on. *)
Lemma findIssue_extracted (v : Nullable JsNumber) :
  outcome_of (extractIssueFromBranch branch regex) (mkState j t) = Some (Return v) ->
  exists t1,
    invocations t1 = invocations t
    /\ findIssue getOctokit context node_id JSON_stringify status env (mkState j t)
       = (if falsy_number v then
            core_info ("ℹ️ No issue number found in branch '" ++ branch
                         ++ "' using regex '" ++ regex ++ "'") ;;
            setOutputs no_issue_outputs ;;
            ret (Some tt)
          else
            let number := match v with Val n => n | _ => NaN end in
            try_catch
              (issue <- withRetry
                          (on_job (rest_issues_get (rest (getOctokit (default "" token)))
                                     (repo_owner context) (repo_repo context) number))
                          (with_operation ("fetching issue #" ++ string_of_number number)) ;;
               core_info ("✅ Found issue #" ++ string_of_number number) ;;
               setOutputs [("issue", Some (JSON_stringify (IssueResponse.data issue)));
                           ("issue_number", Some (string_of_number number));
                           ("issue_node_id", Some (node_id (IssueResponse.data issue)))])
              (fun error =>
                 match status error with
                 | Some 404 =>
                     core_info ("ℹ️ No issue found for #" ++ string_of_number number) ;;
                     setOutputs no_issue_outputs
                 | _ => throw error
                 end) ;;
            ret (Some tt)) (mkState j t1).
Proof.
  intros Hout. unfold outcome_of in Hout.
  destruct (extractIssueFromBranch branch regex) as [extraction |] eqn:Hext;
    [| discriminate].
  cbn [option_map] in Hout.
  destruct (extraction_effect _ _ _ _ Hext) as [(v' & line & Hrun) | (e & Hrun)].
  - rewrite Hrun in Hout. cbn [fst] in Hout.
    assert (v' = v) by congruence. subst v'.
    eexists. split; [| unfold findIssue;
                       erewrite bind_Return; [| apply validate_ok; exact variables_set];
                       erewrite bind_Return; [| apply createOctokit_ok; exact token_set];
                       rewrite Hext;
                       erewrite bind_Return; [| apply Hrun];
                       cbn [world trace]; reflexivity].
    rewrite !invocations_app. cbn. lia.
  - rewrite Hrun in Hout. discriminate.
Qed.

Local Abbreviation fetch_part number :=
  (try_catch
     (issue <- withRetry
                 (on_job (rest_issues_get (rest (getOctokit (default "" token)))
                            (repo_owner context) (repo_repo context) number))
                 (with_operation ("fetching issue #" ++ string_of_number number)) ;;
      core_info ("✅ Found issue #" ++ string_of_number number) ;;
      setOutputs [("issue", Some (JSON_stringify (IssueResponse.data issue)));
                  ("issue_number", Some (string_of_number number));
                  ("issue_node_id", Some (node_id (IssueResponse.data issue)))])
     (fun error =>
        match status error with
        | Some 404 =>
            core_info ("ℹ️ No issue found for #" ++ string_of_number number) ;;
            setOutputs no_issue_outputs
        | _ => throw error
        end) ;;
   ret (Some tt)).

Lemma findIssue_fetched (number : JsNumber) (t1 t' : list Event)
      (issue : IssueResponse.t Data) (r' : R) :
  withRetry (rest_issues_get (rest (getOctokit (default "" token)))
                             (repo_owner context) (repo_repo context) number)
            (with_operation ("fetching issue #" ++ string_of_number number))
            (mkState (remote j) t1)
  = (Return issue, mkState r' t') ->
  fetch_part number (mkState j t1)
  = (Return (Some tt),
     mkState (mkJob r'
                    (outputs j
                       ++ [("issue", Some (JSON_stringify (IssueResponse.data issue)));
                           ("issue_number", Some (string_of_number number));
                           ("issue_node_id", Some (node_id (IssueResponse.data issue)))])
                    (errors j) (failure j))
             ((t' ++ [Info ("✅ Found issue #" ++ string_of_number number)])
                ++ map output_line
                     [("issue", Some (JSON_stringify (IssueResponse.data issue)));
                      ("issue_number", Some (string_of_number number));
                      ("issue_node_id", Some (node_id (IssueResponse.data issue)))])).
Proof.
  intros Hfetch. unfold bind at 1, try_catch at 1.
  erewrite bind_Return;
    [| eapply lifts_run; [apply lifts_withRetry | exact Hfetch]].
  unfold bind at 1. cbn [core_info emit world trace].
  rewrite setOutputs_eq. reflexivity.
Qed.

Lemma findIssue_fetch_failed (number : JsNumber) (t1 t' : list Event)
      (err : Thrown) (r' : R) :
  withRetry (rest_issues_get (rest (getOctokit (default "" token)))
                             (repo_owner context) (repo_repo context) number)
            (with_operation ("fetching issue #" ++ string_of_number number))
            (mkState (remote j) t1)
  = (Throw err, mkState r' t') ->
  status err = None ->
  fetch_part number (mkState j t1) = (Throw err, mkState (with_remote j r') t').
Proof.
  intros Hfetch Hstatus. unfold bind at 1, try_catch at 1.
  erewrite bind_Throw;
    [| eapply lifts_run; [apply lifts_withRetry | exact Hfetch]].
  now rewrite Hstatus.
Qed.

End FindIssue.

(** X15. When the extractor gives no usable number - [null], [NaN] or 0 -
    [findIssue] asks the service for nothing: it sets the three outputs
    to the empty string and ends normally. *)
Theorem findIssue_without_number
        (R Data : Type) (getOctokit : string -> Client R Data) (context : Context)
        (node_id JSON_stringify : Data -> string) (status : Thrown -> option Z)
        (env : Env) (j : Job R) (t : list Event) (v : Nullable JsNumber) :
  all_set env [if truthy (env "GITHUB_TOKEN") then "GITHUB_TOKEN" else "TOKEN";
               "BRANCH"; "REGEX"] ->
  outcome_of (extractIssueFromBranch (env_string env "BRANCH") (env_string env "REGEX"))
             (mkState j t)
  = Some (Return v) ->
  falsy_number v = true ->
  let run := findIssue getOctokit context node_id JSON_stringify status env
                       (mkState j t) in
  fst run = Return (Some tt)
  /\ world (snd run)
     = mkJob (remote j)
             (outputs j ++ [("issue", Some ""); ("issue_number", Some "");
                            ("issue_node_id", Some "")])
             (errors j) (failure j)
  /\ invocations (trace (snd run)) = invocations t.
Proof.
  intros Hset Hout Hfalsy run.
  destruct (findIssue_extracted R Data getOctokit context node_id JSON_stringify status
                                env j t Hset v Hout)
    as (t1 & Hcount & Hrun).
  subst run. rewrite Hrun, Hfalsy.
  assert (Hrest : forall line,
             (core_info line ;; setOutputs no_issue_outputs ;; ret (Some tt))
               (mkState j t1)
             = (Return (Some tt),
                mkState (mkJob (remote j) (outputs j ++ no_issue_outputs)
                               (errors j) (failure j))
                        ((t1 ++ [Info line]) ++ map output_line no_issue_outputs))).
  { intros line. unfold bind at 1. cbn [core_info emit world trace].
    erewrite bind_Return; [| apply setOutputs_eq]. reflexivity. }
  rewrite Hrest. cbn [fst snd world trace]. repeat split.
  rewrite !invocations_app, Hcount, invocations_output_lines. cbn. lia.
Qed.

Lemma findIssue_without_number_witness :
  let run := findIssue Doubles.getOctokit Doubles.context (fun d => d) (fun d => d)
                       Doubles.status
                       (Doubles.env_of [("TOKEN", "ghs_token");
                                        ("BRANCH", "refs/heads/issue-0-spike");
                                        ("REGEX", "issue-(\d+)")])
                       (mkState (Doubles.job (Fixtures.remote [] [])) []) in
  fst run = Return (Some tt)
  /\ world (snd run)
     = mkJob (Fixtures.remote [] [])
             [("issue", Some ""); ("issue_number", Some ""); ("issue_node_id", Some "")]
             [] None
  /\ invocations (trace (snd run)) = 0%nat.
Proof.
  exact (findIssue_without_number
           _ _ Doubles.getOctokit Doubles.context (fun d => d) (fun d => d)
           Doubles.status
           (Doubles.env_of [("TOKEN", "ghs_token");
                            ("BRANCH", "refs/heads/issue-0-spike");
                            ("REGEX", "issue-(\d+)")])
           (Doubles.job (Fixtures.remote [] [])) [] (Val (Num 0))
           eq_refl eq_refl eq_refl).
Defined.


(** The client's 404 is told by its message; the message of a permanent
    failure is a longer one. *)
Lemma status_of_exhausted (operation : string) (n : Z) (e : Thrown) :
  Doubles.status (RetryExhausted operation n e) = None.
Proof.
  unfold Doubles.status, RetryExhausted. cbn [message].
  destruct (String.eqb_spec
              (operation ++ " failed after " ++ string_of_Z n
                 ++ " attempts. Last error: " ++ message e)
              "Not Found") as [Heq | _]; [| reflexivity].
  apply (f_equal String.length) in Heq.
  rewrite !string_length_app in Heq. cbn in Heq. lia.
Qed.

(** ** addDomain *)

Lemma fields_resolved (R : Type) (octokit : Octokit R)
      (projectId fieldName optionName : string)
      (j : Job R) (t : list Event) (result : FieldsResult.t) (r1 : R)
      (fields : list Field.t) (f : Field.t)
      (options : list FieldOption.t) (o : FieldOption.t) :
  graphql_PROJECT_FIELDS octokit projectId (remote j) = (Return result, r1) ->
  FieldsResult.node result
  = Some (FieldsResult.make_node (Some (FieldsResult.make_fields fields))) ->
  first_such (fun g => Field.name g = fieldName) fields f ->
  Field.options f = Some options ->
  truthy (Some optionName) = true ->
  first_such (fun p => FieldOption.name p = optionName) options o ->
  exists t1,
    findProjectFields (job_octokit octokit) projectId fieldName (Some optionName)
                      (mkState j t)
    = (Return (mkLookup (Field.id f) (Some (FieldOption.id o)) f),
       mkState (with_remote j r1) t1)
    /\ invocations t1 = (invocations t + 1)%nat.
Proof.
  intros Hquery Hshape Hfield Hoptions Hname Hoption.
  apply (find_first_such _ _ (has_name_spec fieldName)) in Hfield.
  apply (find_first_such _ _ (option_has_name_spec optionName)) in Hoption.
  eexists. split.
  - erewrite findProjectFields_fetched;
      [| apply (request_answered R _ (graphql_PROJECT_FIELDS octokit projectId));
         exact Hquery
       | exact Hshape].
    rewrite Hfield. unfold select_option. rewrite Hoptions, Hname, Hoption.
    cbn [ret world trace]. reflexivity.
  - rewrite !invocations_app. cbn. lia.
Qed.

(** X17. Without [ITEM_ID] and without an issue in the event that started the
    workflow, [addDomain] throws before it sends any request. *)
Theorem addDomain_needs_issue_or_item
        (R Data : Type) (getOctokit : string -> Client R Data) (context : Context)
        (node_id : Data -> string) (env : Env) (j : Job R) (t : list Event) :
  all_set env ["GITHUB_TOKEN"; "PROJECT_ID"; "DOMAIN"] ->
  truthy (env "ITEM_ID") = false ->
  payload_issue_number context = None \/ payload_issue_number context = Some 0 ->
  let run := addDomain getOctokit context node_id env (mkState j t) in
  fst run = Throw (JsError "No issue number found in context and no ITEM_ID provided")
  /\ world (snd run) = j
  /\ invocations (trace (snd run)) = invocations t.
Proof.
  intros Hset Hitem Hissue run.
  assert (Htoken : truthy (env "GITHUB_TOKEN") = true)
    by (apply (all_set_truthy _ _ _ Hset); cbn; tauto).
  assert (Hrun : run
                 = (Throw (JsError "No issue number found in context and no ITEM_ID provided"),
                    mkState j (t ++ [Info ("✅ All required environment variables validated: "
                                             ++ join ", " ["GITHUB_TOKEN"; "PROJECT_ID";
                                                           "DOMAIN"])]))).
  { subst run. unfold addDomain.
    erewrite bind_Return; [| apply validate_ok; exact Hset].
    erewrite bind_Return; [| apply createOctokit_ok; exact Htoken].
    rewrite Hitem. apply bind_Throw. apply bind_Throw.
    unfold issue_of_context. now destruct Hissue as [-> | ->]. }
  rewrite Hrun. cbn [fst snd world trace]. repeat split.
  rewrite invocations_app. cbn. lia.
Qed.

Lemma addDomain_needs_issue_or_item_witness :
  let run := addDomain Doubles.getOctokit Doubles.context (fun d => d)
                       (Doubles.env_of [("GITHUB_TOKEN", "ghs_token");
                                        ("PROJECT_ID", "PVT_board");
                                        ("DOMAIN", "Billing");
                                        ("ITEM_ID", "")])
                       (mkState (Doubles.job (Fixtures.remote [] [])) []) in
  fst run = Throw (JsError "No issue number found in context and no ITEM_ID provided")
  /\ world (snd run) = Doubles.job (Fixtures.remote [] [])
  /\ invocations (trace (snd run)) = 0%nat.
Proof.
  exact (addDomain_needs_issue_or_item
           _ _ Doubles.getOctokit Doubles.context (fun d => d)
           (Doubles.env_of [("GITHUB_TOKEN", "ghs_token");
                            ("PROJECT_ID", "PVT_board");
                            ("DOMAIN", "Billing");
                            ("ITEM_ID", "")])
           (Doubles.job (Fixtures.remote [] [])) []
           eq_refl eq_refl (or_introl eq_refl)).
Defined.

(** X18. With [ITEM_ID] given, [addDomain] works on that item whatever the
    event was: it resolves the field [Domain] and the option named by
    [DOMAIN], sends the update for the given item with the ids it found,
    and neither fetches an issue nor looks up its memberships - two
    requests in all. *)
Theorem addDomain_with_item_id
        (R Data : Type) (getOctokit : string -> Client R Data) (context : Context)
        (node_id : Data -> string) (env : Env) (j : Job R) (t : list Event)
        (domainValue itemId : string)
        (result : FieldsResult.t) (fields : list Field.t) (f : Field.t)
        (options : list FieldOption.t) (o : FieldOption.t) (r1 r2 : R) :
  let octokit := getOctokit (env_string env "GITHUB_TOKEN") in
  let projectId := env_string env "PROJECT_ID" in
  all_set env ["GITHUB_TOKEN"; "PROJECT_ID"; "DOMAIN"; "ITEM_ID"] ->
  env "DOMAIN" = Some domainValue ->
  env "ITEM_ID" = Some itemId ->
  graphql_PROJECT_FIELDS (queries octokit) projectId (remote j) = (Return result, r1) ->
  FieldsResult.node result
  = Some (FieldsResult.make_node (Some (FieldsResult.make_fields fields))) ->
  first_such (fun g => Field.name g = "Domain") fields f ->
  Field.options f = Some options ->
  first_such (fun p => FieldOption.name p = domainValue) options o ->
  graphql_UPDATE_PROJECT_FIELD (mutations octokit) projectId itemId
                               (Field.id f) (Some (FieldOption.id o)) r1
  = (Return tt, r2) ->
  let run := addDomain getOctokit context node_id env (mkState j t) in
  fst run = Return tt
  /\ world (snd run) = with_remote j r2
  /\ invocations (trace (snd run)) = (invocations t + 2)%nat.
Proof.
  intros octokit projectId Hset Hdomain Hitem Hquery Hshape Hfield Hoptions Hoption
         Hupdate run.
  assert (Htoken : truthy (env "GITHUB_TOKEN") = true)
    by (apply (all_set_truthy _ _ _ Hset); cbn; tauto).
  assert (Hgiven : truthy (env "ITEM_ID") = true)
    by (apply (all_set_truthy _ _ _ Hset); cbn; tauto).
  assert (Hnamed : truthy (Some domainValue) = true)
    by (rewrite <- Hdomain; apply (all_set_truthy _ _ _ Hset); cbn; tauto).
  assert (Hrequired : all_set env ["GITHUB_TOKEN"; "PROJECT_ID"; "DOMAIN"]).
  { unfold all_set in *. cbn [filter] in *.
    destruct (unset_in env "GITHUB_TOKEN"); [discriminate |].
    destruct (unset_in env "PROJECT_ID"); [discriminate |].
    destruct (unset_in env "DOMAIN"); [discriminate | reflexivity]. }
  destruct (fields_resolved
              R (queries octokit) projectId "Domain" domainValue j
              (t ++ [Info ("✅ All required environment variables validated: "
                             ++ join ", " ["GITHUB_TOKEN"; "PROJECT_ID"; "DOMAIN"])])%list
              result r1 fields f options o Hquery Hshape Hfield Hoptions Hnamed Hoption)
    as (t1 & Hlookup & Hcount).
  assert (Hrun : exists t2,
             run = (Return tt, mkState (with_remote j r2) t2)
             /\ invocations t2 = (invocations t1 + 1)%nat).
  { eexists. split.
    - subst run. unfold addDomain.
      erewrite bind_Return; [| apply validate_ok; exact Hrequired].
      erewrite bind_Return; [| apply createOctokit_ok; exact Htoken].
      rewrite Hgiven. unfold bind at 1. cbn [ret].
      rewrite Hdomain.
      erewrite bind_Return; [| exact Hlookup].
      unfold bind at 1. unfold bind at 1. cbn [core_info emit ret world trace].
      rewrite Hitem. cbn [default fieldId optionId].
      erewrite bind_Return; [| apply request_answered; exact Hupdate].
      cbn [core_info emit world trace with_remote remote outputs errors failure].
      reflexivity.
    - cbn [trace]. rewrite !invocations_app. cbn. lia. }
  destruct Hrun as (t2 & Hrun & Hcount2). rewrite Hrun.
  cbn [fst snd world trace]. repeat split. rewrite Hcount2, Hcount.
  rewrite invocations_app. cbn. lia.
Qed.

Lemma addDomain_with_item_id_witness :
  let run := addDomain Doubles.getOctokit Doubles.context (fun d => d)
                       (Doubles.env_of [("GITHUB_TOKEN", "ghs_token");
                                        ("PROJECT_ID", "PVT_board");
                                        ("DOMAIN", "Billing");
                                        ("ITEM_ID", "PVTI_given")])
                       (mkState (Doubles.job
                                   (Fixtures.remote
                                      [Fixtures.status_field;
                                       Field.make "F_domain" "Domain" None
                                                  (Some [FieldOption.make "O_ops" "Ops";
                                                         FieldOption.make "O_bill" "Billing"])]
                                      []))
                                []) in
  fst run = Return tt /\ invocations (trace (snd run)) = 2%nat.
Proof.
  intros run.
  refine (let H := addDomain_with_item_id
                     _ _ Doubles.getOctokit Doubles.context (fun d => d)
                     (Doubles.env_of [("GITHUB_TOKEN", "ghs_token");
                                      ("PROJECT_ID", "PVT_board");
                                      ("DOMAIN", "Billing");
                                      ("ITEM_ID", "PVTI_given")])
                     (Doubles.job
                        (Fixtures.remote
                           [Fixtures.status_field;
                            Field.make "F_domain" "Domain" None
                                       (Some [FieldOption.make "O_ops" "Ops";
                                              FieldOption.make "O_bill" "Billing"])]
                           []))
                     [] "Billing" "PVTI_given" _ _
                     (Field.make "F_domain" "Domain" None
                                 (Some [FieldOption.make "O_ops" "Ops";
                                        FieldOption.make "O_bill" "Billing"]))
                     _ (FieldOption.make "O_bill" "Billing") _ _
                     eq_refl eq_refl eq_refl eq_refl eq_refl _ eq_refl _ eq_refl in
          conj (proj1 H) (proj2 (proj2 H))).
  - exists [Fixtures.status_field], []. split; [reflexivity |].
    split; [reflexivity |]. repeat constructor. discriminate.
  - exists [FieldOption.make "O_ops" "Ops"], []. split; [reflexivity |].
    split; [reflexivity |]. repeat constructor. discriminate.
Defined.
(** ** readConfig *)


(** ** setDate *)

Lemma date_field_found (R : Type) (octokit : Octokit R) (projectId fieldName : string)
      (j : Job R) (t : list Event) (result : FieldsResult.t) (r1 : R)
      (fields : list Field.t) (dateField : Field.t) :
  graphql_PROJECT_FIELDS octokit projectId (remote j) = (Return result, r1) ->
  FieldsResult.node result
  = Some (FieldsResult.make_node (Some (FieldsResult.make_fields fields))) ->
  first_such (fun f => Field.name f = fieldName /\ Field.dataType f = Some "DATE")
             fields dateField ->
  findDateField (job_octokit octokit) projectId fieldName (mkState j t)
  = (Return dateField,
     mkState (with_remote j r1)
             ((t ++ [Invoke])
                ++ [Info ("✅ Found date field '" ++ fieldName ++ "' (ID: "
                            ++ Field.id dateField ++ ")")])).
Proof.
  intros Hquery Hshape Hfield.
  apply (find_first_such _ _ (is_date_field_spec fieldName)) in Hfield.
  erewrite findDateField_fetched;
    [| apply (request_answered R _ (graphql_PROJECT_FIELDS octokit projectId));
       exact Hquery
     | exact Hshape].
  now rewrite Hfield.
Qed.

(** X20. With its variables set, the date field found and the memberships of
    the issue fetched, [setDate] writes the date to the membership on the
    board [PROJECT_ID] and reports the field and the date as outputs; the
    date is [DATE_VALUE], or today's date when that is unset or empty.
    For an issue that is not on the board it writes nothing and sets no
    output, and still ends normally. *)
Theorem setDate_writes_date_of_item_on_board
        (R Data : Type) (getOctokit : string -> Client R Data) (today : string)
        (env : Env) (j : Job R) (t : list Event)
        (fieldsResult : FieldsResult.t) (fields : list Field.t) (dateField : Field.t)
        (issueResult : IssueResult.t) (r1 r2 : R) :
  let octokit := getOctokit (env_string env "GITHUB_TOKEN") in
  let projectId := env_string env "PROJECT_ID" in
  let dateValue := match env "DATE_VALUE" with
                   | Some "" | None => today
                   | Some date => date
                   end in
  all_set env ["GITHUB_TOKEN"; "PROJECT_ID"; "FIELD_NAME"; "ISSUE_NODE_ID"] ->
  graphql_PROJECT_FIELDS (queries octokit) projectId (remote j)
  = (Return fieldsResult, r1) ->
  FieldsResult.node fieldsResult
  = Some (FieldsResult.make_node (Some (FieldsResult.make_fields fields))) ->
  first_such (fun f => Field.name f = env_string env "FIELD_NAME"
                       /\ Field.dataType f = Some "DATE")
             fields dateField ->
  graphql_ISSUE_PROJECT_ITEMS (queries octokit) (env_string env "ISSUE_NODE_ID") r1
  = (Return issueResult, r2) ->
  let run := setDate getOctokit today env (mkState j t) in
  match issue_item projectId issueResult with
  | Val it =>
      forall r3,
        graphql_UPDATE_PROJECT_DATE_FIELD (mutations octokit) projectId (Item.id it)
                                          (Field.id dateField) dateValue r2
        = (Return tt, r3) ->
        fst run = Return tt
        /\ world (snd run)
           = mkJob r3 (outputs j ++ [("fieldId", Some (Field.id dateField));
                                     ("date", Some dateValue)])
                   (errors j) (failure j)
        /\ invocations (trace (snd run)) = (invocations t + 3)%nat
  | _ =>
      fst run = Return tt
      /\ world (snd run) = with_remote j r2
      /\ invocations (trace (snd run)) = (invocations t + 2)%nat
  end.
Proof.
  intros octokit projectId dateValue Hset Hfields Hshape Hfield Hitems run.
  assert (Htoken : truthy (env "GITHUB_TOKEN") = true)
    by (apply (all_set_truthy _ _ _ Hset); cbn; tauto).
  assert (Hdate : or_default (env "DATE_VALUE") today = dateValue).
  { subst dateValue. unfold or_default, truthy.
    destruct (env "DATE_VALUE") as [[| c date] |]; reflexivity. }
  assert (Hrun : exists t1,
             invocations t1 = (invocations t + 2)%nat
             /\ run
                = (fun projectItem : Nullable Item.t =>
                     match projectItem with
                     | Val it =>
                         withRetry
                           (on_job (graphql_UPDATE_PROJECT_DATE_FIELD
                                      (mutations octokit) projectId (Item.id it)
                                      (Field.id dateField) dateValue))
                           (with_operation "updating date field") ;;
                         core_info ("✅ Field " ++ dquote ++ env_string env "FIELD_NAME"
                                      ++ dquote ++ " updated with date: " ++ dateValue) ;;
                         setOutputs [("fieldId", Some (Field.id dateField));
                                     ("date", Some dateValue)]
                     | _ => core_warning ("⚠️ Issue not found in project " ++ projectId)
                     end)
                    (issue_item projectId issueResult)
                    (mkState (with_remote j r2) t1)).
  { eexists. split; [| subst run; unfold setDate;
                       erewrite bind_Return; [| apply validate_ok; exact Hset];
                       erewrite bind_Return; [| apply createOctokit_ok; exact Htoken];
                       erewrite bind_Return;
                         [| eapply date_field_found; [exact Hfields | exact Hshape
                                                      | exact Hfield]];
                       erewrite bind_Return; [| apply issue_located; exact Hitems];
                       rewrite Hdate; reflexivity].
    cbn [trace]. rewrite !invocations_app. unfold invocations.
    cbn [filter is_invoke]. rewrite issue_log_line_not_invoke. cbn. lia. }
  destruct Hrun as (t1 & Hcount & Hrun). rewrite Hrun. cbv beta.
  destruct (issue_item projectId issueResult) as [| | it].
  - cbn -[invocations]. repeat split. rewrite invocations_app, Hcount. cbn. lia.
  - cbn -[invocations]. repeat split. rewrite invocations_app, Hcount. cbn. lia.
  - intros r3 Hupdate.
    match goal with
    | |- fst (?m ?s) = _ /\ _ =>
        assert (Htail : m s
                        = (Return tt,
                           mkState
                             (mkJob r3 (outputs j ++ [("fieldId", Some (Field.id dateField));
                                                      ("date", Some dateValue)])
                                    (errors j) (failure j))
                             (((t1 ++ [Invoke])
                                 ++ [Info ("✅ Field " ++ dquote
                                             ++ env_string env "FIELD_NAME" ++ dquote
                                             ++ " updated with date: " ++ dateValue)])
                                ++ map output_line
                                     [("fieldId", Some (Field.id dateField));
                                      ("date", Some dateValue)])))
    end.
    { erewrite bind_Return; [| apply request_answered; exact Hupdate].
      unfold bind at 1. cbn [core_info emit world trace].
      rewrite setOutputs_eq. reflexivity. }
    rewrite Htail. cbn [fst snd world trace]. repeat split.
    rewrite !invocations_app, Hcount, invocations_output_lines. cbn. lia.
Qed.

Lemma setDate_writes_date_of_item_on_board_witness :
  let run := setDate Doubles.getOctokit "2026-03-09"
                     (Doubles.env_of [("GITHUB_TOKEN", "ghs_token");
                                      ("PROJECT_ID", "PVT_board");
                                      ("FIELD_NAME", "End date");
                                      ("ISSUE_NODE_ID", "I_1");
                                      ("DATE_VALUE", "")])
                     (mkState (Doubles.job
                                 (Fixtures.remote
                                    [Fixtures.status_field; Fixtures.date_field]
                                    [Fixtures.item "PVTI_b" "PVT_board"]))
                              []) in
  fst run = Return tt
  /\ outputs (world (snd run)) = [("fieldId", Some "F_end"); ("date", Some "2026-03-09")]
  /\ invocations (trace (snd run)) = 3%nat.
Proof.
  intros run.
  refine (let H := setDate_writes_date_of_item_on_board
                     _ _ Doubles.getOctokit "2026-03-09"
                     (Doubles.env_of [("GITHUB_TOKEN", "ghs_token");
                                      ("PROJECT_ID", "PVT_board");
                                      ("FIELD_NAME", "End date");
                                      ("ISSUE_NODE_ID", "I_1");
                                      ("DATE_VALUE", "")])
                     (Doubles.job
                        (Fixtures.remote
                           [Fixtures.status_field; Fixtures.date_field]
                           [Fixtures.item "PVTI_b" "PVT_board"]))
                     [] _ _ Fixtures.date_field _ _ _
                     eq_refl eq_refl eq_refl _ eq_refl _ eq_refl in
          conj (proj1 H)
               (conj (f_equal outputs (proj1 (proj2 H))) (proj2 (proj2 H)))).
  exists [Fixtures.status_field], []. split; [reflexivity |].
  split; [now split |]. repeat constructor. intros [Hn Hd]. discriminate.
Defined.
(** ** addToProject *)

(** X21. With its variables set and the request to add the content answered,
    [addToProject] sends that one request and publishes the id of the new
    item as the output [itemId].  An answer without the item makes it
    throw a [TypeError] after the request went through, with no output
    set. *)
Theorem addToProject_outputs_item_id
        (R Data : Type) (getOctokit : string -> Client R Data) (env : Env)
        (j : Job R) (t : list Event) (result : AddResult.t) (r1 : R) :
  let octokit := getOctokit (env_string env "GITHUB_TOKEN") in
  all_set env ["GITHUB_TOKEN"; "PROJECT_ID"; "CONTENT_ID"] ->
  graphql_ADD_TO_PROJECT (mutations octokit) (env_string env "PROJECT_ID")
                         (env_string env "CONTENT_ID") (remote j)
  = (Return result, r1) ->
  let run := addToProject getOctokit env (mkState j t) in
  remote (world (snd run)) = r1
  /\ invocations (trace (snd run)) = (invocations t + 1)%nat
  /\ match AddResult.addProjectV2ItemById result with
     | Some (AddResult.make_payload (Some item)) =>
         fst run = Return tt
         /\ outputs (world (snd run))
            = (outputs j ++ [("itemId", Some (AddResult.id item))])%list
     | _ =>
         (exists reason, fst run = Throw (TypeError reason))
         /\ outputs (world (snd run)) = outputs j
     end.
Proof.
  intros octokit Hset Hadd run.
  assert (Htoken : truthy (env "GITHUB_TOKEN") = true)
    by (apply (all_set_truthy _ _ _ Hset); cbn; tauto).
  assert (Hrun : run
                 = (itemId <- added_item_id result ;;
                    core_info ("✅ Added content " ++ env_string env "CONTENT_ID"
                                 ++ " to project " ++ env_string env "PROJECT_ID") ;;
                    setOutputs [("itemId", Some itemId)])
                     (mkState (with_remote j r1)
                              ((t ++ [Info ("✅ All required environment variables validated: "
                                              ++ join ", " ["GITHUB_TOKEN"; "PROJECT_ID";
                                                            "CONTENT_ID"])])
                                 ++ [Invoke]))).
  { subst run. unfold addToProject.
    erewrite bind_Return; [| apply validate_ok; exact Hset].
    erewrite bind_Return; [| apply createOctokit_ok; exact Htoken].
    erewrite bind_Return; [| apply request_answered; exact Hadd].
    reflexivity. }
  rewrite Hrun. unfold added_item_id.
  destruct (AddResult.addProjectV2ItemById result) as [[[item |]] |].
  - assert (Htail : forall (s : State (Job R)) line,
               (itemId <- ret (AddResult.id item) ;;
                core_info line ;; setOutputs [("itemId", Some itemId)]) s
               = setOutputs [("itemId", Some (AddResult.id item))]
                            (mkState (world s) (trace s ++ [Info line])))
      by reflexivity.
    rewrite Htail, setOutputs_eq. cbn [fst snd world trace remote outputs with_remote].
    repeat split. rewrite !invocations_app. cbn. lia.
  - cbn -[invocations]. repeat split; [| now eexists].
    rewrite !invocations_app. cbn. lia.
  - cbn -[invocations]. repeat split; [| now eexists].
    rewrite !invocations_app. cbn. lia.
Qed.

Lemma addToProject_outputs_item_id_witness :
  let run := addToProject Doubles.getOctokit
                          (Doubles.env_of [("GITHUB_TOKEN", "ghs_token");
                                           ("PROJECT_ID", "PVT_board");
                                           ("CONTENT_ID", "I_1")])
                          (mkState (Doubles.job (Fixtures.remote [] [])) []) in
  fst run = Return tt
  /\ outputs (world (snd run)) = [("itemId", Some "PVTI_new")]
  /\ invocations (trace (snd run)) = 1%nat.
Proof.
  intros run.
  refine (let H := addToProject_outputs_item_id
                     _ _ Doubles.getOctokit
                     (Doubles.env_of [("GITHUB_TOKEN", "ghs_token");
                                      ("PROJECT_ID", "PVT_board");
                                      ("CONTENT_ID", "I_1")])
                     (Doubles.job (Fixtures.remote [] [])) [] _ _ eq_refl eq_refl in
          conj (proj1 (proj2 (proj2 H)))
               (conj (proj2 (proj2 (proj2 H))) (proj1 (proj2 H)))).
Defined.

(** ** findFields *)

(** X22. With its variables set and the field list fetched, [findFields]
    publishes the id of the first field named [FIELD_NAME] as [fieldId]
    and, as [optionId], the id of the first option of that field named
    [OPTION_NAME].  A field without options gives the output [optionId]
    the value [null]; a field with options but none of that name makes the
    script throw, with no output set. *)
Theorem findFields_outputs
        (R Data : Type) (getOctokit : string -> Client R Data) (env : Env)
        (j : Job R) (t : list Event) (optionName : string)
        (result : FieldsResult.t) (fields : list Field.t) (f : Field.t) (r1 : R) :
  let octokit := getOctokit (env_string env "GITHUB_TOKEN") in
  all_set env ["GITHUB_TOKEN"; "PROJECT_ID"; "FIELD_NAME"; "OPTION_NAME"] ->
  env "OPTION_NAME" = Some optionName ->
  graphql_PROJECT_FIELDS (queries octokit) (env_string env "PROJECT_ID") (remote j)
  = (Return result, r1) ->
  FieldsResult.node result
  = Some (FieldsResult.make_node (Some (FieldsResult.make_fields fields))) ->
  first_such (fun g => Field.name g = env_string env "FIELD_NAME") fields f ->
  let run := findFields getOctokit env (mkState j t) in
  let called := fun o => FieldOption.name o = optionName in
  match Field.options f with
  | None =>
      fst run = Return tt
      /\ outputs (world (snd run))
         = (outputs j ++ [("fieldId", Some (Field.id f)); ("optionId", None)])%list
  | Some options =>
      (forall o,
          first_such called options o ->
          fst run = Return tt
          /\ outputs (world (snd run))
             = (outputs j ++ [("fieldId", Some (Field.id f));
                              ("optionId", Some (FieldOption.id o))])%list)
      /\ ((forall o, In o options -> ~ called o) ->
          fst run = Throw (OptionNotFound optionName (env_string env "FIELD_NAME"))
          /\ outputs (world (snd run)) = outputs j)
  end.
Proof.
  intros octokit Hset Hoption Hquery Hshape Hfield run called.
  assert (Htoken : truthy (env "GITHUB_TOKEN") = true)
    by (apply (all_set_truthy _ _ _ Hset); cbn; tauto).
  assert (Hnamed : truthy (Some optionName) = true)
    by (rewrite <- Hoption; apply (all_set_truthy _ _ _ Hset); cbn; tauto).
  apply (find_first_such _ _ (has_name_spec (env_string env "FIELD_NAME"))) in Hfield.
  assert (Hrun : run
                 = (lookup <- (optionId <- select_option (env_string env "FIELD_NAME")
                                                         (Some optionName) f ;;
                               core_info ("✅ Found field '" ++ env_string env "FIELD_NAME"
                                            ++ "' (ID: " ++ Field.id f ++ ")"
                                            ++ (if truthy optionId
                                                then " with option '" ++ optionName
                                                       ++ "' (ID: "
                                                       ++ default "null" optionId ++ ")"
                                                else "")) ;;
                               ret (mkLookup (Field.id f) optionId f)) ;;
                    setOutputs [("fieldId", Some (fieldId lookup));
                                ("optionId", optionId lookup)])
                     (mkState (with_remote j r1)
                              ((t ++ [Info ("✅ All required environment variables validated: "
                                              ++ join ", " ["GITHUB_TOKEN"; "PROJECT_ID";
                                                            "FIELD_NAME"; "OPTION_NAME"])])
                                 ++ [Invoke]))).
  { subst run. unfold findFields.
    erewrite bind_Return; [| apply validate_ok; exact Hset].
    erewrite bind_Return; [| apply createOctokit_ok; exact Htoken].
    rewrite Hoption. unfold findProjectFields.
    unfold bind at 1.
    erewrite bind_Return;
      [| apply (request_answered R _ (graphql_PROJECT_FIELDS
                                        (queries octokit) (env_string env "PROJECT_ID")));
         exact Hquery].
    unfold fields_nodes at 1. rewrite Hshape.
    cbn [FieldsResult.fields FieldsResult.nodes].
    unfold bind at 1. cbn [ret]. rewrite Hfield. reflexivity. }
  rewrite Hrun. unfold select_option. rewrite Hnamed.
  destruct (Field.options f) as [options |].
  - split.
    + intros o Ho.
      apply (find_first_such _ _ (option_has_name_spec optionName)) in Ho.
      rewrite Ho.
      match goal with
      | |- fst (?m ?s) = _ /\ _ =>
          assert (Htail : m s
                          = setOutputs [("fieldId", Some (Field.id f));
                                        ("optionId", Some (FieldOption.id o))]
                                       (mkState (world s)
                                                (trace s ++ [Info ("✅ Found field '"
                                                                     ++ env_string env "FIELD_NAME"
                                                                     ++ "' (ID: " ++ Field.id f ++ ")"
                                                                     ++ (if truthy (Some (FieldOption.id o))
                                                                         then " with option '" ++ optionName
                                                                                ++ "' (ID: "
                                                                                ++ FieldOption.id o ++ ")"
                                                                         else ""))])))
            by reflexivity
      end.
      rewrite Htail, setOutputs_eq. now cbn.
    + intros Hnone.
      apply (find_none_iff _ _ (option_has_name_spec optionName)) in Hnone.
      rewrite Hnone. now cbn.
  - match goal with
    | |- fst (?m ?s) = _ /\ _ =>
        assert (Htail : m s
                        = setOutputs [("fieldId", Some (Field.id f)); ("optionId", None)]
                                     (mkState (world s)
                                              (trace s ++ [Info ("✅ Found field '"
                                                                   ++ env_string env "FIELD_NAME"
                                                                   ++ "' (ID: " ++ Field.id f
                                                                   ++ ")" ++ "")])))
          by reflexivity
    end.
    rewrite Htail, setOutputs_eq. now cbn.
Qed.

Lemma findFields_outputs_witness :
  (let run := findFields Doubles.getOctokit
                         (Doubles.env_of [("GITHUB_TOKEN", "ghs_token");
                                          ("PROJECT_ID", "PVT_board");
                                          ("FIELD_NAME", "Status");
                                          ("OPTION_NAME", "Done")])
                         (mkState (Doubles.job
                                     (Fixtures.remote
                                        [Fixtures.date_field; Fixtures.status_field] []))
                                  []) in
   fst run = Return tt
   /\ outputs (world (snd run))
      = [("fieldId", Some "F_status"); ("optionId", Some "O_done")])
  /\
  (let run := findFields Doubles.getOctokit
                         (Doubles.env_of [("GITHUB_TOKEN", "ghs_token");
                                          ("PROJECT_ID", "PVT_board");
                                          ("FIELD_NAME", "End date");
                                          ("OPTION_NAME", "Done")])
                         (mkState (Doubles.job
                                     (Fixtures.remote
                                        [Fixtures.date_field; Fixtures.status_field] []))
                                  []) in
   fst run = Return tt
   /\ outputs (world (snd run)) = [("fieldId", Some "F_end"); ("optionId", None)]).
Proof.
  split.
  - refine (proj1 (findFields_outputs
                     _ _ Doubles.getOctokit
                     (Doubles.env_of [("GITHUB_TOKEN", "ghs_token");
                                      ("PROJECT_ID", "PVT_board");
                                      ("FIELD_NAME", "Status");
                                      ("OPTION_NAME", "Done")])
                     (Doubles.job
                        (Fixtures.remote [Fixtures.date_field; Fixtures.status_field] []))
                     [] "Done" _ _ Fixtures.status_field _
                     eq_refl eq_refl eq_refl eq_refl _)
                  (FieldOption.make "O_done" "Done") _).
    + exists [Fixtures.date_field], []. split; [reflexivity |].
      split; [reflexivity |]. repeat constructor. discriminate.
    + exists [FieldOption.make "O_todo" "Todo"], []. split; [reflexivity |].
      split; [reflexivity |]. repeat constructor. discriminate.
  - refine (findFields_outputs
              _ _ Doubles.getOctokit
              (Doubles.env_of [("GITHUB_TOKEN", "ghs_token");
                               ("PROJECT_ID", "PVT_board");
                               ("FIELD_NAME", "End date");
                               ("OPTION_NAME", "Done")])
              (Doubles.job
                 (Fixtures.remote [Fixtures.date_field; Fixtures.status_field] []))
              [] "Done" _ _ Fixtures.date_field _
              eq_refl eq_refl eq_refl eq_refl _).
    exists [], [Fixtures.status_field]. split; [reflexivity |].
    split; [reflexivity |]. constructor.
Defined.
